(** * updater: self-update of a running Go executable

    A shallow embedding of [updater.go].  Pure helpers of the Go standard
    library that the package relies on ([strings.TrimSpace],
    [strings.ToLower], [strings.HasSuffix], [filepath.Base]) are written out
    on byte strings, which is what Go strings are.  Everything that reaches
    outside the process (the network, the JSON decoder, the URL parser, the
    template engine, the archive readers, the file system and its
    failures) is collected in an environment [Env]; the package's own
    functions are written over an arbitrary environment and thread a
    [World] (file system, log of HTTP requests, counters) through an error
    monad. *)

From Stdlib Require Import String Ascii ZArith List Bool Lia DecimalString.
From stdpp Require Import base gmap strings list.

Local Open Scope string_scope.
Local Open Scope Z_scope.

(** ** Byte-string helpers of the Go standard library *)

Definition byte (c : ascii) : N := N_of_ascii c.

(** [asciiSpace] of package [strings]: tab, newline, vertical tab, form
    feed, carriage return and space. *)
Definition asciiSpace (c : ascii) : bool :=
  ((9 <=? byte c) && (byte c <=? 13) || (byte c =? 32))%N.

(** [unicode.IsSpace]: the Latin-1 white space, then the [White_Space]
    table. *)
Definition unicode_IsSpace (r : N) : bool :=
  (if r <=? 0xFF then
     (9 <=? r) && (r <=? 13) || (r =? 0x20) || (r =? 0x85) || (r =? 0xA0)
   else
     (r =? 0x1680) || (0x2000 <=? r) && (r <=? 0x200A) || (r =? 0x2028) || (r =? 0x2029) ||
     (r =? 0x202F) || (r =? 0x205F) || (r =? 0x3000))%N.

(** UTF-8: a continuation byte, and the runes that well-formed sequences
    of two and of three bytes encode.  Sequences of four bytes encode
    runes from U+10000 on, none of which is white space, and a byte that
    starts no well-formed sequence decodes to [utf8.RuneError], which is
    not white space either. *)
Definition continuation (c : ascii) : bool := ((0x80 <=? byte c) && (byte c <=? 0xBF))%N.

Definition rune2 (c1 c2 : ascii) : option N :=
  (if (0xC2 <=? byte c1) && (byte c1 <=? 0xDF) && continuation c2
   then Some ((byte c1 - 0xC0) * 64 + (byte c2 - 0x80))
   else None)%N.

Definition rune3 (c1 c2 c3 : ascii) : option N :=
  (if (0xE0 <=? byte c1) && (byte c1 <=? 0xEF) && continuation c2 && continuation c3 &&
      negb ((byte c1 =? 0xE0) && (byte c2 <? 0xA0)) &&
      negb ((byte c1 =? 0xED) && (0xA0 <=? byte c2))
   then Some ((byte c1 - 0xE0) * 4096 + (byte c2 - 0x80) * 64 + (byte c3 - 0x80))
   else None)%N.

Definition space2 (c1 c2 : ascii) : bool :=
  match rune2 c1 c2 with
  | Some r => unicode_IsSpace r
  | None => false
  end.

Definition space3 (c1 c2 c3 : ascii) : bool :=
  match rune3 c1 c2 c3 with
  | Some r => unicode_IsSpace r
  | None => false
  end.

(** Drop white-space runes from the front of [s], as long as there are
    any; [two] and [three] recognise the white-space runes of two and of
    three bytes. *)
Fixpoint trim_runes (two : ascii -> ascii -> bool) (three : ascii -> ascii -> ascii -> bool)
    (s : string) : string :=
  match s with
  | String c1 s1 =>
      if asciiSpace c1 then trim_runes two three s1
      else
        match s1 with
        | String c2 s2 =>
            if two c1 c2 then trim_runes two three s2
            else
              match s2 with
              | String c3 s3 => if three c1 c2 c3 then trim_runes two three s3 else s
              | EmptyString => s
              end
        | EmptyString => s
        end
  | EmptyString => EmptyString
  end.

Fixpoint string_rev (s : string) : string :=
  match s with
  | EmptyString => EmptyString
  | String c s' => string_rev s' ++ String c EmptyString
  end.

(** [strings.TrimLeftFunc(s, unicode.IsSpace)]. *)
Definition trim_left (s : string) : string := trim_runes space2 space3 s.

(** The same from the back, on the reversed string: the last rune is read
    as [utf8.DecodeLastRuneInString] reads it. *)
Definition trim_back (s : string) : string :=
  trim_runes (fun c2 c1 => space2 c1 c2) (fun c3 c2 c1 => space3 c1 c2 c3) s.

(** [strings.TrimRightFunc(s, unicode.IsSpace)]. *)
Definition trim_right (s : string) : string := string_rev (trim_back (string_rev s)).

(** [strings.TrimSpace]: the white-space runes at both ends are cut off. *)
Definition strings_TrimSpace (s : string) : string := trim_right (trim_left s).

(** [s] is made of white-space runes only. *)
Definition all_space (s : string) : bool := String.eqb (trim_left s) "".

Definition lower_byte (c : ascii) : ascii :=
  let n := nat_of_ascii c in
  if ((65 <=? n) && (n <=? 90))%nat then ascii_of_nat (n + 32) else c.

(** The first loop of [strings.ToLower]: no byte is [utf8.RuneSelf] or
    above. *)
Definition isASCII (s : string) : bool :=
  forallb (fun c => (nat_of_ascii c <? 128)%nat) (list_ascii_of_string s).

(** The branch of [strings.ToLower] for ASCII-only strings: every byte
    from ['A'] to ['Z'] is moved to lower case. *)
Fixpoint lower_bytes (s : string) : string :=
  match s with
  | EmptyString => EmptyString
  | String c s' => String (lower_byte c) (lower_bytes s')
  end.

(** [path[n:]]. *)
Fixpoint drop_bytes (n : nat) (path : string) : string :=
  match n, path with
  | O, _ => path
  | S n', String _ p' => drop_bytes n' p'
  | S _, EmptyString => EmptyString
  end.

(** [strings.HasSuffix]: [len(s) >= len(suffix) && s[len(s)-len(suffix):] == suffix]. *)
Definition strings_HasSuffix (s suffix : string) : bool :=
  ((String.length suffix <=? String.length s)%nat &&
   String.eqb (substring (String.length s - String.length suffix)
                         (String.length suffix) s) suffix).

(** [os.IsPathSeparator]: ['/'] everywhere, and ['\'] too on Windows. *)
Definition os_IsPathSeparator (goos : string) (c : ascii) : bool :=
  Ascii.eqb c "/"%char || (String.eqb goos "windows" && Ascii.eqb c "\"%char).

Fixpoint strip_trailing_separators (goos : string) (path : string) : string :=
  match path with
  | EmptyString => EmptyString
  | String c p' =>
      match strip_trailing_separators goos p' with
      | EmptyString => if os_IsPathSeparator goos c then EmptyString else String c EmptyString
      | t => String c t
      end
  end.

(** The part of [path] after its last separator (all of it when there is none). *)
Fixpoint last_element (goos : string) (path : string) : string :=
  match path with
  | EmptyString => EmptyString
  | String c p' =>
      if existsb (os_IsPathSeparator goos) (list_ascii_of_string p') then last_element goos p'
      else if os_IsPathSeparator goos c then p'
      else path
  end.

(** A three-digit octal file mode, as Go writes [0744]. *)
Definition octal (u g o : Z) : Z := u * 64 + g * 8 + o.

(** [%d] of [fmt]. *)
Definition decimal (n : Z) : string := NilZero.string_of_int (Z.to_int n).

(** ** Data model *)

(** Error values.  [NotSupportedError] is the package's own error type;
    [Errorf] is [fmt.Errorf] with a fully known message, [Wrapf] is
    [fmt.Errorf] with a trailing [%w] verb, and [Failure] stands for the
    error value handed back by a failing library or system call. *)
Inductive error :=
| NotSupportedError (Platform : string)
| Errorf (msg : string)
| Wrapf (msg : string) (cause : error)
| Failure (call : string).

(** The [Error] method of [NotSupportedError]; the other errors print
    their message. *)
Fixpoint Error (e : error) : string :=
  match e with
  | NotSupportedError Platform => "Self updating is not support for " ++ Platform ++ "."
  | Errorf msg => msg
  | Wrapf msg cause => msg ++ Error cause
  | Failure call => call
  end.

Record UpdaterManifest := {
  Version : string;
  Archive : string;
  Binary : string;
  Os : gmap string string;
  Arch : gmap string (gmap string string)
}.

(** The third field is called [UpdaterConfig] in the source, like the type. *)
Record UpdaterConfig := {
  CurrentVersion : string;
  BaseUrl : string;
  UpdaterConfigName : string
}.

Record Updater := {
  config : UpdaterConfig;
  archiveName : string;
  binaryName : string
}.

Definition New (config : UpdaterConfig) : Updater :=
  {| config := config; archiveName := ""; binaryName := "" |}.

Module variables.
Record t := { Os : string; Arch : string; ArchiveExt : string; Ext : string }.
End variables.

(** A byte stream that is read to its end: the bytes it delivers, and
    whether the reader then reports end of file ([true]) or an error. *)
Record stream := { bytes : string; intact : bool }.

Module url.
(** The two fields of [url.URL] the package looks at. *)
Record URL := { Scheme : string; Host : string }.
End url.

Module http.
Record Response := { StatusCode : Z; Body : stream }.
End http.

Module tar.
Record Header := { Name : string; Typeflag : ascii }.
Definition TypeReg : ascii := "0"%char.
Definition TypeDir : ascii := "5"%char.
(** What one call of [Reader.Next] yields before the end of the archive:
    a header with the entry's data, or an error. *)
Inductive Next := Entry (header : Header) (data : stream) | Corrupt.
End tar.

Module zip.
(** [Name], [FileInfo().Mode().IsRegular()] and the outcome of [Open]. *)
Record File := { Name : string; IsRegular : bool; Open : option stream }.
End zip.

(** How a file-system call can go wrong: not at all, without touching the
    disk, or (for calls that write data) after [n] bytes have been written. *)
Inductive fault := NoFault | Fails | FailsAfter (n : nat).

(** The environment of one run: the platform, the libraries and the
    outside world.  [http_Do k u] is what [httpClient.Do] returns for a
    GET of [u] when it was called [k] times before: the last answer, after
    the redirects the client follows on its own ([None]: an error); [fs_fault k] is
    the fate of the [k]-th file-system call; [uuid_NewString k] is the
    [k]-th identifier drawn. *)
Record Env := {
  GOOS : string;
  GOARCH : string;
  os_TempDir : string;
  os_Executable : option string;
  umask : Z;
  uuid_NewString : nat -> string;
  filepath_Join : string -> string -> string;
  filepath_Dir : string -> string;
  filepath_VolumeName : string -> string;
  unicode_ToLower : string -> string;
  url_JoinPath : string -> string -> option string;
  url_Parse : string -> option url.URL;
  http_Do : nat -> string -> option http.Response;
  json_Unmarshal : string -> option UpdaterManifest;
  template_Parse : string -> option (variables.t -> option string);
  gzip_tar_Reader : string -> option (list tar.Next);
  zip_Reader : string -> option (list zip.File);
  fs_fault : nat -> fault
}.

Record File := { content : string; perm : Z }.

(** The mutable world: the files on disk, the URLs handed to
    [httpClient.Do] so far, one for each call (the hops of a redirect are
    the client's own and are not recorded), the number of identifiers
    drawn, the number of file-system calls made, and the earlier states of
    the disk, oldest first. *)
Record World := {
  fs : gmap string File;
  requests : list string;
  uuids : nat;
  syscalls : nat;
  trace : list (gmap string File)
}.

(** Every state the disk has been in, the current one last. *)
Definition states (w : World) : list (gmap string File) := trace w ++ [fs w].

Definition log_request (u : string) (w : World) : World :=
  {| fs := fs w; requests := requests w ++ [u]; uuids := uuids w;
     syscalls := syscalls w; trace := trace w |}.

Definition draw (w : World) : World :=
  {| fs := fs w; requests := requests w; uuids := S (uuids w);
     syscalls := syscalls w; trace := trace w |}.

Definition tick (w : World) : World :=
  {| fs := fs w; requests := requests w; uuids := uuids w;
     syscalls := S (syscalls w); trace := trace w |}.

Definition write_fs (fs' : gmap string File) (w : World) : World :=
  {| fs := fs'; requests := requests w; uuids := uuids w;
     syscalls := syscalls w; trace := trace w ++ [fs w] |}.

(** ** The error monad over the world *)

Inductive result (A : Type) := Ok (a : A) | Err (e : error).
Arguments Ok {A} a.
Arguments Err {A} e.

Definition M (A : Type) : Type := World -> result A * World.

#[export] Instance M_ret : MRet M := fun A a w => (Ok a, w).
#[export] Instance M_bind : MBind M := fun A B k c w =>
  match c w with
  | (Ok a, w') => k a w'
  | (Err e, w') => (Err e, w')
  end.

Definition fail {A} (e : error) : M A := fun w => (Err e, w).

(** [v, err := f(); if err != nil { return err }] for a library call
    whose failure is [None]. *)
Definition try {A} (call : string) (o : option A) : M A :=
  match o with
  | Some a => mret a
  | None => fail (Failure call)
  end.

(** The same with the error wrapped by [fmt.Errorf(msg + "%w", err)]. *)
Definition try_wrap {A} (msg call : string) (o : option A) : M A :=
  match o with
  | Some a => mret a
  | None => fail (Wrapf msg (Failure call))
  end.

Definition wrap {A} (msg : string) (c : M A) : M A := fun w =>
  match c w with
  | (Ok a, w') => (Ok a, w')
  | (Err e, w') => (Err (Wrapf msg e), w')
  end.

(** ** The package, over an arbitrary environment *)

Section Program.

Context (E : Env).

(** *** System and library calls *)

(** [uuid.NewString]. *)
Definition uuid_New : M string := fun w => (Ok (uuid_NewString E (uuids w)), draw w).

(** [strings.ToLower]: a string of ASCII bytes only is lowered byte by
    byte; any other goes through [strings.Map(unicode.ToLower, s)], which
    the environment provides. *)
Definition strings_ToLower (s : string) : string :=
  if isASCII s then lower_bytes s else unicode_ToLower E s.

(** [filepath.VolumeName]: empty off Windows; on Windows the leading
    volume (a drive letter with its colon, a UNC or device prefix), as the
    platform's library finds it. *)
Definition VolumeName (path : string) : string :=
  if String.eqb (GOOS E) "windows" then filepath_VolumeName E path else "".

(** [filepath.Base]: ["."] for the empty path; otherwise the trailing
    separators are removed, then the volume name, and the part after the
    last separator is returned, or a single separator when nothing is
    left. *)
Definition filepath_Base (path : string) : string :=
  match path with
  | EmptyString => "."
  | _ =>
      let path := strip_trailing_separators (GOOS E) path in
      let path := drop_bytes (String.length (VolumeName path)) path in
      match last_element (GOOS E) path with
      | EmptyString => if String.eqb (GOOS E) "windows" then "\" else "/"
      | b => b
      end
  end.

(** Every file-system call first learns its fate. *)
Definition syscall : M fault := fun w => (Ok (fs_fault E (syscalls w)), tick w).

Definition get_fs : M (gmap string File) := fun w => (Ok (fs w), w).

Definition set_fs (disk : gmap string File) : M unit := fun w => (Ok tt, write_fs disk w).

(** The file [name] holds after [data] has been written to it with
    [O_CREATE|O_TRUNC]: an existing file keeps its mode, a new one gets
    [mode] less the process's umask. *)
Definition written (disk : gmap string File) (name data : string) (mode : Z) : File :=
  match disk !! name with
  | Some old => {| content := data; perm := perm old |}
  | None => {| content := data; perm := Z.ldiff mode (umask E) |}
  end.

(** [os.Rename]: atomic; replaces [newpath]; fails when [oldpath] is missing. *)
Definition os_Rename (oldpath newpath : string) : M unit :=
  f ← syscall; disk ← get_fs;
  match f, disk !! oldpath with
  | NoFault, Some file => set_fs (<[newpath := file]> (delete oldpath disk))
  | _, _ => fail (Failure "os.Rename")
  end.

(** [os.WriteFile]: a failure may leave the file created and partly written. *)
Definition os_WriteFile (name data : string) (mode : Z) : M unit :=
  f ← syscall; disk ← get_fs;
  match f with
  | NoFault => set_fs (<[name := written disk name data mode]> disk)
  | Fails => fail (Failure "os.WriteFile")
  | FailsAfter n =>
      set_fs (<[name := written disk name (substring 0 n data) mode]> disk);;
      fail (Failure "os.WriteFile")
  end.

(** [os.Create]: [O_RDWR|O_CREATE|O_TRUNC] with mode 0666. *)
Definition os_Create (name : string) : M unit :=
  f ← syscall; disk ← get_fs;
  match f with
  | NoFault => set_fs (<[name := written disk name "" (octal 6 6 6)]> disk)
  | _ => fail (Failure "os.Create")
  end.

Definition append (data : string) (f : File) : File :=
  {| content := content f ++ data; perm := perm f |}.

(** [io.Copy] of a stream into the file just created at [dst]. *)
Definition io_Copy (dst : string) (src : stream) : M unit :=
  f ← syscall; disk ← get_fs;
  match f with
  | NoFault =>
      set_fs (alter (append (bytes src)) dst disk);;
      if intact src then mret tt else fail (Failure "io.Copy")
  | Fails => fail (Failure "io.Copy")
  | FailsAfter n =>
      set_fs (alter (append (substring 0 n (bytes src))) dst disk);;
      fail (Failure "io.Copy")
  end.

(** The [Close] method of [os.File]. *)
Definition file_Close : M unit :=
  f ← syscall;
  match f with
  | NoFault => mret tt
  | _ => fail (Failure "os.File.Close")
  end.

(** [os.Chmod]: sets the permission bits to [mode] exactly. *)
Definition os_Chmod (name : string) (mode : Z) : M unit :=
  f ← syscall; disk ← get_fs;
  match f, disk !! name with
  | NoFault, Some file => set_fs (<[name := {| content := content file; perm := mode |}]> disk)
  | _, _ => fail (Failure "os.Chmod")
  end.

(** [os.Remove]. *)
Definition os_Remove (name : string) : M unit :=
  f ← syscall; disk ← get_fs;
  match f, disk !! name with
  | NoFault, Some _ => set_fs (delete name disk)
  | _, _ => fail (Failure "os.Remove")
  end.

(** Reading a whole file, as [os.Open] followed by a reader does. *)
Definition os_Open (call : string) (name : string) : M string :=
  f ← syscall; disk ← get_fs;
  match f, disk !! name with
  | NoFault, Some file => mret (content file)
  | _, _ => fail (Failure call)
  end.

(** [http.NewRequest("GET", url, nil)] fails exactly when the URL does not parse. *)
Definition http_NewRequest (requestUrl : string) : M unit :=
  try "http.NewRequest" (url_Parse E requestUrl);; mret tt.

(** [httpClient.Do]: the call is logged with the URL it is made for,
    whatever comes back.  The client is the zero [http.Client]: on a
    redirect it goes on to the URL the answer names, which the package
    never sees; the log holds the calls, not these hops. *)
Definition httpClient_Do (requestUrl : string) : M http.Response := fun w =>
  match http_Do E (length (requests w)) requestUrl with
  | Some resp => (Ok resp, log_request requestUrl w)
  | None => (Err (Failure "http.Client.Do"), log_request requestUrl w)
  end.

Definition io_ReadAll (body : stream) : M string :=
  if intact body then mret (bytes body) else fail (Failure "io.ReadAll").

Definition status_error (code : Z) : error :=
  Errorf ("Error getting updater config. Status code: " ++ decimal code).

(** *** updater.go *)

Definition validateUrl (path : string) : M unit :=
  url ← try "url.Parse" (url_Parse E path);
  if negb (String.eqb (url.Scheme url) "https") then
    fail (Errorf "Invalid URL scheme. Only https is supported")
  else if String.eqb (url.Host url) "" then
    fail (Errorf ("Invalud URL. Expecting absolute URL but got " ++ path))
  else mret tt.

Definition GetManifest (updater : Updater) : M UpdaterManifest :=
  requestUrl ← try "url.JoinPath"
    (url_JoinPath E (BaseUrl (config updater)) (UpdaterConfigName (config updater)));
  validateUrl requestUrl;;
  http_NewRequest requestUrl;;
  resp ← httpClient_Do requestUrl;
  if negb (http.StatusCode resp =? 200) then fail (status_error (http.StatusCode resp))
  else
    responseBody ← io_ReadAll (http.Body resp);
    manifest ← try "json.Unmarshal" (json_Unmarshal E responseBody);
    mret manifest.

Definition CheckForAvailableUpdate (updater : Updater) : M (bool * string) :=
  let currentVersion := strings_TrimSpace (CurrentVersion (config updater)) in
  if String.eqb currentVersion "" then fail (Errorf "Current version not specified")
  else
    manifest ← GetManifest updater;
    let manifestVersion := strings_TrimSpace (Version manifest) in
    if negb (String.eqb currentVersion manifestVersion) then mret (true, manifestVersion)
    else mret (false, "").

(** [GetDownloadInfo] has no effect on the world: it reads the manifest and
    the platform only. *)
Definition GetDownloadInfo (manifest : UpdaterManifest) : result (string * string) :=
  if String.eqb (strings_TrimSpace (Binary manifest)) "" then
    Err (Errorf "Manifest does not specify binary name")
  else
    let os := GOOS E in
    let arch := GOARCH E in
    let notSupported := NotSupportedError (os ++ "/" ++ arch) in
    let archiveExt := if String.eqb os "windows" then ".zip" else ".tar.gz" in
    let ext := if String.eqb os "windows" then ".exe" else "" in
    match Os manifest !! os with
    | None => Err notSupported
    | Some os =>
        match Arch manifest !! os with
        | None => Err notSupported
        | Some archMap =>
            match archMap !! arch with
            | None => Err notSupported
            | Some arch =>
                let variables :=
                  {| variables.Os := os; variables.Arch := arch;
                     variables.ArchiveExt := archiveExt; variables.Ext := ext |} in
                let archive :=
                  if negb (String.eqb (strings_TrimSpace (Archive manifest)) "") then
                    match template_Parse E (Archive manifest) with
                    | None => Err (Failure "template.Parse")
                    | Some archiveTmpl =>
                        match archiveTmpl variables with
                        | None => Err (Failure "template.Execute")
                        | Some buf => Ok buf
                        end
                    end
                  else Ok ""
                in
                match archive with
                | Err e => Err e
                | Ok archiveName =>
                    match template_Parse E (Binary manifest) with
                    | None => Err (Failure "template.Parse")
                    | Some binaryTmpl =>
                        match binaryTmpl variables with
                        | None => Err (Failure "template.Execute")
                        | Some binaryName => Ok (archiveName, binaryName)
                        end
                    end
                end
            end
        end
    end.

Definition downloadBinary (updater : Updater) : M unit :=
  let tempDir := os_TempDir E in
  filename ← uuid_New;
  let tempFile := filepath_Join E tempDir filename in
  binaryPath ← try "os.Executable" (os_Executable E);
  requestUrl ← try "url.JoinPath" (url_JoinPath E (BaseUrl (config updater)) (binaryName updater));
  validateUrl requestUrl;;
  http_NewRequest requestUrl;;
  resp ← httpClient_Do requestUrl;
  if negb (http.StatusCode resp =? 200) then fail (status_error (http.StatusCode resp))
  else
    responseBody ← io_ReadAll (http.Body resp);
    os_Rename binaryPath tempFile;;
    os_WriteFile binaryPath responseBody (octal 6 4 4);;
    os_Chmod binaryPath (octal 7 4 4);;
    mret tt.

(** [zip.OpenReader]: open the file and read the archive's directory. *)
Definition zip_OpenReader (src : string) : M (list zip.File) :=
  data ← os_Open "zip.OpenReader" src;
  try "zip.OpenReader" (zip_Reader E data).

Definition not_found (updater : Updater) : error :=
  Errorf ("Error extracting binary from " ++ archiveName updater ++
          ". No binary matched the name " ++ binaryName updater).

(** The [for ... range uncompressedStream.File] loop of [extractZip]; the
    result is the flag [created].  [break] sits in an [if] and leaves the
    loop. *)
Fixpoint extractZip_range (updater : Updater) (tempDir destination binaryPath : string)
    (files : list zip.File) : M bool :=
  match files with
  | [] => mret false
  | f :: files' =>
      rc ← try_wrap "ExtractZip: failed to open file " "zip.File.Open" (zip.Open f);
      let basename := filepath_Base (zip.Name f) in
      if String.eqb basename (binaryName updater) then
        filename ← uuid_New;
        tempName ← uuid_New;
        let tempPath := filepath_Join E tempDir tempName in
        let path := filepath_Join E destination filename in
        if zip.IsRegular f then
          wrap "ExtractZip: failed to open file " (os_Create path);;
          wrap "ExtractZip: failed to copy file " (io_Copy path rc);;
          file_Close;;
          os_Rename binaryPath tempPath;;
          os_Rename path binaryPath;;
          os_Chmod binaryPath (octal 7 4 4);;
          mret true
        else extractZip_range updater tempDir destination binaryPath files'
      else extractZip_range updater tempDir destination binaryPath files'
  end.

Definition extractZip (updater : Updater) (src : string) : M unit :=
  let tempDir := os_TempDir E in
  let destination := filepath_Dir E src in
  binaryPath ← try "os.Executable" (os_Executable E);
  uncompressedStream ← wrap "ExtractZip: NewReader failed " (zip_OpenReader src);
  created ← extractZip_range updater tempDir destination binaryPath uncompressedStream;
  if negb created then fail (not_found updater)
  else mret tt.

(** The [for] loop of [extractTarball] around [tarReader.Next()]; the
    argument [created] is the flag's value on entry and the result its
    value when the loop is left at [io.EOF].  [break] sits in a [switch]
    and leaves the [switch] only: the loop then asks for the next header. *)
Fixpoint extractTarball_for (updater : Updater) (tempDir destination binaryPath : string)
    (tarReader : list tar.Next) (created : bool) : M bool :=
  match tarReader with
  | [] => mret created
  | tar.Corrupt :: _ =>
      fail (Wrapf "ExtractTarGz: Next() failed: " (Failure "tar.Reader.Next"))
  | tar.Entry header data :: rest =>
      let basename := filepath_Base (tar.Name header) in
      if String.eqb basename (binaryName updater) then
        filename ← uuid_New;
        tempName ← uuid_New;
        let tempPath := filepath_Join E tempDir tempName in
        let path := filepath_Join E destination filename in
        if Ascii.eqb (tar.Typeflag header) tar.TypeReg then
          wrap "ExtractTarGz: Create() failed: " (os_Create path);;
          wrap "ExtractTarGz: Copy() failed: " (io_Copy path data);;
          wrap "Failed to close file. " file_Close;;
          os_Rename binaryPath tempPath;;
          os_Rename path binaryPath;;
          os_Chmod binaryPath (octal 7 4 4);;
          extractTarball_for updater tempDir destination binaryPath rest true
        else extractTarball_for updater tempDir destination binaryPath rest created
      else extractTarball_for updater tempDir destination binaryPath rest created
  end.

Definition extractTarball (updater : Updater) (src : string) : M unit :=
  let tempDir := os_TempDir E in
  let destination := filepath_Dir E src in
  binaryPath ← try "os.Executable" (os_Executable E);
  file ← os_Open "os.Open" src;
  uncompressedStream ← try_wrap "ExtractTarGz: NewReader failed " "gzip.NewReader"
    (gzip_tar_Reader E file);
  created ← extractTarball_for updater tempDir destination binaryPath uncompressedStream false;
  if negb created then fail (not_found updater)
  else os_Remove src.

Definition downloadArchive (updater : Updater) : M unit :=
  let tempDir := os_TempDir E in
  filename ← uuid_New;
  let tempFile := filepath_Join E tempDir filename in
  requestUrl ← try "url.JoinPath" (url_JoinPath E (BaseUrl (config updater)) (archiveName updater));
  validateUrl requestUrl;;
  http_NewRequest requestUrl;;
  resp ← httpClient_Do requestUrl;
  if negb (http.StatusCode resp =? 200) then fail (status_error (http.StatusCode resp))
  else
    responseBody ← io_ReadAll (http.Body resp);
    os_WriteFile tempFile responseBody (octal 6 4 4);;
    if strings_HasSuffix (strings_ToLower (archiveName updater)) ".tar.gz" then
      extractTarball updater tempFile
    else if strings_HasSuffix (strings_ToLower (archiveName updater)) ".zip" then
      extractZip updater tempFile
    else
      fail (Errorf ("Error. Only .tar.gz or .zip archives are supported. Got " ++
                    archiveName updater)).

(** [Update] stores the resolved names in the updater before it downloads. *)
Definition Update (updater : Updater) : M unit :=
  manifest ← GetManifest updater;
  match GetDownloadInfo manifest with
  | Err e => fail e
  | Ok (archiveName, binaryName) =>
      let updater :=
        {| config := config updater; archiveName := archiveName; binaryName := binaryName |} in
      if negb (String.eqb archiveName "") then downloadArchive updater
      else downloadBinary updater
  end.

End Program.

(** ** text/template, for templates made of text and field references

    [{{] opens an action and the next [}}] closes it; an action made of a
    single field reference [.Name], with optional blanks around it, prints
    that field of the data.  Everything else the engine understands
    (pipelines, control structures, comments, trim markers) is outside this
    model and is refused by [Parse]. *)
Module template.

Inductive node := Text (s : string) | Field (name : string).

Definition text_node (s : string) : list node :=
  match s with
  | EmptyString => []
  | _ => [Text s]
  end.

(** Blanks inside an action: space, tab, carriage return, newline. *)
Definition isSpace (c : ascii) : bool :=
  let n := nat_of_ascii c in
  ((n =? 32) || (n =? 9) || (n =? 13) || (n =? 10))%nat.

Definition isAlphaNumeric (c : ascii) : bool :=
  let n := nat_of_ascii c in
  ((n =? 95) || ((48 <=? n) && (n <=? 57)) || ((65 <=? n) && (n <=? 90)) ||
   ((97 <=? n) && (n <=? 122)))%nat.

Fixpoint skip_blanks (s : string) : string :=
  match s with
  | String c s' => if isSpace c then skip_blanks s' else s
  | EmptyString => EmptyString
  end.

Fixpoint drop_blanks_right (s : string) : string :=
  match s with
  | EmptyString => EmptyString
  | String c s' =>
      match drop_blanks_right s' with
      | EmptyString => if isSpace c then EmptyString else String c EmptyString
      | t => String c t
      end
  end.

(** The body of an action, when it is one field reference. *)
Definition action (body : string) : option node :=
  match drop_blanks_right (skip_blanks body) with
  | String "."%char (String c name) =>
      if forallb isAlphaNumeric (list_ascii_of_string (String c name))
      then Some (Field (String c name)) else None
  | _ => None
  end.

(** The lexer and parser in one pass: [inside] tells whether an action is
    open and [cur] is the text or action body read so far.  An action
    still open at the end of the input is an error. *)
Fixpoint scan (s : string) (inside : bool) (cur : string) : option (list node) :=
  match s with
  | EmptyString => if inside then None else Some (text_node cur)
  | String c s' =>
      match inside, c, s' with
      | false, "{"%char, String "{"%char s'' =>
          match scan s'' true "" with
          | Some ns => Some (text_node cur ++ ns)%list
          | None => None
          end
      | true, "}"%char, String "}"%char s'' =>
          match action cur, scan s'' false "" with
          | Some n, Some ns => Some (n :: ns)
          | _, _ => None
          end
      | _, _, _ => scan s' inside (cur ++ String c "")
      end
  end.

(** Field lookup in the struct [variables]; an unknown field is an
    execution error. *)
Definition field (name : string) (data : variables.t) : option string :=
  if String.eqb name "Os" then Some (variables.Os data)
  else if String.eqb name "Arch" then Some (variables.Arch data)
  else if String.eqb name "ArchiveExt" then Some (variables.ArchiveExt data)
  else if String.eqb name "Ext" then Some (variables.Ext data)
  else None.

Fixpoint Execute (ns : list node) (data : variables.t) : option string :=
  match ns with
  | [] => Some ""
  | Text s :: ns' =>
      match Execute ns' data with
      | Some out => Some (s ++ out)
      | None => None
      end
  | Field name :: ns' =>
      match field name data, Execute ns' data with
      | Some v, Some out => Some (v ++ out)
      | _, _ => None
      end
  end.

Definition Parse (text : string) : option (variables.t -> option string) :=
  match scan text false "" with
  | Some ns => Some (Execute ns)
  | None => None
  end.

End template.

(** ** A test double of the outside world

    A file host at [https://example.com/releases], a temp directory [/tmp]
    and an executable at [/usr/local/bin/tool].  The host serves [served];
    the body ["MANIFEST"] decodes to [manifest]; [tars] and [zips] say how
    archive bytes decode; [faults] schedules file-system failures. *)
Module Mock.

Fixpoint before_slash (s : string) : string :=
  match s with
  | EmptyString => EmptyString
  | String c s' => if Ascii.eqb c "/"%char then EmptyString else String c (before_slash s')
  end.

(** [scheme://host/...] only. *)
Definition Parse (u : string) : option url.URL :=
  if String.prefix "https://" u then
    Some {| url.Scheme := "https"; url.Host := before_slash (substring 8 (String.length u) u) |}
  else if String.prefix "http://" u then
    Some {| url.Scheme := "http"; url.Host := before_slash (substring 7 (String.length u) u) |}
  else if String.prefix "/" u then
    Some {| url.Scheme := ""; url.Host := "" |}
  else None.

Definition JoinPath (base elem : string) : option string :=
  match elem with
  | EmptyString => Some base
  | _ => Some (base ++ "/" ++ elem)
  end.

(** The directory part of [dir/name]. *)
Fixpoint Dir (path : string) : string :=
  match path with
  | EmptyString => EmptyString
  | String c p' =>
      if existsb (Ascii.eqb "/"%char) (list_ascii_of_string p') then String c (Dir p')
      else EmptyString
  end.

(** The volume of a Windows path, for paths that start with a drive
    letter and a colon; the double knows no UNC or device paths. *)
Definition VolumeName (path : string) : string :=
  match path with
  | String c (String ":" _) =>
      let n := nat_of_ascii c in
      if ((65 <=? n) && (n <=? 90) || (97 <=? n) && (n <=? 122))%nat
      then String c ":" else ""
  | _ => ""
  end.

Definition exe : string := "/usr/local/bin/tool".

Definition env (goos goarch : string) (manifest : UpdaterManifest)
    (served : gmap string string)
    (tars : string -> option (list tar.Next)) (zips : string -> option (list zip.File))
    (faults : nat -> fault) : Env :=
  {| GOOS := goos;
     GOARCH := goarch;
     os_TempDir := "/tmp";
     os_Executable := Some exe;
     umask := octal 0 2 2;
     uuid_NewString := fun k => "uuid-" ++ decimal (Z.of_nat k);
     filepath_Join := fun dir name => dir ++ "/" ++ name;
     filepath_Dir := Dir;
     filepath_VolumeName := VolumeName;
     unicode_ToLower := lower_bytes;
     url_JoinPath := JoinPath;
     url_Parse := Parse;
     http_Do := fun _ u =>
       match served !! u with
       | Some body => Some {| http.StatusCode := 200; http.Body := {| bytes := body; intact := true |} |}
       | None => Some {| http.StatusCode := 404; http.Body := {| bytes := ""; intact := true |} |}
       end;
     json_Unmarshal := fun body => if String.eqb body "MANIFEST" then Some manifest else None;
     template_Parse := template.Parse;
     gzip_tar_Reader := tars;
     zip_Reader := zips;
     fs_fault := faults |}.

Definition no_archive {A} (_ : string) : option A := None.
Definition no_fault (_ : nat) : fault := NoFault.

Definition cfg (currentVersion : string) : UpdaterConfig :=
  {| CurrentVersion := currentVersion;
     BaseUrl := "https://example.com/releases";
     UpdaterConfigName := "updater.config.json" |}.

Definition manifest_url : string := "https://example.com/releases/updater.config.json".

(** The disk before the update: the running executable, mode 0755. *)
Definition disk : gmap string File :=
  {[ exe := {| content := "OLDBIN"; perm := octal 7 5 5 |} ]}.

Definition world : World :=
  {| fs := disk; requests := []; uuids := 0; syscalls := 0; trace := [] |}.

End Mock.

(** ** Vocabulary of the properties *)

(** The template variables of the running platform, when the manifest
    maps it: the two-level lookup of [GetDownloadInfo] on its own. *)
Definition platform_variables (E : Env) (manifest : UpdaterManifest) : option variables.t :=
  os ← Os manifest !! GOOS E;
  archMap ← Arch manifest !! os;
  arch ← archMap !! GOARCH E;
  Some {| variables.Os := os; variables.Arch := arch;
          variables.ArchiveExt := if String.eqb (GOOS E) "windows" then ".zip" else ".tar.gz";
          variables.Ext := if String.eqb (GOOS E) "windows" then ".exe" else "" |}.

(** The running platform is not published: its OS is absent from the os
    map, or the published OS is absent from the arch map, or its
    architecture is absent from that OS's sub-map. *)
Definition unsupported (E : Env) (manifest : UpdaterManifest) : Prop :=
  Os manifest !! GOOS E = None \/
  (exists os, Os manifest !! GOOS E = Some os /\ Arch manifest !! os = None) \/
  (exists os archMap, Os manifest !! GOOS E = Some os /\
     Arch manifest !! os = Some archMap /\ archMap !! GOARCH E = None).

(** The updater [Update] hands on once the names are resolved. *)
Definition resolved (c : UpdaterConfig) (archive binary : string) : Updater :=
  {| config := c; archiveName := archive; binaryName := binary |}.

(** The updater with another configured current version. *)
Definition with_CurrentVersion (v : string) (updater : Updater) : Updater :=
  {| config := {| CurrentVersion := v;
                  BaseUrl := BaseUrl (config updater);
                  UpdaterConfigName := UpdaterConfigName (config updater) |};
     archiveName := archiveName updater;
     binaryName := binaryName updater |}.

Definition with_Version (v : string) (manifest : UpdaterManifest) : UpdaterManifest :=
  {| Version := v; Archive := Archive manifest; Binary := Binary manifest;
     Os := Os manifest; Arch := Arch manifest |}.

(** The same world, except that every manifest the host serves carries the
    version [f] makes of its own. *)
Definition republished (f : string -> string) (E : Env) : Env :=
  {| GOOS := GOOS E;
     GOARCH := GOARCH E;
     os_TempDir := os_TempDir E;
     os_Executable := os_Executable E;
     umask := umask E;
     uuid_NewString := uuid_NewString E;
     filepath_Join := filepath_Join E;
     filepath_Dir := filepath_Dir E;
     filepath_VolumeName := filepath_VolumeName E;
     unicode_ToLower := unicode_ToLower E;
     url_JoinPath := url_JoinPath E;
     url_Parse := url_Parse E;
     http_Do := http_Do E;
     json_Unmarshal := fun body =>
       match json_Unmarshal E body with
       | Some manifest => Some (with_Version (f (Version manifest)) manifest)
       | None => None
       end;
     template_Parse := template_Parse E;
     gzip_tar_Reader := gzip_tar_Reader E;
     zip_Reader := zip_Reader E;
     fs_fault := fs_fault E |}.

(** The URL parses, and its scheme is not https or its host is empty. *)
Definition insecure (E : Env) (requestUrl : string) : Prop :=
  exists parsed, url_Parse E requestUrl = Some parsed /\
    (url.Scheme parsed <> "https" \/ url.Host parsed = "").

(** The entry is the one extraction looks for: its base name is the
    binary's name, compared byte for byte, and it is a regular file. *)
Definition zip_wanted (E : Env) (updater : Updater) (f : zip.File) : bool :=
  String.eqb (filepath_Base E (zip.Name f)) (binaryName updater) && zip.IsRegular f.

Definition tar_wanted (E : Env) (updater : Updater) (item : tar.Next) : bool :=
  match item with
  | tar.Entry header _ =>
      String.eqb (filepath_Base E (tar.Name header)) (binaryName updater) &&
      Ascii.eqb (tar.Typeflag header) tar.TypeReg
  | tar.Corrupt => false
  end.

(** The archive can be read: every zip entry opens, every tar header is
    delivered. *)
Definition zip_opens (f : zip.File) : bool :=
  match zip.Open f with
  | Some _ => true
  | None => false
  end.

Definition tar_delivered (item : tar.Next) : bool :=
  match item with
  | tar.Entry _ _ => true
  | tar.Corrupt => false
  end.

(** ** Scenarios for the test double *)
Module Scenario.

Definition stream_of (data : string) : stream := {| bytes := data; intact := true |}.

Definition manifest (archive binary goos os arch label : string) : UpdaterManifest :=
  {| Version := "2.0.0"; Archive := archive; Binary := binary;
     Os := {[ goos := os ]}; Arch := {[ os := {[ arch := label ]} ]} |}.

(** A bare binary published for linux/amd64. *)
Definition direct : UpdaterManifest :=
  manifest "" "{{.Os}}{{.Ext}}" "linux" "linux" "amd64" "amd64".

Definition direct_host : gmap string string :=
  {[ Mock.manifest_url := "MANIFEST";
     "https://example.com/releases/linux" := "NEWBIN" ]}.

Definition on_linux (faults : nat -> fault) : Env :=
  Mock.env "linux" "amd64" direct direct_host Mock.no_archive Mock.no_archive faults.

Definition on_freebsd : Env :=
  Mock.env "freebsd" "amd64" direct direct_host Mock.no_archive Mock.no_archive Mock.no_fault.

(** The write of the new binary breaks off after three bytes. *)
Definition write_breaks (k : nat) : fault :=
  match k with
  | 1%nat => FailsAfter 3
  | _ => NoFault
  end.

(** A manifest without a binary name and without platforms. *)
Definition nameless : UpdaterManifest :=
  {| Version := "2.0.0"; Archive := ""; Binary := ""; Os := ∅; Arch := ∅ |}.

(** The same with a binary name made of one space. *)
Definition blank_name : UpdaterManifest :=
  {| Version := "2.0.0"; Archive := ""; Binary := " "; Os := ∅; Arch := ∅ |}.

Definition with_manifest (m : UpdaterManifest) : Env :=
  Mock.env "linux" "amd64" m direct_host Mock.no_archive Mock.no_archive Mock.no_fault.

(** A binary name that is the extension only: empty off Windows. *)
Definition extension_only : UpdaterManifest :=
  manifest "" "{{.Ext}}" "linux" "linux" "amd64" "amd64".

Definition spec_variables : variables.t :=
  {| variables.Os := "linux"; variables.Arch := "x86_64";
     variables.ArchiveExt := ".tar.gz"; variables.Ext := "" |}.

(** An archive for linux/amd64, and one for windows/amd64. *)
Definition tarball : UpdaterManifest :=
  manifest "tool_{{.Os}}_{{.Arch}}{{.ArchiveExt}}" "tool{{.Ext}}" "linux" "Linux" "amd64" "x86_64".

Definition zipped : UpdaterManifest :=
  manifest "tool_{{.Os}}_{{.Arch}}{{.ArchiveExt}}" "tool{{.Ext}}" "windows" "Windows" "amd64" "x86_64".

Definition archive_host : gmap string string :=
  {[ Mock.manifest_url := "MANIFEST";
     "https://example.com/releases/tool_Linux_x86_64.tar.gz" := "TGZ";
     "https://example.com/releases/tool_Windows_x86_64.zip" := "ZIP" ]}.

Definition tar_entry (name : string) (typeflag : ascii) (data : string) : tar.Next :=
  tar.Entry {| tar.Name := name; tar.Typeflag := typeflag |} (stream_of data).

Definition zip_entry (name : string) (regular : bool) (data : string) : zip.File :=
  {| zip.Name := name; zip.IsRegular := regular; zip.Open := Some (stream_of data) |}.

(** Two regular files with the wanted base name, in two directories. *)
Definition two_tools_tar : list tar.Next :=
  [ tar_entry "a/tool" tar.TypeReg "FIRST"; tar_entry "b/tool" tar.TypeReg "SECOND" ].

Definition two_tools_zip : list zip.File :=
  [ zip_entry "a/tool.exe" true "FIRST"; zip_entry "b/tool.exe" true "SECOND" ].

Definition one_tool_tar : list tar.Next := [ tar_entry "bin/tool" tar.TypeReg "NEWBIN" ].

Definition one_tool_zip : list zip.File := [ zip_entry "bin/tool.exe" true "NEWBIN" ].

(** A directory with the wanted name and a regular file with another. *)
Definition no_tool_tar : list tar.Next :=
  [ tar_entry "tool" tar.TypeDir ""; tar_entry "tool/README" tar.TypeReg "read me" ].

Definition no_tool_zip : list zip.File :=
  [ zip_entry "tool.exe/" false ""; zip_entry "tool.exe/README" true "read me" ].

Definition decodes_to {A} (data : string) (entries : A) (archive : string) : option A :=
  if String.eqb archive data then Some entries else None.

Definition tar_on_linux (entries : list tar.Next) : Env :=
  Mock.env "linux" "amd64" tarball archive_host
    (decodes_to "TGZ" entries) Mock.no_archive Mock.no_fault.

Definition zip_on_windows (entries : list zip.File) : Env :=
  Mock.env "windows" "amd64" zipped archive_host
    Mock.no_archive (decodes_to "ZIP" entries) Mock.no_fault.

(** The updater as [Update] leaves it before the archive is extracted, and
    the world with the archive already in the temp directory. *)
Definition named (archive binary : string) : Updater :=
  resolved (Mock.cfg "1.0.0") archive binary.

Definition downloaded (archive : string) : World :=
  {| fs := <[ "/tmp/archive" := {| content := archive; perm := octal 6 4 4 |} ]> Mock.disk;
     requests := []; uuids := 1; syscalls := 1; trace := [] |}.

(** A host configured with a plain-text base URL. *)
Definition plain_http : UpdaterConfig :=
  {| CurrentVersion := "1.0.0";
     BaseUrl := "http://example.com/releases";
     UpdaterConfigName := "updater.config.json" |}.

End Scenario.

From Stdlib Require DecimalPos DecimalZ.

(** ** Further vocabulary *)

(** The URL parses to scheme https and a host that is not empty: what
    [validateUrl] accepts. *)
Definition secure (E : Env) (requestUrl : string) : Prop :=
  exists parsed, url_Parse E requestUrl = Some parsed /\
    url.Scheme parsed = "https" /\ url.Host parsed <> "".

(** The computation leaves a component of the world as it found it,
    however it ends. *)
Definition keeps {A B : Type} (part : World -> B) (c : M A) : Prop :=
  forall w r w', c w = (r, w') -> part w' = part w.

(** The computation calls [httpClient.Do] at most once, and then for a
    URL that [validateUrl] accepts. *)
Definition fetches_once {A : Type} (E : Env) (c : M A) : Prop :=
  forall w r w', c w = (r, w') ->
    requests w' = requests w \/
    exists u, secure E u /\ requests w' = (requests w ++ [u])%list.

(** The answer to the request is complete: status 200 and a body that is
    read to its end. *)
Definition complete (resp : http.Response) : Prop :=
  http.StatusCode resp = 200 /\ intact (http.Body resp) = true.

(** The names drawn from the [n]-th on collide neither with the
    executable, nor with the archive, nor with each other. *)
Definition fresh_from (E : Env) (destination binaryPath src : string) (n : nat) : Prop :=
  forall j k, (n <= j)%nat -> (n <= k)%nat ->
    filepath_Join E destination (uuid_NewString E j) <> binaryPath /\
    filepath_Join E (os_TempDir E) (uuid_NewString E k) <> binaryPath /\
    filepath_Join E destination (uuid_NewString E j) <> src /\
    filepath_Join E (os_TempDir E) (uuid_NewString E k) <> src /\
    (j <> k ->
     filepath_Join E destination (uuid_NewString E j) <>
     filepath_Join E (os_TempDir E) (uuid_NewString E k)) /\
    (j <> k ->
     filepath_Join E (os_TempDir E) (uuid_NewString E j) <>
     filepath_Join E (os_TempDir E) (uuid_NewString E k)).

(** The file [old] is still on disk: at the executable's path, or in the
    temp directory under one of the names drawn from the [n0]-th on. *)
Definition kept (E : Env) (binaryPath : string) (old : File) (n0 : nat)
    (disk : gmap string File) : Prop :=
  disk !! binaryPath = Some old \/
  exists k, (n0 <= k)%nat /\
    disk !! filepath_Join E (os_TempDir E) (uuid_NewString E k) = Some old.

(** After [m] pairs of names have been drawn, the first of them the
    [n0]-th name: [old] is in the temp directory under the second name of
    one of these pairs. *)
Definition set_aside (E : Env) (old : File) (n0 m : nat) (disk : gmap string File) : Prop :=
  exists i, (i < m)%nat /\
    disk !! filepath_Join E (os_TempDir E) (uuid_NewString E (n0 + 2 * i + 1)) = Some old.

(** [old] is at the executable's path or has been set aside. *)
Definition kept_in (E : Env) (binaryPath : string) (old : File) (n0 m : nat)
    (disk : gmap string File) : Prop :=
  disk !! binaryPath = Some old \/ set_aside E old n0 m disk.

(** [n] names have been drawn and the disk satisfies [L]. *)
Definition drawn (n : nat) (L : gmap string File -> Prop) (w : World) : Prop :=
  uuids w = n /\ L (fs w).

(** Started in a world that satisfies [P], the computation takes the disk
    through states that all satisfy [J], however it ends, and when it
    returns a value the world satisfies [Q]. *)
Definition runs {A : Type} (J : gmap string File -> Prop) (P : World -> Prop) (c : M A)
    (Q : A -> World -> Prop) : Prop :=
  forall w r w', P w -> c w = (r, w') ->
    (exists later, states w' = (states w ++ later)%list /\ Forall J later) /\
    (forall a, r = Ok a -> Q a w').

(** The data of the last wanted entry of a tar stream. *)
Fixpoint last_wanted (E : Env) (updater : Updater) (tarReader : list tar.Next) : option stream :=
  match tarReader with
  | [] => None
  | item :: rest =>
      match last_wanted E updater rest with
      | Some data => Some data
      | None =>
          match item with
          | tar.Entry _ data => if tar_wanted E updater item then Some data else None
          | tar.Corrupt => None
          end
      end
  end.

(** Every header of the stream is delivered, and every entry's data can be
    read to its end. *)
Definition tar_sound (item : tar.Next) : bool :=
  match item with
  | tar.Entry _ data => intact data
  | tar.Corrupt => false
  end.

(** No byte of [name] separates path elements. *)
Definition plain (goos : string) (name : string) : Prop :=
  existsb (os_IsPathSeparator goos) (list_ascii_of_string name) = false.

(** ** Further scenarios *)
Module Sample.

(** A host that serves an archive in a format the updater does not
    unpack, under a manifest that names it. *)
Definition rar : UpdaterManifest :=
  Scenario.manifest "tool.rar" "tool" "linux" "linux" "amd64" "amd64".

Definition rar_host : gmap string string :=
  {[ Mock.manifest_url := "MANIFEST"; "https://example.com/releases/tool.rar" := "RAR" ]}.

Definition rar_on_linux : Env :=
  Mock.env "linux" "amd64" rar rar_host Mock.no_archive Mock.no_archive Mock.no_fault.

(** A zip archive without the binary, one of whose entries cannot be
    opened (a compression method [archive/zip] does not know). *)
Definition sealed_zip : list zip.File :=
  [ Scenario.zip_entry "README" true "read me";
    {| zip.Name := "LICENSE"; zip.IsRegular := true; zip.Open := None |} ].

Definition sealed_on_windows : Env :=
  Mock.env "windows" "amd64" Scenario.zipped Scenario.archive_host
    Mock.no_archive (Scenario.decodes_to "ZIP" sealed_zip) Mock.no_fault.

(** The second [os.Rename] of the replacement fails: the sixth call on the
    disk after the archive is written. *)
Definition second_rename_breaks (k : nat) : fault :=
  if (k =? 6)%nat then Fails else NoFault.

(** The copy of the entry stops after two bytes. *)
Definition copy_breaks (k : nat) : fault :=
  if (k =? 3)%nat then FailsAfter 2 else NoFault.

Definition tar_breaks : Env :=
  Mock.env "linux" "amd64" Scenario.tarball Scenario.archive_host
    (Scenario.decodes_to "TGZ" Scenario.two_tools_tar) Mock.no_archive second_rename_breaks.

Definition zip_breaks : Env :=
  Mock.env "windows" "amd64" Scenario.zipped Scenario.archive_host
    Mock.no_archive (Scenario.decodes_to "ZIP" Scenario.two_tools_zip) copy_breaks.

End Sample.

(** ** Proof tools *)

Create HintDb run.
#[export] Hint Unfold mbind M_bind mret M_ret fail try try_wrap wrap : run.

Ltac run := repeat autounfold with run in *; cbn in *.

(** Case analysis on the outcome of a call, then run on. *)
Ltac on t := destruct t eqn:?; run; try discriminate.

(** The run ended without a change to the disk. *)
Ltac quiet H :=
  inversion H; subst; clear H; exists []; unfold states; cbn;
  rewrite ?app_nil_r;
  repeat split; eauto; try discriminate;
  try (intros ? ?%elem_of_nil; contradiction).

(** The run ended after the disk went through the states [l]. *)
Ltac changed H l :=
  inversion H; subst; clear H; exists l; unfold states; cbn;
  rewrite <- ?app_assoc; cbn;
  split; [reflexivity|];
  split; [intros ? Hin; repeat (apply elem_of_cons in Hin as [->|Hin]); auto;
          try (apply elem_of_nil in Hin; contradiction)|];
  split; [intros ? ? Heq; inversion Heq; reflexivity|];
  split; [discriminate|]; try discriminate; intros _.

(** A call that only reads or writes the disk: unfold it and look at each
    way it can end. *)
Ltac outcome :=
  let H := fresh "H" in
  intros ? ? ? H;
  unfold os_Rename, os_WriteFile, os_Create, io_Copy, file_Close, os_Chmod, os_Remove,
    os_Open, uuid_New, syscall, get_fs, set_fs, io_ReadAll, http_NewRequest, validateUrl in H;
  run;
  repeat (case_match; run; try discriminate);
  simplify_eq; reflexivity.

Create HintDb frame.

(** * Properties *)

(** ** White space *)

Lemma append_cons (c : ascii) (s t : string) : String c s ++ t = String c (s ++ t).
Proof. reflexivity. Qed.

Lemma append_nil_l (s : string) : "" ++ s = s.
Proof. reflexivity. Qed.

Lemma append_nil_r (s : string) : s ++ "" = s.
Proof. induction s as [|c s IH]; [reflexivity|]. rewrite append_cons, IH. reflexivity. Qed.

Lemma append_assoc (s t u : string) : (s ++ t) ++ u = s ++ (t ++ u).
Proof. induction s as [|c s IH]; [reflexivity|]. rewrite !append_cons, IH. reflexivity. Qed.

Lemma string_rev_app (s t : string) : string_rev (s ++ t) = string_rev t ++ string_rev s.
Proof.
  induction s as [|c s IH].
  - cbn. rewrite append_nil_r. reflexivity.
  - rewrite append_cons. cbn. rewrite IH, append_assoc. reflexivity.
Qed.

(** The bytes of a white-space rune: an ASCII byte on its own, or a lead
    byte followed by continuation bytes. *)
Lemma asciiSpace_not_continuation (c : ascii) : asciiSpace c = true -> continuation c = false.
Proof.
  unfold asciiSpace, continuation. intros H.
  apply andb_false_iff. left. apply N.leb_gt.
  apply orb_prop in H as [[H1 H2]%andb_prop | H].
  - apply N.leb_le in H2. lia.
  - apply N.eqb_eq in H. lia.
Qed.

Lemma space2_bytes (c1 c2 : ascii) :
  space2 c1 c2 = true -> continuation c1 = false /\ continuation c2 = true.
Proof.
  unfold space2, rune2. destruct (_ && _ && continuation c2)%bool eqn:H; [|discriminate].
  intros _. apply andb_prop in H as [[H1 H2]%andb_prop H3]. split; [|exact H3].
  unfold continuation. apply andb_false_iff. right.
  apply N.leb_gt. apply N.leb_le in H1. lia.
Qed.

Lemma space3_bytes (c1 c2 c3 : ascii) :
  space3 c1 c2 c3 = true ->
  continuation c1 = false /\ continuation c2 = true /\ continuation c3 = true.
Proof.
  unfold space3, rune3.
  destruct (_ && _ && continuation c2 && continuation c3 && _ && _)%bool eqn:H; [|discriminate].
  intros _.
  apply andb_prop in H as [[[[[H1 H2]%andb_prop H3]%andb_prop H4]%andb_prop _]%andb_prop _].
  split; [|auto].
  unfold continuation. apply andb_false_iff. right.
  apply N.leb_gt. apply N.leb_le in H1. lia.
Qed.

Lemma space2_after_continuation (c1 c2 : ascii) : continuation c1 = true -> space2 c1 c2 = false.
Proof.
  intros H. destruct (space2 c1 c2) eqn:Hs; [|reflexivity].
  apply space2_bytes in Hs as [Hs _]. congruence.
Qed.

(** A string that trims to nothing from the front does not start with a
    continuation byte. *)
Lemma all_space_head (c : ascii) (r : string) :
  trim_left (String c r) = "" -> continuation c = false.
Proof.
  unfold trim_left. cbn. destruct (asciiSpace c) eqn:Ha.
  - intros _. apply asciiSpace_not_continuation, Ha.
  - destruct r as [|c2 r]; [discriminate|].
    destruct (space2 c c2) eqn:H2; [intros _; apply (space2_bytes _ _ H2)|].
    destruct r as [|c3 r]; [discriminate|].
    destruct (space3 c c2 c3) eqn:H3; [intros _; apply (space3_bytes _ _ _ H3)|].
    discriminate.
Qed.

Section Trim.

Context (two : ascii -> ascii -> bool) (three : ascii -> ascii -> ascii -> bool).

(** White space in front of a string goes, and trimming goes on behind it. *)
Lemma trim_runes_app_l (l s : string) :
  trim_runes two three l = "" ->
  trim_runes two three (l ++ s) = trim_runes two three s.
Proof.
  remember (String.length l) as n eqn:Hn. revert l Hn.
  induction n as [n IH] using lt_wf_ind. intros l Hn Hl. subst n.
  destruct l as [|c1 s1]; [reflexivity|].
  rewrite append_cons. cbn in Hl |- *.
  destruct (asciiSpace c1).
  { apply (IH (String.length s1)); cbn; auto; lia. }
  destruct s1 as [|c2 s2]; [discriminate|].
  rewrite append_cons. destruct (two c1 c2).
  { apply (IH (String.length s2)); cbn; auto; lia. }
  destruct s2 as [|c3 s3]; [discriminate|].
  rewrite append_cons. destruct (three c1 c2 c3); [|discriminate].
  apply (IH (String.length s3)); cbn; auto; lia.
Qed.

End Trim.

(** White space behind a string stays when the string is trimmed from the
    front, unless the string is white space itself. *)
Lemma trim_left_app_r (s r : string) :
  trim_left r = "" ->
  trim_left (s ++ r) = if String.eqb (trim_left s) "" then "" else trim_left s ++ r.
Proof.
  intros Hr. remember (String.length s) as n eqn:Hn. revert s Hn.
  induction n as [n IH] using lt_wf_ind. intros s Hn. subst n.
  assert (Hhead : forall c r', r = String c r' -> continuation c = false).
  { intros c r' ->. apply all_space_head with r', Hr. }
  destruct s as [|c1 s1]; [exact Hr|].
  rewrite append_cons. unfold trim_left in *. cbn.
  destruct (asciiSpace c1).
  { apply (IH (String.length s1)); cbn; auto; lia. }
  destruct s1 as [|c2 s2].
  { rewrite !append_nil_l. cbn. destruct r as [|c r1]; [reflexivity|].
    destruct (space2 c1 c) eqn:H2.
    { apply space2_bytes in H2 as [_ H2]. rewrite (Hhead c r1 eq_refl) in H2. discriminate. }
    destruct r1 as [|c' r2]; [reflexivity|].
    destruct (space3 c1 c c') eqn:H3; [|reflexivity].
    apply space3_bytes in H3 as (_ & H3 & _). rewrite (Hhead c _ eq_refl) in H3. discriminate. }
  rewrite append_cons. destruct (space2 c1 c2).
  { apply (IH (String.length s2)); cbn; auto; lia. }
  destruct s2 as [|c3 s3].
  { rewrite !append_nil_l. cbn. destruct r as [|c r1]; [reflexivity|].
    destruct (space3 c1 c2 c) eqn:H3; [|reflexivity].
    apply space3_bytes in H3 as (_ & _ & H3). rewrite (Hhead c r1 eq_refl) in H3. discriminate. }
  rewrite append_cons. destruct (space3 c1 c2 c3).
  { apply (IH (String.length s3)); cbn; auto; lia. }
  reflexivity.
Qed.

(** White space read from the front is white space read from the back. *)
Lemma trim_back_all_space (r : string) : trim_left r = "" -> trim_back (string_rev r) = "".
Proof.
  remember (String.length r) as n eqn:Hn. revert r Hn.
  induction n as [n IH] using lt_wf_ind. intros r Hn Hr. subst n.
  destruct r as [|c1 s1]; [reflexivity|].
  unfold trim_left in Hr. cbn in Hr. destruct (asciiSpace c1) eqn:Ha.
  { cbn [string_rev]. unfold trim_back. rewrite trim_runes_app_l.
    - rewrite ?append_cons, ?append_nil_l. cbn. rewrite Ha. reflexivity.
    - apply (IH (String.length s1)); cbn; auto; lia. }
  destruct s1 as [|c2 s2]; [discriminate|].
  destruct (space2 c1 c2) eqn:H2.
  { cbn [string_rev]. rewrite append_assoc. unfold trim_back. rewrite trim_runes_app_l.
    - rewrite ?append_cons, ?append_nil_l. cbn. apply space2_bytes in H2 as H2'. destruct H2' as [_ Hc2].
      destruct (asciiSpace c2) eqn:Ha2.
      + apply asciiSpace_not_continuation in Ha2. congruence.
      + rewrite H2. reflexivity.
    - apply (IH (String.length s2)); cbn; auto; lia. }
  destruct s2 as [|c3 s3]; [discriminate|].
  destruct (space3 c1 c2 c3) eqn:H3; [|discriminate].
  cbn [string_rev]. rewrite !append_assoc. unfold trim_back. rewrite trim_runes_app_l.
  - rewrite ?append_cons, ?append_nil_l. cbn. apply space3_bytes in H3 as H3'. destruct H3' as (_ & Hc2 & Hc3).
    destruct (asciiSpace c3) eqn:Ha3.
    + apply asciiSpace_not_continuation in Ha3. congruence.
    + rewrite (space2_after_continuation c2 c3 Hc2), H3. reflexivity.
  - apply (IH (String.length s3)); cbn; auto; lia.
Qed.

Lemma trim_right_app_r (s r : string) : trim_left r = "" -> trim_right (s ++ r) = trim_right s.
Proof.
  intros Hr. unfold trim_right. rewrite string_rev_app.
  unfold trim_back. rewrite trim_runes_app_l; [reflexivity|].
  apply trim_back_all_space, Hr.
Qed.

(** White space around a string does not survive [strings.TrimSpace]. *)
Lemma TrimSpace_surrounding (l s r : string) :
  all_space l = true -> all_space r = true ->
  strings_TrimSpace (l ++ s ++ r) = strings_TrimSpace s.
Proof.
  unfold all_space. intros Hl%String.eqb_eq Hr%String.eqb_eq. unfold strings_TrimSpace.
  unfold trim_left at 1. rewrite (trim_runes_app_l _ _ _ _ Hl). fold (trim_left (s ++ r)).
  rewrite (trim_left_app_r _ _ Hr).
  destruct (String.eqb (trim_left s) "") eqn:Hs.
  - apply String.eqb_eq in Hs. rewrite Hs. reflexivity.
  - apply trim_right_app_r, Hr.
Qed.

(** ** The manifest fetch *)

Lemma eqb_string_neq (a b : string) : negb (String.eqb a b) = true <-> a <> b.
Proof.
  rewrite negb_true_iff. split.
  - intros H ->. rewrite String.eqb_refl in H. discriminate.
  - intros H. apply String.eqb_neq, H.
Qed.

(** What a successful manifest fetch has done: one request, to a validated
    URL, answered by 200 and a body that decodes. *)
Lemma GetManifest_Ok (E : Env) (updater : Updater) (w w' : World) (manifest : UpdaterManifest) :
  GetManifest E updater w = (Ok manifest, w') ->
  exists u p resp,
    url_JoinPath E (BaseUrl (config updater)) (UpdaterConfigName (config updater)) = Some u /\
    url_Parse E u = Some p /\ url.Scheme p = "https" /\ url.Host p <> "" /\
    http_Do E (length (requests w)) u = Some resp /\
    http.StatusCode resp = 200 /\ intact (http.Body resp) = true /\
    json_Unmarshal E (bytes (http.Body resp)) = Some manifest /\
    w' = log_request u w.
Proof.
  unfold GetManifest, validateUrl, http_NewRequest, httpClient_Do, io_ReadAll, status_error.
  intros H. run.
  on (url_JoinPath E (BaseUrl (config updater)) (UpdaterConfigName (config updater))).
  rename s into u. on (url_Parse E u). rename u0 into p.
  on (negb (String.eqb (url.Scheme p) "https")).
  on (String.eqb (url.Host p) "").
  on (http_Do E (length (requests w)) u). rename r into resp.
  on (negb (http.StatusCode resp =? 200)).
  on (intact (http.Body resp)).
  on (json_Unmarshal E (bytes (http.Body resp))).
  inversion H; subst. exists u, p, resp.
  repeat match goal with
  | H : negb _ = false |- _ => apply negb_false_iff in H
  | H : String.eqb _ _ = true |- _ => apply String.eqb_eq in H
  | H : String.eqb _ _ = false |- _ => apply String.eqb_neq in H
  | H : Z.eqb _ _ = true |- _ => apply Z.eqb_eq in H
  end. auto 10.
Qed.

(** A no-break space (U+00A0) in front and an ideographic space (U+3000)
    behind are trimmed like a tab or a newline. *)
Example TrimSpace_unicode :
  strings_TrimSpace
    (String (ascii_of_N 0xC2) (String (ascii_of_N 0xA0) "") ++ " 2.0.0" ++
     String (ascii_of_N 0xE3) (String (ascii_of_N 0x80) (String (ascii_of_N 0x80) "")))
  = "2.0.0".
Proof. vm_compute. reflexivity. Qed.

(** ** C2 *)

(** C2.  With a current version that is not blank and a manifest that
    fetches, [CheckForAvailableUpdate] answers [true] exactly when the
    trimmed current version differs from the trimmed manifest version; the
    new version it then reports is the trimmed manifest version; and it
    answers [false] when the two versions are the same string wrapped in
    white space. *)
Theorem CheckForAvailableUpdate_iff_trimmed_versions_differ
    (E : Env) (updater : Updater) (w w' : World) (manifest : UpdaterManifest) :
  strings_TrimSpace (CurrentVersion (config updater)) <> "" ->
  GetManifest E updater w = (Ok manifest, w') ->
  exists updateAvailable newVersion,
    CheckForAvailableUpdate E updater w = (Ok (updateAvailable, newVersion), w') /\
    (updateAvailable = true <->
     strings_TrimSpace (CurrentVersion (config updater)) <> strings_TrimSpace (Version manifest)) /\
    (updateAvailable = true -> newVersion = strings_TrimSpace (Version manifest)) /\
    (forall core l1 r1 l2 r2 : string,
        all_space l1 = true -> all_space r1 = true ->
        all_space l2 = true -> all_space r2 = true ->
        CurrentVersion (config updater) = l1 ++ core ++ r1 ->
        Version manifest = l2 ++ core ++ r2 ->
        updateAvailable = false).
Proof.
  intros Hcur Hm. unfold CheckForAvailableUpdate. run.
  apply String.eqb_neq in Hcur. rewrite Hcur, Hm.
  destruct (negb (String.eqb _ _)) eqn:Hne.
  - eexists _, _. split; [reflexivity|]. apply eqb_string_neq in Hne.
    repeat split; auto.
    intros core l1 r1 l2 r2 Hl1 Hr1 Hl2 Hr2 Hc Hv. exfalso. apply Hne.
    rewrite Hc, Hv, !TrimSpace_surrounding; auto.
  - eexists _, _. split; [reflexivity|].
    apply negb_false_iff, String.eqb_eq in Hne.
    repeat split; auto; try discriminate; try (intros H; contradiction).
Qed.

Lemma CheckForAvailableUpdate_witness :
  strings_TrimSpace (CurrentVersion (config (New (Mock.cfg " 2.0.0")))) <> "" /\
  GetManifest (Scenario.on_linux Mock.no_fault) (New (Mock.cfg " 2.0.0")) Mock.world =
    (Ok Scenario.direct, log_request Mock.manifest_url Mock.world) /\
  exists updateAvailable newVersion,
    CheckForAvailableUpdate (Scenario.on_linux Mock.no_fault) (New (Mock.cfg " 2.0.0")) Mock.world =
      (Ok (updateAvailable, newVersion), log_request Mock.manifest_url Mock.world) /\
    (updateAvailable = true <->
     strings_TrimSpace (CurrentVersion (config (New (Mock.cfg " 2.0.0")))) <>
     strings_TrimSpace (Version Scenario.direct)) /\
    (updateAvailable = true -> newVersion = strings_TrimSpace (Version Scenario.direct)) /\
    (forall core l1 r1 l2 r2 : string,
        all_space l1 = true -> all_space r1 = true ->
        all_space l2 = true -> all_space r2 = true ->
        CurrentVersion (config (New (Mock.cfg " 2.0.0"))) = l1 ++ core ++ r1 ->
        Version Scenario.direct = l2 ++ core ++ r2 ->
        updateAvailable = false).
Proof.
  assert (H1 : strings_TrimSpace (CurrentVersion (config (New (Mock.cfg " 2.0.0")))) <> "")
    by (vm_compute; discriminate).
  assert (H2 : GetManifest (Scenario.on_linux Mock.no_fault) (New (Mock.cfg " 2.0.0")) Mock.world =
               (Ok Scenario.direct, log_request Mock.manifest_url Mock.world))
    by (vm_compute; reflexivity).
  split; [exact H1|]. split; [exact H2|].
  exact (CheckForAvailableUpdate_iff_trimmed_versions_differ _ _ _ _ _ H1 H2).
Defined.

(** ** Platform resolution *)

Lemma unsupported_iff (E : Env) (manifest : UpdaterManifest) :
  unsupported E manifest <-> platform_variables E manifest = None.
Proof.
  unfold unsupported, platform_variables. split.
  - intros [H | [(os & H1 & H2) | (os & archMap & H1 & H2 & H3)]].
    + rewrite H. reflexivity.
    + rewrite H1. cbn. rewrite H2. reflexivity.
    + rewrite H1. cbn. rewrite H2. cbn. rewrite H3. reflexivity.
  - destruct (Os manifest !! GOOS E) as [os|] eqn:H1; cbn; [|auto].
    destruct (Arch manifest !! os) as [archMap|] eqn:H2; cbn; [|eauto].
    destruct (archMap !! GOARCH E) as [arch|] eqn:H3; cbn; [discriminate|].
    intros _. right. right. eauto.
Qed.

(** The names [GetDownloadInfo] returns, as a function of the template
    engine, the two templates and the variables alone. *)
Lemma GetDownloadInfo_supported (E : Env) (manifest : UpdaterManifest) (data : variables.t) :
  strings_TrimSpace (Binary manifest) <> "" ->
  platform_variables E manifest = Some data ->
  GetDownloadInfo E manifest =
    match (if negb (String.eqb (strings_TrimSpace (Archive manifest)) "") then
             match template_Parse E (Archive manifest) with
             | None => Err (Failure "template.Parse")
             | Some archiveTmpl =>
                 match archiveTmpl data with
                 | None => Err (Failure "template.Execute")
                 | Some buf => Ok buf
                 end
             end
           else Ok "") with
    | Err e => Err e
    | Ok archiveName =>
        match template_Parse E (Binary manifest) with
        | None => Err (Failure "template.Parse")
        | Some binaryTmpl =>
            match binaryTmpl data with
            | None => Err (Failure "template.Execute")
            | Some binaryName => Ok (archiveName, binaryName)
            end
        end
    end.
Proof.
  intros Hb%String.eqb_neq Hv. unfold GetDownloadInfo, platform_variables in *.
  rewrite Hb.
  destruct (Os manifest !! GOOS E) as [os|]; cbn in Hv; [|discriminate].
  destruct (Arch manifest !! os) as [archMap|]; cbn in Hv; [|discriminate].
  destruct (archMap !! GOARCH E) as [arch|]; cbn in Hv; [|discriminate].
  inversion Hv; subst. reflexivity.
Qed.

Lemma GetDownloadInfo_unsupported (E : Env) (manifest : UpdaterManifest) :
  strings_TrimSpace (Binary manifest) <> "" ->
  unsupported E manifest ->
  GetDownloadInfo E manifest = Err (NotSupportedError (GOOS E ++ "/" ++ GOARCH E)).
Proof.
  intros Hb%String.eqb_neq Hu. unfold GetDownloadInfo. rewrite Hb.
  destruct Hu as [H | [(os & H1 & H2) | (os & archMap & H1 & H2 & H3)]].
  - rewrite H. reflexivity.
  - rewrite H1, H2. reflexivity.
  - rewrite H1, H2, H3. reflexivity.
Qed.

(** When resolution fails, [Update] stops there: the world is the one the
    manifest fetch left. *)
Lemma Update_resolution_fails (E : Env) (updater : Updater) (w w' : World)
    (manifest : UpdaterManifest) (e : error) :
  GetManifest E updater w = (Ok manifest, w') ->
  GetDownloadInfo E manifest = Err e ->
  Update E updater w = (Err e, w').
Proof.
  intros Hm He. unfold Update. run. rewrite Hm, He. reflexivity.
Qed.

(** ** C4 *)

(** C4, as the code has it.  On a platform the manifest does not publish,
    resolution fails with [NotSupportedError] carrying the runtime
    ["os/arch"] provided the binary template is not blank; a blank binary
    template is reported first, with its own error.  Either way [Update]
    returns that error in the world the manifest fetch left: it has made
    one request, for the manifest, and none for an artifact. *)
Theorem unsupported_platform_makes_no_artifact_request (E : Env) (manifest : UpdaterManifest) :
  unsupported E manifest ->
  (strings_TrimSpace (Binary manifest) <> "" ->
   GetDownloadInfo E manifest = Err (NotSupportedError (GOOS E ++ "/" ++ GOARCH E))) /\
  (strings_TrimSpace (Binary manifest) = "" ->
   GetDownloadInfo E manifest = Err (Errorf "Manifest does not specify binary name")) /\
  (forall (updater : Updater) (w w' : World),
      GetManifest E updater w = (Ok manifest, w') ->
      exists e u,
        GetDownloadInfo E manifest = Err e /\
        Update E updater w = (Err e, w') /\
        url_JoinPath E (BaseUrl (config updater)) (UpdaterConfigName (config updater)) = Some u /\
        requests w' = (requests w ++ [u])%list /\
        fs w' = fs w).
Proof.
  intros Hu. split; [|split].
  - intros Hb. apply GetDownloadInfo_unsupported; assumption.
  - intros Hb. unfold GetDownloadInfo. rewrite Hb. reflexivity.
  - intros updater w w' Hm.
    assert (He : exists e, GetDownloadInfo E manifest = Err e).
    { destruct (String.eqb (strings_TrimSpace (Binary manifest)) "") eqn:Hb.
      - unfold GetDownloadInfo. rewrite Hb. eauto.
      - apply String.eqb_neq in Hb. rewrite GetDownloadInfo_unsupported; eauto. }
    destruct He as [e He].
    destruct (GetManifest_Ok _ _ _ _ _ Hm) as (u & p & resp & Hj & _ & _ & _ & _ & _ & _ & _ & ->).
    exists e, u. split; [exact He|]. split; [|auto].
    apply Update_resolution_fails with manifest; assumption.
Qed.

Lemma unsupported_platform_witness :
  unsupported Scenario.on_freebsd Scenario.direct /\
  GetDownloadInfo Scenario.on_freebsd Scenario.direct = Err (NotSupportedError "freebsd/amd64") /\
  Update Scenario.on_freebsd (New (Mock.cfg "1.0.0")) Mock.world =
    (Err (NotSupportedError "freebsd/amd64"), log_request Mock.manifest_url Mock.world).
Proof.
  assert (Hu : unsupported Scenario.on_freebsd Scenario.direct) by (left; vm_compute; reflexivity).
  destruct (unsupported_platform_makes_no_artifact_request _ _ Hu) as (H1 & _ & H3).
  assert (Hb : strings_TrimSpace (Binary Scenario.direct) <> "") by (vm_compute; discriminate).
  split; [exact Hu|]. split; [exact (H1 Hb)|].
  destruct (H3 (New (Mock.cfg "1.0.0")) Mock.world (log_request Mock.manifest_url Mock.world))
    as (e & u & He & HU & _); [vm_compute; reflexivity|].
  rewrite HU. rewrite (H1 Hb) in He. inversion He. reflexivity.
Defined.

(** The claim as written: on an unsupported platform resolution always fails
    with [NotSupportedError].  A manifest whose binary name is blank is
    refused earlier, with another error. *)
Lemma unsupported_platform_counterexample :
  ~ (forall (E : Env) (manifest : UpdaterManifest),
        unsupported E manifest ->
        GetDownloadInfo E manifest = Err (NotSupportedError (GOOS E ++ "/" ++ GOARCH E))).
Proof.
  intros H.
  specialize (H (Scenario.with_manifest Scenario.blank_name) Scenario.blank_name).
  assert (Hu : unsupported (Scenario.with_manifest Scenario.blank_name) Scenario.blank_name)
    by (left; vm_compute; reflexivity).
  apply H in Hu. vm_compute in Hu. discriminate.
Qed.

Example nameless_manifest_on_unpublished_platform :
  unsupported (Scenario.with_manifest Scenario.nameless) Scenario.nameless /\
  GetDownloadInfo (Scenario.with_manifest Scenario.nameless) Scenario.nameless =
    Err (Errorf "Manifest does not specify binary name").
Proof. split; [left|]; vm_compute; reflexivity. Qed.

(** ** C9 *)

(** What a successful resolution has done. *)
Lemma GetDownloadInfo_success (E : Env) (manifest : UpdaterManifest) (archiveName binaryName : string) :
  GetDownloadInfo E manifest = Ok (archiveName, binaryName) ->
  strings_TrimSpace (Binary manifest) <> "" /\
  exists data binaryTmpl,
    platform_variables E manifest = Some data /\
    template_Parse E (Binary manifest) = Some binaryTmpl /\
    binaryTmpl data = Some binaryName.
Proof.
  intros H.
  assert (Hb : strings_TrimSpace (Binary manifest) <> "").
  { intros Hb. unfold GetDownloadInfo in H. rewrite Hb in H. discriminate. }
  split; [exact Hb|].
  destruct (platform_variables E manifest) as [data|] eqn:Hv.
  - rewrite (GetDownloadInfo_supported _ _ _ Hb Hv) in H.
    destruct (if negb _ then _ else _) as [a|]; [|discriminate].
    destruct (template_Parse E (Binary manifest)) as [binaryTmpl|]; [|discriminate].
    destruct (binaryTmpl data) as [b|] eqn:Hr; [|discriminate].
    inversion H; subst. eauto.
  - apply unsupported_iff in Hv.
    rewrite (GetDownloadInfo_unsupported _ _ Hb Hv) in H. discriminate.
Qed.

(** C9, as the code has it.  When [GetDownloadInfo] succeeds, the binary
    template of the manifest is not blank (it is not empty, and not made of
    white space only), and the binary name returned is the rendering of
    that template with the variables of the running platform.  Nothing is
    said of the rendering's length. *)
Theorem GetDownloadInfo_Ok_binary_template_not_blank
    (E : Env) (manifest : UpdaterManifest) (archiveName binaryName : string) :
  GetDownloadInfo E manifest = Ok (archiveName, binaryName) ->
  strings_TrimSpace (Binary manifest) <> "" /\
  Binary manifest <> "" /\
  exists data binaryTmpl,
    platform_variables E manifest = Some data /\
    template_Parse E (Binary manifest) = Some binaryTmpl /\
    binaryTmpl data = Some binaryName.
Proof.
  intros H. destruct (GetDownloadInfo_success _ _ _ _ H) as (Hb & Hr).
  split; [exact Hb|]. split; [|exact Hr].
  intros He. apply Hb. rewrite He. reflexivity.
Qed.

Lemma GetDownloadInfo_Ok_witness :
  GetDownloadInfo (Scenario.on_linux Mock.no_fault) Scenario.direct = Ok ("", "linux") /\
  strings_TrimSpace (Binary Scenario.direct) <> "" /\
  Binary Scenario.direct <> "" /\
  exists data binaryTmpl,
    platform_variables (Scenario.on_linux Mock.no_fault) Scenario.direct = Some data /\
    template_Parse (Scenario.on_linux Mock.no_fault) (Binary Scenario.direct) = Some binaryTmpl /\
    binaryTmpl data = Some "linux".
Proof.
  assert (H : GetDownloadInfo (Scenario.on_linux Mock.no_fault) Scenario.direct = Ok ("", "linux"))
    by (vm_compute; reflexivity).
  split; [exact H|].
  exact (GetDownloadInfo_Ok_binary_template_not_blank _ _ _ _ H).
Defined.

(** The claim as written: a successful resolution returns a binary name
    that is not empty.  The template [{{.Ext}}] is not blank, and renders
    to the empty string on every platform but Windows. *)
Lemma GetDownloadInfo_Ok_empty_binary_name_counterexample :
  ~ (forall (E : Env) (manifest : UpdaterManifest) (archiveName binaryName : string),
        GetDownloadInfo E manifest = Ok (archiveName, binaryName) -> binaryName <> "").
Proof.
  intros H.
  apply (H (Scenario.with_manifest Scenario.extension_only) Scenario.extension_only "" "");
    vm_compute; reflexivity.
Qed.

(** ** C8 *)

(** C8, as the code has it.  The names [GetDownloadInfo] returns depend on
    the template engine, the two templates and the resolved variables only:
    two resolutions that agree on these return the same names.  Fields are
    referred to as [{{.Os}}], [{{.Arch}}], [{{.ArchiveExt}}] and
    [{{.Ext}}]: the template [{{.Os}}-{{.Arch}}{{.ArchiveExt}}] renders to
    [linux-x86_64.tar.gz] with os [linux], arch [x86_64] and archive
    extension [.tar.gz], as an archive name too, while
    [{OS}-{Arch}{ArchiveExt}] holds no action and renders to itself, and
    [{{.OS}}] names no field of the variables and fails to render. *)
Theorem rendering_depends_on_template_and_variables_only :
  (forall (E1 E2 : Env) (m1 m2 : UpdaterManifest) (data : variables.t),
      template_Parse E1 = template_Parse E2 ->
      Archive m1 = Archive m2 -> Binary m1 = Binary m2 ->
      platform_variables E1 m1 = Some data ->
      platform_variables E2 m2 = Some data ->
      GetDownloadInfo E1 m1 = GetDownloadInfo E2 m2) /\
  (forall ext : string,
      exists tmpl,
        template.Parse "{{.Os}}-{{.Arch}}{{.ArchiveExt}}" = Some tmpl /\
        tmpl {| variables.Os := "linux"; variables.Arch := "x86_64";
                variables.ArchiveExt := ".tar.gz"; variables.Ext := ext |}
          = Some "linux-x86_64.tar.gz") /\
  GetDownloadInfo
    (Scenario.with_manifest
       (Scenario.manifest "{{.Os}}-{{.Arch}}{{.ArchiveExt}}" "tool" "linux" "linux" "amd64" "x86_64"))
    (Scenario.manifest "{{.Os}}-{{.Arch}}{{.ArchiveExt}}" "tool" "linux" "linux" "amd64" "x86_64")
    = Ok ("linux-x86_64.tar.gz", "tool") /\
  (forall data : variables.t,
      exists tmpl,
        template.Parse "{OS}-{Arch}{ArchiveExt}" = Some tmpl /\
        tmpl data = Some "{OS}-{Arch}{ArchiveExt}") /\
  (forall data : variables.t,
      exists tmpl,
        template.Parse "{{.OS}}-{{.Arch}}{{.ArchiveExt}}" = Some tmpl /\
        tmpl data = None).
Proof.
  split; [|split; [|split; [|split]]].
  - intros E1 E2 m1 m2 data He Ha Hb H1 H2.
    destruct (String.eqb (strings_TrimSpace (Binary m1)) "") eqn:Hblank.
    + unfold GetDownloadInfo. rewrite <- Hb, Hblank. reflexivity.
    + apply String.eqb_neq in Hblank.
      rewrite (GetDownloadInfo_supported E1 m1 data Hblank H1).
      rewrite Hb in Hblank.
      rewrite (GetDownloadInfo_supported E2 m2 data Hblank H2).
      rewrite He, Ha, Hb. reflexivity.
  - intros ext. eexists. split; [vm_compute; reflexivity|]. reflexivity.
  - vm_compute. reflexivity.
  - intros data. eexists. split; [vm_compute; reflexivity|]. reflexivity.
  - intros data. eexists. split; [vm_compute; reflexivity|]. reflexivity.
Qed.

Lemma rendering_witness :
  GetDownloadInfo (Scenario.tar_on_linux Scenario.two_tools_tar) Scenario.tarball =
  GetDownloadInfo (Scenario.tar_on_linux Scenario.no_tool_tar)
    (with_Version "3.0.0" Scenario.tarball).
Proof.
  apply (proj1 rendering_depends_on_template_and_variables_only
           (Scenario.tar_on_linux Scenario.two_tools_tar)
           (Scenario.tar_on_linux Scenario.no_tool_tar)
           Scenario.tarball (with_Version "3.0.0" Scenario.tarball)
           {| variables.Os := "Linux"; variables.Arch := "x86_64";
              variables.ArchiveExt := ".tar.gz"; variables.Ext := "" |});
    vm_compute; reflexivity.
Defined.

(** The claim as written: [{OS}-{Arch}{ArchiveExt}] renders to
    [linux-x86_64.tar.gz]. *)
Lemma rendering_counterexample :
  ~ (exists tmpl,
        template.Parse "{OS}-{Arch}{ArchiveExt}" = Some tmpl /\
        tmpl Scenario.spec_variables = Some "linux-x86_64.tar.gz").
Proof.
  intros (tmpl & Hp & Hr). vm_compute in Hp. inversion Hp; subst.
  vm_compute in Hr. discriminate.
Qed.

(** ** C10 *)

Lemma bind_cong {A B : Type} (c1 c2 : M A) (k1 k2 : A -> M B) (w : World) :
  c1 w = c2 w ->
  (forall a w', k1 a w' = k2 a w') ->
  (c1 ≫= k1) w = (c2 ≫= k2) w.
Proof.
  intros Hc Hk. unfold mbind, M_bind. rewrite Hc.
  destruct (c2 w) as [[a|e] w']; [apply Hk | reflexivity].
Qed.

Section Versions.

Context (E : Env) (f : string -> string) (currentVersion : string).

Lemma extractZip_range_ignores_versions (c : UpdaterConfig) (a b tempDir destination binaryPath : string)
    (files : list zip.File) (w : World) :
  extractZip_range (republished f E) (with_CurrentVersion currentVersion (resolved c a b)) tempDir destination binaryPath files w =
  extractZip_range E (resolved c a b) tempDir destination binaryPath files w.
Proof.
  revert w. induction files as [|file files IH]; intros w; [reflexivity|].
  cbn [extractZip_range]. apply bind_cong; [reflexivity|]. intros rc w1.
  change (GOOS (republished f E)) with (GOOS E).
  change (binaryName (with_CurrentVersion currentVersion (resolved c a b))) with (binaryName (resolved c a b)).
  destruct (String.eqb _ _); [|apply IH].
  apply bind_cong; [reflexivity|]. intros filename w2.
  apply bind_cong; [reflexivity|]. intros tempName w3.
  destruct (zip.IsRegular file); [reflexivity|apply IH].
Qed.

Lemma extractTarball_for_ignores_versions (c : UpdaterConfig) (a b tempDir destination binaryPath : string)
    (tarReader : list tar.Next) (created : bool) (w : World) :
  extractTarball_for (republished f E) (with_CurrentVersion currentVersion (resolved c a b)) tempDir destination binaryPath tarReader created w =
  extractTarball_for E (resolved c a b) tempDir destination binaryPath tarReader created w.
Proof.
  revert created w. induction tarReader as [|[header data|] rest IH]; intros created w;
    [reflexivity| |reflexivity].
  cbn [extractTarball_for].
  change (GOOS (republished f E)) with (GOOS E).
  change (binaryName (with_CurrentVersion currentVersion (resolved c a b))) with (binaryName (resolved c a b)).
  destruct (String.eqb _ _); [|apply IH].
  apply bind_cong; [reflexivity|]. intros filename w2.
  apply bind_cong; [reflexivity|]. intros tempName w3.
  destruct (Ascii.eqb _ _); [|apply IH].
  repeat (apply bind_cong; [reflexivity|]; intros ? ?). apply IH.
Qed.

Lemma downloadBinary_ignores_versions (c : UpdaterConfig) (a b : string) (w : World) :
  downloadBinary (republished f E) (with_CurrentVersion currentVersion (resolved c a b)) w = downloadBinary E (resolved c a b) w.
Proof. reflexivity. Qed.

Lemma downloadArchive_ignores_versions (c : UpdaterConfig) (a b : string) (w : World) :
  downloadArchive (republished f E) (with_CurrentVersion currentVersion (resolved c a b)) w = downloadArchive E (resolved c a b) w.
Proof.
  unfold downloadArchive.
  apply bind_cong; [reflexivity|]. intros filename w1.
  apply bind_cong; [reflexivity|]. intros requestUrl w2.
  apply bind_cong; [reflexivity|]. intros _ w3.
  apply bind_cong; [reflexivity|]. intros _ w4.
  apply bind_cong; [reflexivity|]. intros resp w5.
  destruct (negb _); [reflexivity|].
  apply bind_cong; [reflexivity|]. intros responseBody w6.
  apply bind_cong; [reflexivity|]. intros _ w7.
  change (archiveName (with_CurrentVersion currentVersion (resolved c a b))) with (archiveName (resolved c a b)).
  destruct (strings_HasSuffix _ ".tar.gz").
  - unfold extractTarball.
    apply bind_cong; [reflexivity|]. intros binaryPath w8.
    apply bind_cong; [reflexivity|]. intros file w9.
    apply bind_cong; [reflexivity|]. intros stream w10.
    apply bind_cong; [apply extractTarball_for_ignores_versions|]. intros created w11.
    reflexivity.
  - destruct (strings_HasSuffix _ ".zip"); [|reflexivity].
    unfold extractZip.
    apply bind_cong; [reflexivity|]. intros binaryPath w8.
    apply bind_cong; [reflexivity|]. intros stream w9.
    apply bind_cong; [apply extractZip_range_ignores_versions|]. intros created w10.
    reflexivity.
Qed.

End Versions.

Lemma GetDownloadInfo_ignores_Version (E : Env) (f : string -> string) (v : string)
    (manifest : UpdaterManifest) :
  GetDownloadInfo (republished f E) (with_Version v manifest) = GetDownloadInfo E manifest.
Proof. reflexivity. Qed.

Lemma GetManifest_republished (E : Env) (f : string -> string) (currentVersion : string)
    (updater : Updater) (w : World) :
  GetManifest (republished f E) (with_CurrentVersion currentVersion updater) w =
  match GetManifest E updater w with
  | (Ok manifest, w') => (Ok (with_Version (f (Version manifest)) manifest), w')
  | (Err e, w') => (Err e, w')
  end.
Proof.
  unfold GetManifest, validateUrl, http_NewRequest, httpClient_Do, io_ReadAll. run.
  on (url_JoinPath E (BaseUrl (config updater)) (UpdaterConfigName (config updater)));
    [|reflexivity].
  on (url_Parse E s); [|reflexivity].
  on (negb (String.eqb (url.Scheme u) "https")); [reflexivity|].
  on (String.eqb (url.Host u) ""); [reflexivity|].
  on (http_Do E (length (requests w)) s); [|reflexivity].
  on (negb (http.StatusCode r =? 200)); [reflexivity|].
  on (intact (http.Body r)); [|reflexivity].
  on (json_Unmarshal E (bytes (http.Body r))); reflexivity.
Qed.



(** The versions are equal, and the executable is replaced all the same; so
    it is with a blank current version. *)
Example Update_at_the_same_version :
  forall currentVersion : string,
  exists w,
    Update (Scenario.on_linux Mock.no_fault) (New (Mock.cfg currentVersion)) Mock.world = (Ok tt, w) /\
    fs w !! Mock.exe = Some {| content := "NEWBIN"; perm := octal 7 4 4 |} /\
    requests w = [Mock.manifest_url; "https://example.com/releases/linux"].
Proof.
  intros currentVersion. eexists. split; [vm_compute; reflexivity|].
  split; vm_compute; reflexivity.
Qed.

(** ** C5 *)

Lemma validateUrl_insecure (E : Env) (requestUrl : string) (w : World) :
  insecure E requestUrl ->
  exists e, validateUrl E requestUrl w = (Err e, w).
Proof.
  intros (parsed & Hp & Hbad). unfold validateUrl. run. rewrite Hp. run.
  destruct (negb (String.eqb (url.Scheme parsed) "https")) eqn:Hs; [eauto|].
  apply negb_false_iff, String.eqb_eq in Hs.
  destruct Hbad as [Hbad | Hbad]; [contradiction|].
  rewrite Hbad. cbn. eauto.
Qed.

(** C5.  The manifest fetch, the download of a bare binary and the
    download of an archive each join the base URL with their file name and
    validate the result before anything is requested: when the joined URL
    has a scheme other than https, or an empty host, the operation returns
    an error, and the log of requests and the disk are as they were. *)
Theorem insecure_url_is_never_requested (E : Env) (updater : Updater) (w : World) :
  (forall requestUrl,
      url_JoinPath E (BaseUrl (config updater)) (UpdaterConfigName (config updater))
        = Some requestUrl ->
      insecure E requestUrl ->
      exists e w', GetManifest E updater w = (Err e, w') /\
                   requests w' = requests w /\ fs w' = fs w) /\
  (forall requestUrl,
      url_JoinPath E (BaseUrl (config updater)) (binaryName updater) = Some requestUrl ->
      insecure E requestUrl ->
      exists e w', downloadBinary E updater w = (Err e, w') /\
                   requests w' = requests w /\ fs w' = fs w) /\
  (forall requestUrl,
      url_JoinPath E (BaseUrl (config updater)) (archiveName updater) = Some requestUrl ->
      insecure E requestUrl ->
      exists e w', downloadArchive E updater w = (Err e, w') /\
                   requests w' = requests w /\ fs w' = fs w).
Proof.
  split; [|split]; intros requestUrl Hj Hbad.
  - destruct (validateUrl_insecure E requestUrl w Hbad) as [e He].
    exists e, w. unfold GetManifest. run. rewrite Hj. run.
    unfold mbind, M_bind. rewrite He. auto.
  - destruct (validateUrl_insecure E requestUrl (draw w) Hbad) as [e He].
    unfold downloadBinary, uuid_New. run.
    destruct (os_Executable E) as [binaryPath|]; run; [|eauto].
    rewrite Hj. run. unfold mbind, M_bind. rewrite He. eauto.
  - destruct (validateUrl_insecure E requestUrl (draw w) Hbad) as [e He].
    unfold downloadArchive, uuid_New. run.
    rewrite Hj. run. unfold mbind, M_bind. rewrite He. eauto.
Qed.

Lemma insecure_url_witness :
  insecure (Scenario.on_linux Mock.no_fault) "http://example.com/releases/updater.config.json" /\
  exists e w',
    GetManifest (Scenario.on_linux Mock.no_fault)
      {| config := Scenario.plain_http; archiveName := "tool.tar.gz"; binaryName := "tool" |}
      Mock.world = (Err e, w') /\
    requests w' = requests Mock.world /\ fs w' = fs Mock.world.
Proof.
  assert (H : insecure (Scenario.on_linux Mock.no_fault)
                "http://example.com/releases/updater.config.json").
  { eexists. split; [vm_compute; reflexivity|]. left. vm_compute. discriminate. }
  split; [exact H|].
  refine (proj1 (insecure_url_is_never_requested (Scenario.on_linux Mock.no_fault)
                   {| config := Scenario.plain_http; archiveName := "tool.tar.gz";
                      binaryName := "tool" |} Mock.world) _ _ H).
  vm_compute. reflexivity.
Defined.

Example plain_http_is_refused :
  GetManifest (Scenario.on_linux Mock.no_fault) (New Scenario.plain_http) Mock.world =
    (Err (Errorf "Invalid URL scheme. Only https is supported"), Mock.world).
Proof. vm_compute. reflexivity. Qed.

(** ** C1 *)

Lemma content_written (E : Env) (disk : gmap string File) (name data : string) (mode : Z) :
  content (written E disk name data mode) = data.
Proof. unfold written. destruct (disk !! name); reflexivity. Qed.

(** C1.  [downloadBinary], started with the running executable [old] on
    disk at its own path and a temp path that is not that path.  The first
    change it makes to the disk, if it makes any, is to move [old] to the
    temp path, a fresh name in the system temp directory; every state the
    disk is in from then on, whether the write or the chmod that follow
    succeed, fail, or stop half way, holds [old] at the temp path; before
    that it holds [old] at the executable's path.  When the update
    succeeds the executable's path holds the downloaded bytes with mode
    0744.  And it does succeed when the URL is accepted, the answer is
    complete and no call on the disk fails: the disk then goes through
    exactly three new states, the old binary moved to the temp path, the
    downloaded bytes written to the executable's path with mode 0644 less
    the umask, and that file's mode set to 0744. *)
Theorem downloadBinary_keeps_the_old_binary
    (E : Env) (updater : Updater) (w w' : World) (r : result unit)
    (binaryPath : string) (old : File) :
  os_Executable E = Some binaryPath ->
  fs w !! binaryPath = Some old ->
  filepath_Join E (os_TempDir E) (uuid_NewString E (uuids w)) <> binaryPath ->
  downloadBinary E updater w = (r, w') ->
  let tempFile := filepath_Join E (os_TempDir E) (uuid_NewString E (uuids w)) in
  exists later : list (gmap string File),
    states w' = (states w ++ later)%list /\
    (forall disk, disk ∈ later -> disk !! tempFile = Some old) /\
    (forall first rest, later = first :: rest ->
       first = <[tempFile := old]> (delete binaryPath (fs w))) /\
    (later = [] -> fs w' = fs w /\ exists e, r = Err e) /\
    (r = Ok tt ->
     exists requestUrl resp,
       http_Do E (length (requests w)) requestUrl = Some resp /\
       fs w' !! binaryPath =
         Some {| content := bytes (http.Body resp); perm := octal 7 4 4 |}) /\
    (forall requestUrl resp,
       url_JoinPath E (BaseUrl (config updater)) (binaryName updater) = Some requestUrl ->
       secure E requestUrl ->
       http_Do E (length (requests w)) requestUrl = Some resp ->
       complete resp ->
       (forall k, fs_fault E k = NoFault) ->
       let moved := <[tempFile := old]> (delete binaryPath (fs w)) in
       let new := {| content := bytes (http.Body resp);
                     perm := Z.ldiff (octal 6 4 4) (umask E) |} in
       r = Ok tt /\
       later =
         [ moved;
           <[binaryPath := new]> moved;
           <[binaryPath := {| content := bytes (http.Body resp); perm := octal 7 4 4 |}]>
             (<[binaryPath := new]> moved) ]).
Proof.
  intros Hexe Hold Hne Hrun tempFile. subst tempFile.
  set (tempFile := filepath_Join E (os_TempDir E) (uuid_NewString E (uuids w))) in *.
  pose proof Hrun as Hrun0.
  assert (Hsafe : exists later : list (gmap string File),
    states w' = (states w ++ later)%list /\
    (forall disk, disk ∈ later -> disk !! tempFile = Some old) /\
    (forall first rest, later = first :: rest ->
       first = <[tempFile := old]> (delete binaryPath (fs w))) /\
    (later = [] -> fs w' = fs w /\ exists e, r = Err e) /\
    (r = Ok tt ->
     exists requestUrl resp,
       http_Do E (length (requests w)) requestUrl = Some resp /\
       fs w' !! binaryPath =
         Some {| content := bytes (http.Body resp); perm := octal 7 4 4 |})).
  2:{ destruct Hsafe as (later & Hst & H1 & H2 & H3 & H4).
      exists later. do 5 (split; [assumption|]).
      intros requestUrl resp Hjoin (parsed & Hparse & Hscheme & Hhost) Hdo [Hcode Hintact] Hnf
        moved new.
      assert (Hempty : String.eqb (url.Host parsed) "" = false)
        by (apply String.eqb_neq, Hhost).
      assert (Hgone : moved !! binaryPath = None).
      { unfold moved. rewrite lookup_insert_ne by exact Hne. apply lookup_delete_eq. }
      unfold downloadBinary, uuid_New, validateUrl, http_NewRequest, httpClient_Do, io_ReadAll,
        os_Rename, os_WriteFile, os_Chmod, syscall, get_fs, set_fs, written in Hrun.
      run. rewrite Hexe in Hrun. run. rewrite Hjoin in Hrun. run. rewrite Hparse in Hrun. run.
      rewrite Hscheme in Hrun. run. rewrite Hempty in Hrun. run. rewrite Hdo in Hrun. run.
      rewrite Hcode in Hrun. run. rewrite Hintact in Hrun. run.
      rewrite !Hnf, Hold in Hrun. run. fold tempFile in Hrun. fold moved in Hrun.
      repeat (first [rewrite Hnf in Hrun | rewrite Hgone in Hrun
                    | rewrite lookup_insert_eq in Hrun]; run).
      fold new in Hrun.
      inversion Hrun; subst r w'. split; [reflexivity|].
      unfold states in Hst. cbn in Hst.
      rewrite <- !app_assoc in Hst. apply app_inv_head in Hst. cbn in Hst.
      inversion Hst. reflexivity. }
  clear Hrun0.
  unfold downloadBinary, uuid_New, validateUrl, http_NewRequest, httpClient_Do, io_ReadAll,
    os_Rename, os_WriteFile, os_Chmod, syscall, get_fs, set_fs in Hrun.
  run. rewrite Hexe in Hrun. run.
  on (url_JoinPath E (BaseUrl (config updater)) (binaryName updater)); [|quiet Hrun].
  rename s into requestUrl.
  on (url_Parse E requestUrl); [|quiet Hrun].
  on (negb (String.eqb (url.Scheme u) "https")); [quiet Hrun|].
  on (String.eqb (url.Host u) ""); [quiet Hrun|].
  on (http_Do E (length (requests w)) requestUrl); [|quiet Hrun].
  rename r0 into resp.
  on (negb (http.StatusCode resp =? 200)); [quiet Hrun|].
  on (intact (http.Body resp)); [|quiet Hrun].
  rewrite Hold in Hrun.
  on (fs_fault E (syscalls w)); [|quiet Hrun|quiet Hrun].
  fold tempFile in Hrun.
  set (moved := <[tempFile := old]> (delete binaryPath (fs w))) in *.
  assert (Hmoved : moved !! tempFile = Some old) by apply lookup_insert_eq.
  on (fs_fault E (S (syscalls w))).
  - rewrite lookup_insert_eq in Hrun.
    set (new := written E moved binaryPath (bytes (http.Body resp)) (octal 6 4 4)) in *.
    assert (Hnew : <[binaryPath := new]> moved !! tempFile = Some old)
      by (rewrite lookup_insert_ne; auto).
    on (fs_fault E (S (S (syscalls w)))).
    + assert (Hset : <[binaryPath := {| content := content new; perm := octal 7 4 4 |}]>
                       (<[binaryPath := new]> moved) !! tempFile = Some old)
        by (rewrite lookup_insert_ne; auto).
      changed Hrun [moved; <[binaryPath := new]> moved;
                    <[binaryPath := {| content := content new; perm := octal 7 4 4 |}]>
                      (<[binaryPath := new]> moved)].
      exists requestUrl, resp. split; [assumption|].
        rewrite lookup_insert_eq. subst new. rewrite content_written. reflexivity.
    + changed Hrun [moved; <[binaryPath := new]> moved].
    + changed Hrun [moved; <[binaryPath := new]> moved].
  - changed Hrun [moved].
  - assert (Hpart : <[binaryPath := written E moved binaryPath
                        (substring 0 n (bytes (http.Body resp))) (octal 6 4 4)]> moved
                    !! tempFile = Some old)
      by (rewrite lookup_insert_ne; auto).
    changed Hrun [moved;
      <[binaryPath := written E moved binaryPath
                        (substring 0 n (bytes (http.Body resp))) (octal 6 4 4)]> moved].
Qed.

Lemma downloadBinary_witness :
  (exists r w' later,
     downloadBinary (Scenario.on_linux Scenario.write_breaks)
       (Scenario.named "" "linux") Mock.world = (r, w') /\
     states w' = (states Mock.world ++ later)%list /\
     (forall disk, disk ∈ later ->
        disk !! "/tmp/uuid-0" = Some {| content := "OLDBIN"; perm := octal 7 5 5 |}) /\
     r = Err (Failure "os.WriteFile") /\
     fs w' !! Mock.exe = Some {| content := "NEW"; perm := octal 6 4 4 |}) /\
  (exists w' later,
     downloadBinary (Scenario.on_linux Mock.no_fault)
       (Scenario.named "" "linux") Mock.world = (Ok tt, w') /\
     states w' = (states Mock.world ++ later)%list /\
     length later = 3%nat /\
     (forall disk, disk ∈ later ->
        disk !! "/tmp/uuid-0" = Some {| content := "OLDBIN"; perm := octal 7 5 5 |}) /\
     fs w' !! Mock.exe = Some {| content := "NEWBIN"; perm := octal 7 4 4 |}).
Proof.
  split.
  - destruct (downloadBinary (Scenario.on_linux Scenario.write_breaks)
                (Scenario.named "" "linux") Mock.world) as [r w'] eqn:Hrun.
    destruct (downloadBinary_keeps_the_old_binary
                (Scenario.on_linux Scenario.write_breaks) (Scenario.named "" "linux")
                Mock.world w' r Mock.exe {| content := "OLDBIN"; perm := octal 7 5 5 |})
      as (later & Hst & Hin & _);
      [reflexivity | reflexivity | vm_compute; discriminate | exact Hrun |].
    exists r, w', later. split; [reflexivity|]. split; [exact Hst|]. split; [exact Hin|].
    vm_compute in Hrun. inversion Hrun. split; reflexivity.
  - destruct (downloadBinary (Scenario.on_linux Mock.no_fault)
                (Scenario.named "" "linux") Mock.world) as [r w'] eqn:Hrun.
    destruct (downloadBinary_keeps_the_old_binary
                (Scenario.on_linux Mock.no_fault) (Scenario.named "" "linux")
                Mock.world w' r Mock.exe {| content := "OLDBIN"; perm := octal 7 5 5 |})
      as (later & Hst & Hin & _ & _ & _ & Hgo);
      [reflexivity | reflexivity | vm_compute; discriminate | exact Hrun |].
    destruct (Hgo "https://example.com/releases/linux"
                {| http.StatusCode := 200;
                   http.Body := {| bytes := "NEWBIN"; intact := true |} |})
      as [Hr Hlater].
    + reflexivity.
    + exists {| url.Scheme := "https"; url.Host := "example.com" |}.
      split; [vm_compute; reflexivity | split; [reflexivity | discriminate]].
    + vm_compute. reflexivity.
    + split; reflexivity.
    + intros k. reflexivity.
    + exists w', later. rewrite Hr. split; [reflexivity|]. split; [exact Hst|].
      split; [rewrite Hlater; reflexivity|]. split; [exact Hin|].
      vm_compute in Hrun. inversion Hrun. reflexivity.
Defined.

(** ** C6 *)

Section NotFound.

Context (E : Env) (updater : Updater) (tempDir destination binaryPath : string).

(** Without a wanted entry the zip loop ends with [created] unset, and the
    disk has not been touched. *)
Lemma extractZip_range_not_found (files : list zip.File) (w : World) :
  forallb zip_opens files = true ->
  existsb (zip_wanted E updater) files = false ->
  exists w',
    extractZip_range E updater tempDir destination binaryPath files w = (Ok false, w') /\
    fs w' = fs w /\ trace w' = trace w /\ requests w' = requests w.
Proof.
  revert w. induction files as [|f files IH]; intros w Hopen Hnone.
  - exists w. auto.
  - cbn in Hopen, Hnone. apply andb_prop in Hopen as [Hf Hopen].
    apply orb_false_elim in Hnone as [Hw Hnone].
    unfold zip_opens in Hf. unfold zip_wanted in Hw.
    cbn [extractZip_range]. unfold uuid_New. run.
    destruct (zip.Open f) as [rc|]; [|discriminate]. run.
    destruct (String.eqb _ _); cbn in Hw.
    + rewrite Hw.
      destruct (IH (draw (draw w)) Hopen Hnone) as (w' & -> & Hfs & Htr & Hrq).
      exists w'. auto.
    + apply IH; assumption.
Qed.

(** The same for the tar loop, entered with [created] unset. *)
Lemma extractTarball_for_not_found (tarReader : list tar.Next) (w : World) :
  forallb tar_delivered tarReader = true ->
  existsb (tar_wanted E updater) tarReader = false ->
  exists w',
    extractTarball_for E updater tempDir destination binaryPath tarReader false w = (Ok false, w') /\
    fs w' = fs w /\ trace w' = trace w /\ requests w' = requests w.
Proof.
  revert w. induction tarReader as [|[header data|] rest IH]; intros w Hread Hnone.
  - exists w. auto.
  - cbn in Hread, Hnone. apply orb_false_elim in Hnone as [Hw Hnone].
    cbn [extractTarball_for]. unfold uuid_New. run.
    destruct (String.eqb _ _); cbn in Hw.
    + rewrite Hw.
      destruct (IH (draw (draw w)) Hread Hnone) as (w' & -> & Hfs & Htr & Hrq).
      exists w'. auto.
    + apply IH; assumption.
  - discriminate.
Qed.

End NotFound.



(** Without the condition that every entry opens the property fails:
    [extractZip] opens each entry before it looks at its name, so an
    archive without the binary in which one entry does not open ends in
    that entry's error, not in the error that names the archive and the
    binary. *)
Lemma extraction_without_match_counterexample :
  ~ (forall (E : Env) (updater : Updater) (src binaryPath : string) (archive : File)
       (w : World) (files : list zip.File),
        os_Executable E = Some binaryPath ->
        fs w !! src = Some archive ->
        (forall k, fs_fault E k = NoFault) ->
        zip_Reader E (content archive) = Some files ->
        existsb (zip_wanted E updater) files = false ->
        exists w', extractZip E updater src w = (Err (not_found updater), w')).
Proof.
  intros H.
  destruct (H Sample.sealed_on_windows (Scenario.named "tool_Windows_x86_64.zip" "tool.exe")
              "/tmp/archive" Mock.exe {| content := "ZIP"; perm := octal 6 4 4 |}
              (Scenario.downloaded "ZIP") Sample.sealed_zip
              eq_refl eq_refl (fun _ => eq_refl) eq_refl eq_refl) as (w' & Hrun).
  vm_compute in Hrun. discriminate.
Qed.

(** ** C3 *)

(** In a zip archive nothing after the first wanted entry matters: the
    loop gives the same result, and leaves the same world, whatever
    follows that entry. *)
Lemma extractZip_range_stops_at_first_match
    (E : Env) (updater : Updater) (tempDir destination binaryPath : string)
    (before after after' : list zip.File) (f : zip.File) (w : World) :
  existsb (zip_wanted E updater) before = false ->
  zip_wanted E updater f = true ->
  extractZip_range E updater tempDir destination binaryPath (before ++ f :: after) w =
  extractZip_range E updater tempDir destination binaryPath (before ++ f :: after') w.
Proof.
  intros Hbefore Hf. revert w. induction before as [|g before IH]; intros w.
  - unfold zip_wanted in Hf. apply andb_prop in Hf as [Hname Hreg].
    cbn [app extractZip_range].
    apply bind_cong; [reflexivity|]. intros rc w1. rewrite Hname.
    apply bind_cong; [reflexivity|]. intros filename w2.
    apply bind_cong; [reflexivity|]. intros tempName w3.
    rewrite Hreg. reflexivity.
  - cbn in Hbefore. apply orb_false_elim in Hbefore as [Hg Hbefore].
    unfold zip_wanted in Hg. specialize (IH Hbefore).
    cbn [app extractZip_range].
    apply bind_cong; [reflexivity|]. intros rc w1.
    destruct (String.eqb _ _); [|apply IH].
    apply bind_cong; [reflexivity|]. intros filename w2.
    apply bind_cong; [reflexivity|]. intros tempName w3.
    cbn in Hg. rewrite Hg. apply IH.
Qed.

(** C3, where the code departs from it.  A tar.gz archive holds two
    regular files named [tool], [a/tool] with content [FIRST] and then
    [b/tool] with content [SECOND].  [Update] succeeds, and the executable
    is [SECOND]: the loop went on after the first match, extracted the
    second one over it and moved the first one to the temp directory, next
    to the old binary.  From a zip archive with the same two entries the
    executable is [FIRST]. *)
Theorem extractTarball_goes_on_after_the_first_match :
  (exists w,
      Update (Scenario.tar_on_linux Scenario.two_tools_tar) (New (Mock.cfg "1.0.0")) Mock.world
        = (Ok tt, w) /\
      fs w !! Mock.exe = Some {| content := "SECOND"; perm := octal 7 4 4 |} /\
      fs w !! "/tmp/uuid-4" = Some {| content := "FIRST"; perm := octal 7 4 4 |} /\
      fs w !! "/tmp/uuid-2" = Some {| content := "OLDBIN"; perm := octal 7 5 5 |} /\
      uuids w = 5%nat) /\
  (exists w,
      Update (Scenario.zip_on_windows Scenario.two_tools_zip) (New (Mock.cfg "1.0.0")) Mock.world
        = (Ok tt, w) /\
      fs w !! Mock.exe = Some {| content := "FIRST"; perm := octal 7 4 4 |} /\
      fs w !! "/tmp/uuid-2" = Some {| content := "OLDBIN"; perm := octal 7 5 5 |} /\
      uuids w = 3%nat).
Proof.
  split; eexists; (split; [vm_compute; reflexivity|]); repeat split; vm_compute; reflexivity.
Qed.

(** ** C7 *)

(** C7, where the code departs from it.  An update from a tar.gz archive
    that holds the binary once removes the downloaded archive from the
    temp directory; an update from such a zip archive succeeds as well and
    leaves the downloaded archive there, beside the old binary. *)
Theorem extractZip_leaves_the_archive_behind :
  (exists w,
      Update (Scenario.tar_on_linux Scenario.one_tool_tar) (New (Mock.cfg "1.0.0")) Mock.world
        = (Ok tt, w) /\
      fs w = {[ Mock.exe := {| content := "NEWBIN"; perm := octal 7 4 4 |};
                "/tmp/uuid-2" := {| content := "OLDBIN"; perm := octal 7 5 5 |} ]}) /\
  (exists w,
      Update (Scenario.zip_on_windows Scenario.one_tool_zip) (New (Mock.cfg "1.0.0")) Mock.world
        = (Ok tt, w) /\
      fs w = {[ Mock.exe := {| content := "NEWBIN"; perm := octal 7 4 4 |};
                "/tmp/uuid-2" := {| content := "OLDBIN"; perm := octal 7 5 5 |};
                "/tmp/uuid-0" := {| content := "ZIP"; perm := octal 6 4 4 |} ]} /\
      fs w !! "/tmp/uuid-0" = Some {| content := "ZIP"; perm := octal 6 4 4 |}).
Proof.
  split; eexists; (split; [vm_compute; reflexivity|]); repeat split; vm_compute; reflexivity.
Qed.

(** * Further properties *)

(** ** What a call leaves alone *)

Lemma bind_inv {A B : Type} (c : M A) (k : A -> M B) (w w' : World) (r : result B) :
  (c ≫= k) w = (r, w') ->
  (exists a w1, c w = (Ok a, w1) /\ k a w1 = (r, w')) \/
  (exists e, c w = (Err e, w') /\ r = Err e).
Proof.
  unfold mbind, M_bind. destruct (c w) as [[a|e] w1]; intros H.
  - left. eauto.
  - right. inversion H; subst. eauto.
Qed.

Lemma keeps_bind {A B C : Type} (part : World -> C) (c : M A) (k : A -> M B) :
  keeps part c -> (forall a, keeps part (k a)) -> keeps part (c ≫= k).
Proof.
  intros Hc Hk w r w' H.
  apply bind_inv in H as [(a & w1 & H1 & H2) | (e & H1 & _)].
  - rewrite (Hk _ _ _ _ H2). exact (Hc _ _ _ H1).
  - exact (Hc _ _ _ H1).
Qed.

Lemma keeps_wrap {A C : Type} (part : World -> C) (msg : string) (c : M A) :
  keeps part c -> keeps part (wrap msg c).
Proof.
  intros Hc w r w' H. unfold wrap in H.
  destruct (c w) as [[a|e] w1] eqn:Hcw; inversion H; subst; exact (Hc _ _ _ Hcw).
Qed.

Lemma keeps_ret {A C : Type} (part : World -> C) (a : A) : keeps part (mret a).
Proof. intros w r w' H. inversion H. reflexivity. Qed.

Lemma keeps_fail {A C : Type} (part : World -> C) (e : error) : keeps part (@fail A e).
Proof. intros w r w' H. inversion H. reflexivity. Qed.

Lemma keeps_try {A C : Type} (part : World -> C) (call : string) (o : option A) :
  keeps part (try call o).
Proof. destruct o; [apply keeps_ret | apply keeps_fail]. Qed.

Lemma keeps_try_wrap {A C : Type} (part : World -> C) (msg call : string) (o : option A) :
  keeps part (try_wrap msg call o).
Proof. destruct o; [apply keeps_ret | apply keeps_fail]. Qed.

Section Frames.

Context (E : Env).

(** No call on the disk makes a request. *)
Lemma os_Rename_keeps_requests (a b : string) : keeps requests (os_Rename E a b).
Proof. outcome. Qed.

Lemma os_WriteFile_keeps_requests (name data : string) (mode : Z) :
  keeps requests (os_WriteFile E name data mode).
Proof. outcome. Qed.

Lemma os_Create_keeps_requests (name : string) : keeps requests (os_Create E name).
Proof. outcome. Qed.

Lemma io_Copy_keeps_requests (dst : string) (src : stream) : keeps requests (io_Copy E dst src).
Proof. outcome. Qed.

Lemma file_Close_keeps_requests : keeps requests (file_Close E).
Proof. outcome. Qed.

Lemma os_Chmod_keeps_requests (name : string) (mode : Z) : keeps requests (os_Chmod E name mode).
Proof. outcome. Qed.

Lemma os_Remove_keeps_requests (name : string) : keeps requests (os_Remove E name).
Proof. outcome. Qed.

Lemma os_Open_keeps_requests (call name : string) : keeps requests (os_Open E call name).
Proof. outcome. Qed.

Lemma uuid_New_keeps_requests : keeps requests (uuid_New E).
Proof. outcome. Qed.

(** Neither do the calls that draw a name, validate a URL or read a body
    touch the disk. *)
Lemma uuid_New_keeps_states : keeps states (uuid_New E).
Proof. outcome. Qed.

Lemma validateUrl_keeps_world (requestUrl : string) : keeps (fun w => w) (validateUrl E requestUrl).
Proof. outcome. Qed.

Lemma http_NewRequest_keeps_world (requestUrl : string) :
  keeps (fun w => w) (http_NewRequest E requestUrl).
Proof. outcome. Qed.

Lemma io_ReadAll_keeps_world (body : stream) : keeps (fun w => w) (io_ReadAll body).
Proof. outcome. Qed.

Lemma validateUrl_Ok (requestUrl : string) (w w' : World) :
  validateUrl E requestUrl w = (Ok tt, w') -> secure E requestUrl.
Proof.
  unfold validateUrl. run. intros H.
  on (url_Parse E requestUrl).
  on (negb (String.eqb (url.Scheme u) "https")).
  on (String.eqb (url.Host u) "").
  exists u. split; [assumption|].
  split; [apply negb_false_iff, String.eqb_eq in Heqb; exact Heqb|].
  apply String.eqb_neq. assumption.
Qed.

End Frames.

#[export] Hint Resolve keeps_ret keeps_fail keeps_try keeps_try_wrap keeps_wrap
  os_Rename_keeps_requests os_WriteFile_keeps_requests os_Create_keeps_requests
  io_Copy_keeps_requests file_Close_keeps_requests os_Chmod_keeps_requests
  os_Remove_keeps_requests os_Open_keeps_requests uuid_New_keeps_requests : frame.

(** A computation built from calls that leave a part of the world alone
    leaves it alone. *)
Ltac frame :=
  repeat first
    [ solve [auto with frame]
    | apply keeps_wrap
    | apply keeps_bind; [|intros ?]
    | match goal with
      | |- keeps _ (if ?b then _ else _) => destruct b
      end ].

Section Extraction.

Context (E : Env) (updater : Updater).

Lemma extractZip_range_keeps_requests (tempDir destination binaryPath : string)
    (files : list zip.File) :
  keeps requests (extractZip_range E updater tempDir destination binaryPath files).
Proof.
  induction files as [|f files IH]; cbn [extractZip_range]; frame.
Qed.

Lemma extractTarball_for_keeps_requests (tempDir destination binaryPath : string)
    (tarReader : list tar.Next) (created : bool) :
  keeps requests (extractTarball_for E updater tempDir destination binaryPath tarReader created).
Proof.
  revert created. induction tarReader as [|[header data|] rest IH]; intros created;
    cbn [extractTarball_for]; frame.
Qed.

Lemma extractZip_keeps_requests (src : string) : keeps requests (extractZip E updater src).
Proof.
  unfold extractZip, zip_OpenReader. pose proof extractZip_range_keeps_requests. frame.
Qed.

Lemma extractTarball_keeps_requests (src : string) : keeps requests (extractTarball E updater src).
Proof.
  unfold extractTarball. pose proof extractTarball_for_keeps_requests. frame.
Qed.

End Extraction.

(** ** Fetching *)

(** The five steps every fetch is made of (join, validate, build the
    request, send it, read the body), followed by [k] on the body: how
    they can end. *)
Lemma fetch_inv {A : Type} (E : Env) (base name : string) (k : string -> M A)
    (w w' : World) (r : result A) :
  (requestUrl ← try "url.JoinPath" (url_JoinPath E base name);
   validateUrl E requestUrl;;
   http_NewRequest E requestUrl;;
   resp ← httpClient_Do E requestUrl;
   if negb (http.StatusCode resp =? 200) then fail (status_error (http.StatusCode resp))
   else responseBody ← io_ReadAll (http.Body resp); k responseBody) w = (r, w') ->
  (w' = w /\ exists e, r = Err e) \/
  exists requestUrl,
    url_JoinPath E base name = Some requestUrl /\ secure E requestUrl /\
    ((w' = log_request requestUrl w /\
      (exists e, r = Err e) /\
      (forall resp, http_Do E (length (requests w)) requestUrl = Some resp ->
         ~ complete resp /\
         (http.StatusCode resp <> 200 -> r = Err (status_error (http.StatusCode resp))))) \/
     (exists resp,
        http_Do E (length (requests w)) requestUrl = Some resp /\ complete resp /\
        k (bytes (http.Body resp)) (log_request requestUrl w) = (r, w'))).
Proof.
  intros H.
  apply bind_inv in H as [(requestUrl & w1 & H1 & H) | (e & H1 & ->)].
  2:{ left. destruct (url_JoinPath E base name); inversion H1; subst. eauto. }
  destruct (url_JoinPath E base name) as [u|] eqn:Hj; inversion H1; subst. clear H1.
  apply bind_inv in H as [([] & w2 & H1 & H) | (e & H1 & ->)].
  2:{ left. rewrite (validateUrl_keeps_world E _ _ _ _ H1). eauto. }
  pose proof (validateUrl_Ok E _ _ _ H1) as Hsec.
  pose proof (validateUrl_keeps_world E _ _ _ _ H1) as Hw. cbn in Hw. subst w2. clear H1.
  apply bind_inv in H as [([] & w2 & H1 & H) | (e & H1 & ->)].
  2:{ left. rewrite (http_NewRequest_keeps_world E _ _ _ _ H1). eauto. }
  pose proof (http_NewRequest_keeps_world E _ _ _ _ H1) as Hw. cbn in Hw. subst w2. clear H1.
  right. exists requestUrl. split; [reflexivity|]. split; [exact Hsec|].
  unfold mbind, M_bind, httpClient_Do in H.
  destruct (http_Do E (length (requests w1)) requestUrl) as [resp|] eqn:Hd.
  2:{ left. inversion H; subst. split; [reflexivity|]. split; [eauto|]. intros resp Hr.
      discriminate. }
  destruct (negb (http.StatusCode resp =? 200)) eqn:Hs.
  { left. inversion H; subst. split; [reflexivity|]. split; [eauto|]. intros resp' Hr.
    inversion Hr; subst. apply negb_true_iff, Z.eqb_neq in Hs.
    split; [intros [Hc _]; contradiction | reflexivity]. }
  apply negb_false_iff, Z.eqb_eq in Hs.
  unfold io_ReadAll in H. destruct (intact (http.Body resp)) eqn:Hi.
  - right. exists resp. repeat split; assumption.
  - left. inversion H; subst. split; [reflexivity|]. split; [eauto|]. intros resp' Hr.
    inversion Hr; subst. split; [intros [_ Hc]; congruence | intros Hc; contradiction].
Qed.

Lemma states_log_request (u : string) (w : World) : states (log_request u w) = states w.
Proof. reflexivity. Qed.

(** How [GetManifest] can end. *)
Lemma GetManifest_inv (E : Env) (updater : Updater) (w w' : World) (r : result UpdaterManifest) :
  GetManifest E updater w = (r, w') ->
  (w' = w /\ exists e, r = Err e) \/
  exists requestUrl,
    url_JoinPath E (BaseUrl (config updater)) (UpdaterConfigName (config updater))
      = Some requestUrl /\
    secure E requestUrl /\ w' = log_request requestUrl w /\
    (forall resp, http_Do E (length (requests w)) requestUrl = Some resp ->
       http.StatusCode resp <> 200 -> r = Err (status_error (http.StatusCode resp))) /\
    (forall manifest, r = Ok manifest ->
       exists resp, http_Do E (length (requests w)) requestUrl = Some resp /\ complete resp /\
         json_Unmarshal E (bytes (http.Body resp)) = Some manifest).
Proof.
  intros H. unfold GetManifest in H.
  apply fetch_inv in H as [H | (u & Hj & Hsec & [(-> & (e & ->) & Hbad) | (resp & Hd & Hc & H)])].
  - left. exact H.
  - right. exists u. repeat split; auto.
    + intros resp Hd Hs. apply (Hbad resp Hd), Hs.
    + intros manifest Hm. discriminate.
  - right. exists u. unfold try in H. run.
    destruct (json_Unmarshal E (bytes (http.Body resp))) as [m|] eqn:Hjson;
      inversion H; subst; repeat split; auto.
    + intros resp' Hd' Hs. rewrite Hd in Hd'. inversion Hd'; subst. destruct Hc. contradiction.
    + intros manifest Hm. inversion Hm; subst. eauto.
    + intros resp' Hd' Hs. rewrite Hd in Hd'. inversion Hd'; subst. destruct Hc. contradiction.
    + intros manifest Hm. discriminate.
Qed.





(** ** Downloads *)

Section Downloads.

Context (E : Env) (updater : Updater).

(** How [downloadBinary] can end: before the request, after a request
    that was not answered completely, or in the three calls on the disk. *)
Lemma downloadBinary_inv (w w' : World) (r : result unit) :
  downloadBinary E updater w = (r, w') ->
  (states w' = states w /\ requests w' = requests w /\ exists e, r = Err e) \/
  exists binaryPath requestUrl,
    os_Executable E = Some binaryPath /\
    url_JoinPath E (BaseUrl (config updater)) (binaryName updater) = Some requestUrl /\
    secure E requestUrl /\
    ((w' = log_request requestUrl (draw w) /\ (exists e, r = Err e) /\
      forall resp, http_Do E (length (requests w)) requestUrl = Some resp -> ~ complete resp) \/
     (exists resp,
        http_Do E (length (requests w)) requestUrl = Some resp /\ complete resp /\
        (os_Rename E binaryPath
           (filepath_Join E (os_TempDir E) (uuid_NewString E (uuids w)));;
         os_WriteFile E binaryPath (bytes (http.Body resp)) (octal 6 4 4);;
         os_Chmod E binaryPath (octal 7 4 4);;
         mret tt) (log_request requestUrl (draw w)) = (r, w'))).
Proof.
  intros H. unfold downloadBinary in H.
  apply bind_inv in H as [(filename & w1 & H1 & H) | (e & H1 & ->)]; [|inversion H1].
  inversion H1; subst. clear H1.
  apply bind_inv in H as [(binaryPath & w1 & H1 & H) | (e & H1 & ->)].
  2:{ left. destruct (os_Executable E); inversion H1; subst. eauto. }
  destruct (os_Executable E) as [bp|] eqn:Hexe; inversion H1; subst. clear H1.
  apply fetch_inv in H as [(-> & He) | (u & Hj & Hsec & [(-> & He & Hbad) | (resp & Hd & Hc & H)])].
  - left. auto.
  - right. exists binaryPath, u. repeat split; auto. left. repeat split; auto.
    intros resp Hd. apply (Hbad resp Hd).
  - right. exists binaryPath, u. repeat split; auto. right. exists resp. auto.
Qed.

Lemma downloadArchive_inv (w w' : World) (r : result unit) :
  downloadArchive E updater w = (r, w') ->
  (states w' = states w /\ requests w' = requests w /\ exists e, r = Err e) \/
  exists requestUrl,
    url_JoinPath E (BaseUrl (config updater)) (archiveName updater) = Some requestUrl /\
    secure E requestUrl /\
    ((w' = log_request requestUrl (draw w) /\ (exists e, r = Err e) /\
      forall resp, http_Do E (length (requests w)) requestUrl = Some resp -> ~ complete resp) \/
     (exists resp,
        http_Do E (length (requests w)) requestUrl = Some resp /\ complete resp /\
        (os_WriteFile E (filepath_Join E (os_TempDir E) (uuid_NewString E (uuids w)))
           (bytes (http.Body resp)) (octal 6 4 4);;
         if strings_HasSuffix (strings_ToLower E (archiveName updater)) ".tar.gz" then
           extractTarball E updater (filepath_Join E (os_TempDir E) (uuid_NewString E (uuids w)))
         else if strings_HasSuffix (strings_ToLower E (archiveName updater)) ".zip" then
           extractZip E updater (filepath_Join E (os_TempDir E) (uuid_NewString E (uuids w)))
         else
           fail (Errorf ("Error. Only .tar.gz or .zip archives are supported. Got " ++
                         archiveName updater))) (log_request requestUrl (draw w)) = (r, w'))).
Proof.
  intros H. unfold downloadArchive in H.
  apply bind_inv in H as [(filename & w1 & H1 & H) | (e & H1 & ->)]; [|inversion H1].
  inversion H1; subst. clear H1.
  apply fetch_inv in H as [(-> & He) | (u & Hj & Hsec & [(-> & He & Hbad) | (resp & Hd & Hc & H)])].
  - left. auto.
  - right. exists u. repeat split; auto. left. repeat split; auto.
    intros resp Hd. apply (Hbad resp Hd).
  - right. exists u. repeat split; auto. right. exists resp. auto.
Qed.

(** Either download calls [httpClient.Do] at most once, for a URL
    [validateUrl] accepts. *)
Lemma downloadBinary_fetches_once : fetches_once E (downloadBinary E updater).
Proof.
  intros w r w' H.
  apply downloadBinary_inv in H
    as [(_ & Hr & _) | (bp & u & _ & _ & Hsec & [(-> & _) | (resp & _ & _ & H)])].
  - left. exact Hr.
  - right. exists u. split; [exact Hsec | reflexivity].
  - right. exists u. split; [exact Hsec|].
    assert (Hk : keeps requests
              (os_Rename E bp (filepath_Join E (os_TempDir E) (uuid_NewString E (uuids w)));;
               os_WriteFile E bp (bytes (http.Body resp)) (octal 6 4 4);;
               os_Chmod E bp (octal 7 4 4);; mret tt)) by frame.
    rewrite (Hk _ _ _ H). reflexivity.
Qed.

Lemma downloadArchive_fetches_once : fetches_once E (downloadArchive E updater).
Proof.
  intros w r w' H.
  apply downloadArchive_inv in H
    as [(_ & Hr & _) | (u & _ & Hsec & [(-> & _) | (resp & _ & _ & H)])].
  - left. exact Hr.
  - right. exists u. split; [exact Hsec | reflexivity].
  - right. exists u. split; [exact Hsec|].
    pose proof (extractTarball_keeps_requests E updater) as Ht.
    pose proof (extractZip_keeps_requests E updater) as Hz.
    match type of H with
    | ?k _ = _ => assert (Hk : keeps requests k) by frame
    end.
    rewrite (Hk _ _ _ H). reflexivity.
Qed.

End Downloads.



(** X4.  [Update] changes the disk only after two complete answers: when
    the disk has been in a new state, the manifest was fetched and
    decoded, the names were resolved, and the request for the artifact
    (the archive if one is named, the bare binary otherwise) was answered
    with status 200 and a body read to its end.  A failed fetch, an
    unsupported platform, a bad template or a failed download leave every
    file as it was. *)
Theorem Update_changes_the_disk_only_after_both_downloads
    (E : Env) (updater : Updater) (w w' : World) (r : result unit) :
  Update E updater w = (r, w') ->
  states w' <> states w ->
  exists manifest archive binary mu au resp,
    GetManifest E updater w = (Ok manifest, log_request mu w) /\
    GetDownloadInfo E manifest = Ok (archive, binary) /\
    url_JoinPath E (BaseUrl (config updater))
      (if negb (String.eqb archive "") then archive else binary) = Some au /\
    http_Do E (length (requests w ++ [mu])) au = Some resp /\
    complete resp.
Proof.
  intros H Hchanged. unfold Update in H.
  apply bind_inv in H as [(manifest & w1 & Hm & H) | (e & Hm & ->)].
  2:{ exfalso. apply Hchanged.
      apply GetManifest_inv in Hm as [(-> & _) | (mu & _ & _ & -> & _)]; reflexivity. }
  pose proof Hm as Hm'.
  apply GetManifest_inv in Hm' as [(_ & e & He) | (mu & _ & _ & -> & _)]; [discriminate|].
  destruct (GetDownloadInfo E manifest) as [[a b]|e] eqn:Hr.
  2:{ exfalso. apply Hchanged. inversion H. reflexivity. }
  exists manifest, a, b, mu.
  destruct (negb (String.eqb a "")).
  - apply downloadArchive_inv in H
      as [(Hst & _) | (au & Hj & _ & [(-> & _) | (resp & Hd & Hc & _)])].
    + exfalso. apply Hchanged. rewrite Hst. reflexivity.
    + exfalso. apply Hchanged. reflexivity.
    + exists au, resp. auto.
  - apply downloadBinary_inv in H
      as [(Hst & _) | (bp & au & _ & Hj & _ & [(-> & _) | (resp & Hd & Hc & _)])].
    + exfalso. apply Hchanged. rewrite Hst. reflexivity.
    + exfalso. apply Hchanged. reflexivity.
    + exists au, resp. auto.
Qed.

Lemma Update_changes_the_disk_witness :
  exists w' manifest archive binary mu au resp,
    Update (Scenario.on_linux Mock.no_fault) (New (Mock.cfg "1.0.0")) Mock.world = (Ok tt, w') /\
    states w' <> states Mock.world /\
    GetManifest (Scenario.on_linux Mock.no_fault) (New (Mock.cfg "1.0.0")) Mock.world
      = (Ok manifest, log_request mu Mock.world) /\
    GetDownloadInfo (Scenario.on_linux Mock.no_fault) manifest = Ok (archive, binary) /\
    url_JoinPath (Scenario.on_linux Mock.no_fault) (BaseUrl (config (New (Mock.cfg "1.0.0"))))
      (if negb (String.eqb archive "") then archive else binary) = Some au /\
    http_Do (Scenario.on_linux Mock.no_fault) (length (requests Mock.world ++ [mu])) au
      = Some resp /\
    complete resp.
Proof.
  destruct (Update (Scenario.on_linux Mock.no_fault) (New (Mock.cfg "1.0.0")) Mock.world)
    as [r w'] eqn:H.
  assert (Hch : states w' <> states Mock.world).
  { vm_compute in H. inversion H. intros Heq.
    apply (f_equal (@length (gmap string File))) in Heq. vm_compute in Heq. discriminate. }
  destruct (Update_changes_the_disk_only_after_both_downloads _ _ _ _ _ H Hch)
    as (manifest & archive & binary & mu & au & resp & Hrest).
  exists w', manifest, archive, binary, mu, au, resp.
  split; [|split; [exact Hch | exact Hrest]].
  vm_compute in H. inversion H. reflexivity.
Defined.



(** X6.  An archive name that ends neither in [.tar.gz] nor in [.zip],
    whatever the case of its letters, is found out after the download: the
    archive has been requested and written to the temp directory, where it
    stays, and [downloadArchive] returns
    [Error. Only .tar.gz or .zip archives are supported. Got ] followed by
    the name.  No other file has changed. *)
Theorem downloadArchive_unsupported_suffix
    (E : Env) (updater : Updater) (w : World) (requestUrl : string) (resp : http.Response) :
  url_JoinPath E (BaseUrl (config updater)) (archiveName updater) = Some requestUrl ->
  secure E requestUrl ->
  http_Do E (length (requests w)) requestUrl = Some resp ->
  complete resp ->
  fs_fault E (syscalls w) = NoFault ->
  strings_HasSuffix (strings_ToLower E (archiveName updater)) ".tar.gz" = false ->
  strings_HasSuffix (strings_ToLower E (archiveName updater)) ".zip" = false ->
  let tempFile := filepath_Join E (os_TempDir E) (uuid_NewString E (uuids w)) in
  exists w',
    downloadArchive E updater w =
      (Err (Errorf ("Error. Only .tar.gz or .zip archives are supported. Got " ++
                    archiveName updater)), w') /\
    requests w' = (requests w ++ [requestUrl])%list /\
    fs w' = <[tempFile := written E (fs w) tempFile (bytes (http.Body resp)) (octal 6 4 4)]> (fs w).
Proof.
  intros Hj (parsed & Hp & Hs & Hh) Hd [Hc Hi] Hnf Htar Hzip tempFile.
  apply String.eqb_neq in Hh. apply Z.eqb_eq in Hc.
  unfold downloadArchive, uuid_New, validateUrl, http_NewRequest, httpClient_Do, io_ReadAll,
    os_WriteFile, syscall, get_fs, set_fs.
  run. rewrite Hj. run. rewrite Hp. run. rewrite Hs, Hh. run. rewrite Hd. run.
  rewrite Hc, Hi. run. rewrite Hnf. run. rewrite Htar, Hzip.
  eexists. split; [reflexivity|]. split; reflexivity.
Qed.

Lemma downloadArchive_unsupported_suffix_witness :
  exists w',
    downloadArchive Sample.rar_on_linux (Scenario.named "tool.rar" "tool") Mock.world =
      (Err (Errorf "Error. Only .tar.gz or .zip archives are supported. Got tool.rar"), w') /\
    requests w' = ["https://example.com/releases/tool.rar"] /\
    fs w' = <[ "/tmp/uuid-0" := {| content := "RAR"; perm := octal 6 4 4 |} ]> Mock.disk.
Proof.
  destruct (downloadArchive_unsupported_suffix Sample.rar_on_linux
              (Scenario.named "tool.rar" "tool") Mock.world
              "https://example.com/releases/tool.rar"
              {| http.StatusCode := 200; http.Body := {| bytes := "RAR"; intact := true |} |})
    as (w' & Hrun & Hreq & Hfs).
  - reflexivity.
  - eexists. split; [vm_compute; reflexivity|]. split; [reflexivity | vm_compute; discriminate].
  - vm_compute. reflexivity.
  - split; reflexivity.
  - reflexivity.
  - vm_compute. reflexivity.
  - vm_compute. reflexivity.
  - exists w'. split; [exact Hrun|]. split; [exact Hreq|]. rewrite Hfs. vm_compute. reflexivity.
Defined.

(** ** Extraction *)

Section Zip.

Context (E : Env) (updater : Updater) (tempDir destination binaryPath : string).

(** The zip loop passes over entries that open and are not wanted; it
    draws names for those whose base name matches, and touches nothing
    else. *)
Lemma extractZip_range_skips (before : list zip.File) (w : World) :
  forallb zip_opens before = true ->
  existsb (zip_wanted E updater) before = false ->
  exists w1,
    (forall rest,
        extractZip_range E updater tempDir destination binaryPath (before ++ rest) w =
        extractZip_range E updater tempDir destination binaryPath rest w1) /\
    fs w1 = fs w /\ trace w1 = trace w /\ requests w1 = requests w /\
    syscalls w1 = syscalls w /\ (uuids w <= uuids w1)%nat.
Proof.
  revert w. induction before as [|f before IH]; intros w Hopen Hnone.
  - exists w. repeat split; auto.
  - cbn in Hopen, Hnone. apply andb_prop in Hopen as [Hf Hopen].
    apply orb_false_elim in Hnone as [Hw Hnone].
    unfold zip_opens in Hf. unfold zip_wanted in Hw.
    destruct (zip.Open f) as [rc|] eqn:Hrc; [|discriminate].
    destruct (String.eqb (filepath_Base E (zip.Name f)) (binaryName updater)) eqn:Hname;
      cbn in Hw.
    + destruct (IH (draw (draw w)) Hopen Hnone) as (w1 & Hrest & Hfs & Htr & Hrq & Hsys & Hu).
      exists w1. split; [|cbn in *; repeat split; auto; lia].
      intros rest. cbn [app extractZip_range]. unfold uuid_New. run.
      rewrite Hrc. run. rewrite Hname, Hw. apply Hrest.
    + destruct (IH w Hopen Hnone) as (w1 & Hrest & Hfs & Htr & Hrq & Hsys & Hu).
      exists w1. split; [|repeat split; auto].
      intros rest. cbn [app extractZip_range]. run. rewrite Hrc. run. rewrite Hname.
      apply Hrest.
Qed.

End Zip.

(** X9.  [extractZip] opens every entry before it looks at its name.  An
    entry that does not open, met before any wanted entry, ends the
    extraction with [ExtractZip: failed to open file], whatever its name
    and whatever comes after it; the disk has not changed. *)
Theorem extractZip_stops_at_an_entry_that_does_not_open
    (E : Env) (updater : Updater) (src binaryPath : string) (archive : File) (w : World)
    (before after : list zip.File) (f : zip.File) :
  os_Executable E = Some binaryPath ->
  fs w !! src = Some archive ->
  fs_fault E (syscalls w) = NoFault ->
  zip_Reader E (content archive) = Some (before ++ f :: after)%list ->
  forallb zip_opens before = true ->
  existsb (zip_wanted E updater) before = false ->
  zip.Open f = None ->
  exists w',
    extractZip E updater src w =
      (Err (Wrapf "ExtractZip: failed to open file " (Failure "zip.File.Open")), w') /\
    fs w' = fs w /\ states w' = states w.
Proof.
  intros Hexe Hsrc Hnf Hdec Hopen Hnone Hf.
  destruct (extractZip_range_skips E updater (os_TempDir E) (filepath_Dir E src) binaryPath
              before (tick w) Hopen Hnone) as (w1 & Hrest & Hfs & Htr & _).
  exists w1. unfold extractZip, zip_OpenReader, os_Open, syscall, get_fs. run.
  rewrite Hexe. run. rewrite Hnf, Hsrc. run. rewrite Hdec. run.
  unfold mbind, M_bind. rewrite Hrest. cbn [extractZip_range]. run. rewrite Hf. run.
  split; [reflexivity|]. split; [exact Hfs|]. unfold states. rewrite Hfs, Htr. reflexivity.
Qed.

Lemma extractZip_stops_witness :
  exists w',
    extractZip
      (Mock.env "windows" "amd64" Scenario.zipped Scenario.archive_host Mock.no_archive
         (Scenario.decodes_to "ZIP"
            [ Scenario.zip_entry "README" true "read me";
              {| zip.Name := "LICENSE"; zip.IsRegular := true; zip.Open := None |};
              Scenario.zip_entry "bin/tool.exe" true "NEWBIN" ])
         Mock.no_fault)
      (Scenario.named "tool_Windows_x86_64.zip" "tool.exe") "/tmp/archive"
      (Scenario.downloaded "ZIP")
    = (Err (Wrapf "ExtractZip: failed to open file " (Failure "zip.File.Open")), w') /\
    fs w' = fs (Scenario.downloaded "ZIP").
Proof.
  destruct (extractZip_stops_at_an_entry_that_does_not_open
      (Mock.env "windows" "amd64" Scenario.zipped Scenario.archive_host Mock.no_archive
         (Scenario.decodes_to "ZIP"
            [ Scenario.zip_entry "README" true "read me";
              {| zip.Name := "LICENSE"; zip.IsRegular := true; zip.Open := None |};
              Scenario.zip_entry "bin/tool.exe" true "NEWBIN" ])
         Mock.no_fault)
      (Scenario.named "tool_Windows_x86_64.zip" "tool.exe") "/tmp/archive" Mock.exe
      {| content := "ZIP"; perm := octal 6 4 4 |} (Scenario.downloaded "ZIP")
      [ Scenario.zip_entry "README" true "read me" ]
      [ Scenario.zip_entry "bin/tool.exe" true "NEWBIN" ]
      {| zip.Name := "LICENSE"; zip.IsRegular := true; zip.Open := None |})
    as (w' & Hrun & Hfs & _); try (vm_compute; reflexivity).
  exists w'. split; [exact Hrun | exact Hfs].
Defined.

(** ** Base names *)

Section Base.

Context (goos : string) (Hgoos : String.eqb goos "windows" = false).

Lemma separator_off_windows (c : ascii) : os_IsPathSeparator goos c = Ascii.eqb c "/"%char.
Proof. unfold os_IsPathSeparator. rewrite Hgoos. cbn. apply orb_false_r. Qed.

Lemma strip_trailing_plain (name : string) :
  plain goos name -> strip_trailing_separators goos name = name.
Proof.
  unfold plain. induction name as [|c name IH]; [reflexivity|].
  cbn [list_ascii_of_string existsb strip_trailing_separators].
  intros [Hc Hn]%orb_false_elim. rewrite (IH Hn), Hc. destruct name; reflexivity.
Qed.

Lemma strip_trailing_app (dir name : string) :
  plain goos name -> name <> "" ->
  strip_trailing_separators goos (dir ++ name) = dir ++ name.
Proof.
  intros Hp Hne. induction dir as [|c dir IH].
  - apply strip_trailing_plain, Hp.
  - rewrite append_cons. cbn [strip_trailing_separators]. rewrite IH.
    destruct (dir ++ name) eqn:Hd; [|reflexivity].
    destruct dir; [|discriminate]. cbn in Hd. contradiction.
Qed.

Lemma last_element_plain (name : string) : plain goos name -> last_element goos name = name.
Proof.
  unfold plain. destruct name as [|c name]; [reflexivity|].
  cbn [list_ascii_of_string existsb last_element].
  intros [Hc Hn]%orb_false_elim. rewrite Hn, Hc. reflexivity.
Qed.

Lemma slash_in_app (dir name : string) :
  existsb (os_IsPathSeparator goos) (list_ascii_of_string (dir ++ String "/"%char name)) = true.
Proof.
  induction dir as [|c dir IH].
  - reflexivity.
  - rewrite append_cons. cbn [list_ascii_of_string existsb]. rewrite IH. apply orb_true_r.
Qed.

Lemma last_element_app (dir name : string) :
  plain goos name -> last_element goos (dir ++ String "/"%char name) = name.
Proof.
  intros Hp. induction dir as [|c dir IH].
  - rewrite append_nil_l. cbn [last_element]. unfold plain in Hp.
    rewrite Hp, separator_off_windows. reflexivity.
  - rewrite append_cons. cbn [last_element]. rewrite slash_in_app. exact IH.
Qed.

End Base.

(** Off Windows a path has no volume name. *)
Lemma filepath_Base_off_windows (E : Env) (path : string) :
  String.eqb (GOOS E) "windows" = false ->
  filepath_Base E path =
    match path with
    | EmptyString => "."
    | _ =>
        match last_element (GOOS E) (strip_trailing_separators (GOOS E) path) with
        | EmptyString => "/"
        | b => b
        end
    end.
Proof.
  intros Hgoos. unfold filepath_Base, VolumeName. rewrite Hgoos. reflexivity.
Qed.

(** X10.  Off Windows, an entry is matched by the last element of its
    name: for a binary name that is not empty and holds no slash, the base
    name of the bare name and of the name under any directory path is the
    binary name, so a regular zip or tar entry of that name is wanted at
    any depth, and an entry of that name that is not a regular file is
    not. *)
Theorem entry_is_matched_by_its_last_element (E : Env) (updater : Updater) (dir : string) :
  String.eqb (GOOS E) "windows" = false ->
  binaryName updater <> "" ->
  plain (GOOS E) (binaryName updater) ->
  filepath_Base E (binaryName updater) = binaryName updater /\
  filepath_Base E (dir ++ "/" ++ binaryName updater) = binaryName updater /\
  (forall (regular : bool) (rc : option stream),
      zip_wanted E updater
        {| zip.Name := dir ++ "/" ++ binaryName updater; zip.IsRegular := regular;
           zip.Open := rc |} = regular) /\
  (forall (typeflag : ascii) (data : stream),
      tar_wanted E updater
        (tar.Entry {| tar.Name := dir ++ "/" ++ binaryName updater; tar.Typeflag := typeflag |}
           data) = Ascii.eqb typeflag tar.TypeReg).
Proof.
  intros Hgoos Hne Hp.
  assert (H1 : filepath_Base E (binaryName updater) = binaryName updater).
  { rewrite (filepath_Base_off_windows _ _ Hgoos).
    destruct (binaryName updater) as [|c b] eqn:Hb; [contradiction|].
    rewrite (strip_trailing_plain _ _ Hp), (last_element_plain _ _ Hp). reflexivity. }
  assert (H2 : filepath_Base E (dir ++ "/" ++ binaryName updater) = binaryName updater).
  { rewrite (filepath_Base_off_windows _ _ Hgoos).
    destruct (dir ++ "/" ++ binaryName updater) as [|c p] eqn:Hpath.
    { destruct dir; discriminate. }
    rewrite <- Hpath.
    change (dir ++ "/" ++ binaryName updater) with (dir ++ String "/"%char (binaryName updater)).
    replace (dir ++ String "/"%char (binaryName updater))
      with ((dir ++ "/") ++ binaryName updater) at 1
      by (rewrite append_assoc; reflexivity).
    rewrite (strip_trailing_app _ (dir ++ "/") _ Hp Hne), append_assoc.
    change ("/" ++ binaryName updater) with (String "/"%char (binaryName updater)).
    rewrite (last_element_app _ Hgoos dir _ Hp).
    destruct (binaryName updater); [contradiction | reflexivity]. }
  split; [exact H1|]. split; [exact H2|]. split.
  - intros regular rc. unfold zip_wanted. cbn [zip.Name zip.IsRegular].
    rewrite H2, String.eqb_refl. reflexivity.
  - intros typeflag data. unfold tar_wanted. cbn [tar.Name tar.Typeflag].
    rewrite H2, String.eqb_refl. reflexivity.
Qed.

Lemma entry_is_matched_witness :
  filepath_Base (Scenario.on_linux Mock.no_fault) "opt/tools/bin/tool" = "tool" /\
  zip_wanted (Scenario.on_linux Mock.no_fault) (Scenario.named "" "tool")
    {| zip.Name := "opt/tools/bin/tool"; zip.IsRegular := true; zip.Open := None |} = true.
Proof.
  destruct (entry_is_matched_by_its_last_element (Scenario.on_linux Mock.no_fault)
              (Scenario.named "" "tool") "opt/tools/bin")
    as (_ & H2 & H3 & _).
  - reflexivity.
  - discriminate.
  - reflexivity.
  - split; [exact H2 | exact (H3 true None)].
Defined.

(** ** Replacing the executable *)

Section Calls.

Context (E : Env) (Hnf : forall k, fs_fault E k = NoFault).

Lemma bind_Ok {A B : Type} (c : M A) (k : A -> M B) (w w1 : World) (a : A) :
  c w = (Ok a, w1) -> (c ≫= k) w = k a w1.
Proof. intros H. unfold mbind, M_bind. rewrite H. reflexivity. Qed.

Lemma wrap_Ok {A : Type} (msg : string) (c : M A) (w w1 : World) (a : A) :
  c w = (Ok a, w1) -> wrap msg c w = (Ok a, w1).
Proof. intros H. unfold wrap. rewrite H. reflexivity. Qed.

Lemma os_Create_Ok (name : string) (w : World) :
  os_Create E name w =
    (Ok tt, write_fs (<[name := written E (fs w) name "" (octal 6 6 6)]> (fs w)) (tick w)).
Proof. unfold os_Create, syscall, get_fs, set_fs. run. rewrite Hnf. reflexivity. Qed.

Lemma io_Copy_Ok (dst : string) (src : stream) (w : World) :
  intact src = true ->
  io_Copy E dst src w = (Ok tt, write_fs (alter (append (bytes src)) dst (fs w)) (tick w)).
Proof.
  intros Hi. unfold io_Copy, syscall, get_fs, set_fs. run. rewrite Hnf. run. rewrite Hi.
  reflexivity.
Qed.

Lemma file_Close_Ok (w : World) : file_Close E w = (Ok tt, tick w).
Proof. unfold file_Close, syscall. run. rewrite Hnf. reflexivity. Qed.

Lemma os_Rename_Ok (oldpath newpath : string) (file : File) (w : World) :
  fs w !! oldpath = Some file ->
  os_Rename E oldpath newpath w =
    (Ok tt, write_fs (<[newpath := file]> (delete oldpath (fs w))) (tick w)).
Proof.
  intros Hf. unfold os_Rename, syscall, get_fs, set_fs. run. rewrite Hnf, Hf. reflexivity.
Qed.

Lemma os_Chmod_Ok (name : string) (mode : Z) (file : File) (w : World) :
  fs w !! name = Some file ->
  os_Chmod E name mode w =
    (Ok tt, write_fs (<[name := {| content := content file; perm := mode |}]> (fs w)) (tick w)).
Proof.
  intros Hf. unfold os_Chmod, syscall, get_fs, set_fs. run. rewrite Hnf, Hf. reflexivity.
Qed.

Lemma os_Remove_Ok (name : string) (file : File) (w : World) :
  fs w !! name = Some file ->
  os_Remove E name w = (Ok tt, write_fs (delete name (fs w)) (tick w)).
Proof.
  intros Hf. unfold os_Remove, syscall, get_fs, set_fs. run. rewrite Hnf, Hf. reflexivity.
Qed.

Lemma os_Open_Ok (call name : string) (file : File) (w : World) :
  fs w !! name = Some file ->
  os_Open E call name w = (Ok (content file), tick w).
Proof.
  intros Hf. unfold os_Open, syscall, get_fs. run. rewrite Hnf, Hf. reflexivity.
Qed.

(** The six calls that put an entry in the executable's place, when none
    of them fails and the three paths differ: the entry's bytes are at the
    executable's path with mode 0744, the file that was there is at the
    temp path, and no other file has changed; the caller goes on with
    [k].  [ma], [mb] and [mc] are the messages the caller wraps errors
    in. *)
Lemma replace_Ok (ma mb mc : option string) (binaryPath path tempPath : string)
    (data : stream) (cur : File) (w : World) :
  let wrapped (m : option string) (c : M unit) : M unit :=
    match m with
    | Some msg => wrap msg c
    | None => c
    end in
  intact data = true ->
  fs w !! binaryPath = Some cur ->
  path <> binaryPath -> tempPath <> binaryPath -> path <> tempPath ->
  exists w',
    (forall (B : Type) (k : M B),
        (wrapped ma (os_Create E path);;
         wrapped mb (io_Copy E path data);;
         wrapped mc (file_Close E);;
         os_Rename E binaryPath tempPath;;
         os_Rename E path binaryPath;;
         os_Chmod E binaryPath (octal 7 4 4);;
         k) w = k w') /\
    fs w' !! binaryPath = Some {| content := bytes data; perm := octal 7 4 4 |} /\
    fs w' !! tempPath = Some cur /\
    (forall p, p <> binaryPath -> p <> path -> p <> tempPath -> fs w' !! p = fs w !! p) /\
    uuids w' = uuids w /\ requests w' = requests w.
Proof.
  intros wrapped Hi Hcur Hpb Htb Hpt.
  assert (Hw : forall m (c : M unit) w0 w1, c w0 = (Ok tt, w1) -> wrapped m c w0 = (Ok tt, w1)).
  { intros [msg|] c w0 w1 Hc; [apply wrap_Ok, Hc | exact Hc]. }
  set (created := written E (fs w) path "" (octal 6 6 6)).
  set (d1 := <[path := created]> (fs w)).
  set (d2 := alter (append (bytes data)) path d1).
  set (d3 := <[tempPath := cur]> (delete binaryPath d2)).
  set (new := {| content := bytes data; perm := perm created |}).
  set (d4 := <[binaryPath := new]> (delete path d3)).
  assert (H2 : d2 !! binaryPath = Some cur).
  { unfold d2, d1. rewrite lookup_alter_ne, lookup_insert_ne; auto. }
  assert (H3 : d3 !! path = Some new).
  { unfold d3. rewrite lookup_insert_ne, lookup_delete_ne by auto.
    unfold d2, d1. rewrite lookup_alter_eq, lookup_insert_eq. cbn [fmap option_fmap option_map].
    unfold new, append, created. rewrite content_written. reflexivity. }
  assert (H4 : d4 !! binaryPath = Some new) by apply lookup_insert_eq.
  eexists. split.
  - intros B k.
    erewrite bind_Ok by (apply Hw, os_Create_Ok).
    erewrite bind_Ok by (apply Hw, io_Copy_Ok, Hi).
    erewrite bind_Ok by (apply Hw, file_Close_Ok).
    erewrite bind_Ok by (apply os_Rename_Ok; exact H2).
    erewrite bind_Ok by (apply os_Rename_Ok; exact H3).
    erewrite bind_Ok by (apply os_Chmod_Ok; exact H4).
    reflexivity.
  - cbn. fold created d1 d2 d3 new d4. split; [apply lookup_insert_eq|].
    split.
    + rewrite lookup_insert_ne by auto. unfold d4.
      rewrite lookup_insert_ne, lookup_delete_ne by auto. apply lookup_insert_eq.
    + split; [|split; reflexivity]. intros p Hp1 Hp2 Hp3.
      rewrite lookup_insert_ne by auto. unfold d4.
      rewrite lookup_insert_ne, lookup_delete_ne by auto. unfold d3.
      rewrite lookup_insert_ne, lookup_delete_ne by auto. unfold d2, d1.
      rewrite lookup_alter_ne, lookup_insert_ne by auto. reflexivity.
Qed.

End Calls.

(** X7.  [extractZip] on a readable archive whose first wanted entry is
    [f], with no failing call and fresh names: it returns no error; the
    executable's path holds the bytes of [f] with mode 0744, whatever
    entries come after [f]; the binary that was running is kept under a
    fresh name in the temp directory; the downloaded archive is still
    where it was; and no request was made. *)
Theorem extractZip_installs_the_first_wanted_entry
    (E : Env) (updater : Updater) (src binaryPath : string) (archive old : File) (w : World)
    (before after : list zip.File) (f : zip.File) (data : stream) :
  os_Executable E = Some binaryPath ->
  fs w !! binaryPath = Some old ->
  fs w !! src = Some archive ->
  src <> binaryPath ->
  (forall k, fs_fault E k = NoFault) ->
  zip_Reader E (content archive) = Some (before ++ f :: after)%list ->
  forallb zip_opens before = true ->
  existsb (zip_wanted E updater) before = false ->
  zip_wanted E updater f = true ->
  zip.Open f = Some data ->
  intact data = true ->
  fresh_from E (filepath_Dir E src) binaryPath src (uuids w) ->
  exists w' k,
    extractZip E updater src w = (Ok tt, w') /\
    fs w' !! binaryPath = Some {| content := bytes data; perm := octal 7 4 4 |} /\
    fs w' !! filepath_Join E (os_TempDir E) (uuid_NewString E k) = Some old /\
    fs w' !! src = Some archive /\
    requests w' = requests w.
Proof.
  intros Hexe Hold Hsrc Hsb Hnf Hdec Hopen Hnone Hf Hrc Hi Hfresh.
  destruct (extractZip_range_skips E updater (os_TempDir E) (filepath_Dir E src) binaryPath
              before (tick w) Hopen Hnone) as (w1 & Hrest & Hfs & Htr & Hrq & Hsys & Hu).
  cbn in Hfs, Hrq, Hu.
  destruct (Hfresh (uuids w1) (S (uuids w1))) as (Hpb & Htb & Hps & Hts & Hpt & _); [lia | lia |].
  specialize (Hpt (n_Sn _)).
  destruct (replace_Ok E Hnf (Some "ExtractZip: failed to open file ")
              (Some "ExtractZip: failed to copy file ") None binaryPath
              (filepath_Join E (filepath_Dir E src) (uuid_NewString E (uuids w1)))
              (filepath_Join E (os_TempDir E) (uuid_NewString E (S (uuids w1))))
              data old (draw (draw w1)))
    as (w' & Hrun & Hb & Ht & Hother & _ & Hr'); auto.
  { cbn. rewrite Hfs. exact Hold. }
  apply andb_prop in Hf as [Hname Hreg].
  exists w', (S (uuids w1)). split.
  - unfold extractZip.
    erewrite bind_Ok by (unfold try; rewrite Hexe; reflexivity).
    erewrite bind_Ok.
    2:{ apply wrap_Ok. unfold zip_OpenReader.
        erewrite bind_Ok by (apply os_Open_Ok; [exact Hnf | exact Hsrc]).
        unfold try. rewrite Hdec. reflexivity. }
    erewrite bind_Ok.
    2:{ rewrite Hrest. cbn [extractZip_range].
        erewrite bind_Ok by (unfold try_wrap; rewrite Hrc; reflexivity).
        rewrite Hname.
        erewrite bind_Ok by reflexivity. erewrite bind_Ok by reflexivity.
        rewrite Hreg. apply Hrun. }
    reflexivity.
  - split; [exact Hb|]. split; [exact Ht|]. split.
    + rewrite Hother by auto. cbn. rewrite Hfs. exact Hsrc.
    + rewrite Hr'. cbn. exact Hrq.
Qed.

(** The names of the test double are fresh: they are under [/tmp], start
    with [uuid-] and end in a number that tells them apart. *)
Lemma decimal_inj (a b : nat) : decimal (Z.of_nat a) = decimal (Z.of_nat b) -> a = b.
Proof.
  unfold decimal. intros H.
  assert (Hn : forall n : nat, Z.to_int (Z.of_nat n) <> Decimal.Pos Decimal.Nil /\
                               Z.to_int (Z.of_nat n) <> Decimal.Neg Decimal.Nil).
  { intros n. destruct (Z.of_nat n) as [|p|p] eqn:Hz; cbn; split; try discriminate.
    - intros Hp. inversion Hp as [Hq]. apply (DecimalPos.Unsigned.to_uint_nonnil p Hq).
    - intros Hp. inversion Hp as [Hq]. apply (DecimalPos.Unsigned.to_uint_nonnil p Hq). }
  apply (f_equal NilZero.int_of_string) in H.
  rewrite !NilZero.isi in H by apply Hn.
  inversion H as [Hi]. apply DecimalZ.to_int_inj in Hi. lia.
Qed.

Lemma mock_fresh (goos goarch : string) (manifest : UpdaterManifest) (served : gmap string string)
    (tars : string -> option (list tar.Next)) (zips : string -> option (list zip.File))
    (faults : nat -> fault) (n : nat) :
  fresh_from (Mock.env goos goarch manifest served tars zips faults) "/tmp" Mock.exe
    "/tmp/archive" n.
Proof.
  intros j k _ _. cbv -[decimal Z.of_nat].
  repeat split; try (intros H; discriminate H);
    intros Hjk H; apply Hjk; inversion H as [Hd]; apply decimal_inj, Hd.
Qed.

Lemma extractZip_installs_witness :
  exists w' k,
    extractZip (Scenario.zip_on_windows Scenario.two_tools_zip)
      (Scenario.named "tool_Windows_x86_64.zip" "tool.exe") "/tmp/archive"
      (Scenario.downloaded "ZIP") = (Ok tt, w') /\
    fs w' !! Mock.exe = Some {| content := "FIRST"; perm := octal 7 4 4 |} /\
    fs w' !! filepath_Join (Scenario.zip_on_windows Scenario.two_tools_zip) "/tmp"
               (uuid_NewString (Scenario.zip_on_windows Scenario.two_tools_zip) k)
      = Some {| content := "OLDBIN"; perm := octal 7 5 5 |} /\
    fs w' !! "/tmp/archive" = Some {| content := "ZIP"; perm := octal 6 4 4 |} /\
    requests w' = [].
Proof.
  apply (extractZip_installs_the_first_wanted_entry
           (Scenario.zip_on_windows Scenario.two_tools_zip)
           (Scenario.named "tool_Windows_x86_64.zip" "tool.exe") "/tmp/archive" Mock.exe
           {| content := "ZIP"; perm := octal 6 4 4 |}
           {| content := "OLDBIN"; perm := octal 7 5 5 |}
           (Scenario.downloaded "ZIP") []
           [ Scenario.zip_entry "b/tool.exe" true "SECOND" ]
           (Scenario.zip_entry "a/tool.exe" true "FIRST") (Scenario.stream_of "FIRST"));
    try (vm_compute; reflexivity).
  - discriminate.
  - apply mock_fresh.
Defined.

(** ** The tar loop *)

Lemma fresh_from_le (E : Env) (destination binaryPath src : string) (n m : nat) :
  (n <= m)%nat ->
  fresh_from E destination binaryPath src n -> fresh_from E destination binaryPath src m.
Proof. intros Hle H j k Hj Hk. apply H; lia. Qed.

Lemma last_wanted_exists (E : Env) (updater : Updater) (tarReader : list tar.Next)
    (data : stream) :
  last_wanted E updater tarReader = Some data -> existsb (tar_wanted E updater) tarReader = true.
Proof.
  induction tarReader as [|item rest IH]; [discriminate|].
  cbn. destruct (last_wanted E updater rest) as [d|].
  - intros Hd. rewrite (IH Hd). apply orb_true_r.
  - destruct item as [header d|]; [|discriminate].
    destruct (tar_wanted E updater (tar.Entry header d)); [reflexivity | discriminate].
Qed.

Section Tar.

Context (E : Env) (updater : Updater) (destination binaryPath src : string) (archive : File).
Context (Hnf : forall k, fs_fault E k = NoFault) (Hsb : src <> binaryPath).

(** With no failing call and fresh names the tar loop runs to the end of
    the stream: [created] is set when some entry is wanted, the
    executable's path holds the last wanted entry, the archive is
    untouched and no request is made. *)
Lemma extractTarball_for_runs (tarReader : list tar.Next) :
  forall (created : bool) (w : World) (cur : File),
    forallb tar_sound tarReader = true ->
    fs w !! binaryPath = Some cur ->
    fs w !! src = Some archive ->
    fresh_from E destination binaryPath src (uuids w) ->
    exists w',
      extractTarball_for E updater (os_TempDir E) destination binaryPath tarReader created w =
        (Ok (created || existsb (tar_wanted E updater) tarReader), w') /\
      fs w' !! binaryPath =
        Some (match last_wanted E updater tarReader with
              | Some data => {| content := bytes data; perm := octal 7 4 4 |}
              | None => cur
              end) /\
      fs w' !! src = Some archive /\
      requests w' = requests w.
Proof.
  induction tarReader as [|[header data|] rest IH]; intros created w cur Hsound Hcur Hsrc Hfresh.
  - exists w. cbn. rewrite orb_false_r. auto.
  - cbn in Hsound. apply andb_prop in Hsound as [Hi Hsound].
    cbn [extractTarball_for existsb last_wanted tar_wanted].
    destruct (String.eqb (filepath_Base E (tar.Name header)) (binaryName updater))
      eqn:Hname; cbn [andb].
    + assert (Hfresh2 : fresh_from E destination binaryPath src (uuids (draw (draw w))))
        by (apply fresh_from_le with (uuids w); [cbn; lia | exact Hfresh]).
      destruct (Ascii.eqb (tar.Typeflag header) tar.TypeReg) eqn:Hreg.
      * destruct (Hfresh (uuids w) (S (uuids w))) as (Hpb & Htb & Hps & Hts & Hpt & _);
          [lia | lia |].
        specialize (Hpt (n_Sn _)).
        destruct (replace_Ok E Hnf (Some "ExtractTarGz: Create() failed: ")
                    (Some "ExtractTarGz: Copy() failed: ") (Some "Failed to close file. ")
                    binaryPath
                    (filepath_Join E destination (uuid_NewString E (uuids w)))
                    (filepath_Join E (os_TempDir E) (uuid_NewString E (S (uuids w))))
                    data cur (draw (draw w)))
          as (w2 & Hrun & Hb & _ & Hother & Hu & Hr); auto.
        destruct (IH true w2 {| content := bytes data; perm := octal 7 4 4 |} Hsound Hb)
          as (w' & Hloop & Hb' & Hsrc' & Hr').
        { rewrite Hother by auto. exact Hsrc. }
        { rewrite Hu. exact Hfresh2. }
        exists w'. split.
        { erewrite bind_Ok by reflexivity. erewrite bind_Ok by reflexivity.
          rewrite Hrun, Hloop. cbn. rewrite orb_true_r. reflexivity. }
        split.
        { rewrite Hb'. destruct (last_wanted E updater rest); reflexivity. }
        split; [exact Hsrc'|]. rewrite Hr', Hr. reflexivity.
      * destruct (IH created (draw (draw w)) cur Hsound Hcur Hsrc Hfresh2)
          as (w' & Hloop & Hb' & Hsrc' & Hr').
        exists w'. split.
        { erewrite bind_Ok by reflexivity. erewrite bind_Ok by reflexivity. exact Hloop. }
        split; [|split; [exact Hsrc' | exact Hr']].
        rewrite Hb'. destruct (last_wanted E updater rest); reflexivity.
    + destruct (IH created w cur Hsound Hcur Hsrc Hfresh) as (w' & Hloop & Hb' & Hsrc' & Hr').
      exists w'. split; [exact Hloop|]. split; [|split; [exact Hsrc' | exact Hr']].
      rewrite Hb'. destruct (last_wanted E updater rest); reflexivity.
  - discriminate.
Qed.

End Tar.

(** X8.  [extractTarball] on a sound gzip-compressed tar stream that holds
    a wanted entry, with no failing call and fresh names: it returns no
    error; the executable's path holds the bytes of the last wanted entry
    of the stream, with mode 0744; the downloaded archive is removed; and
    no request was made. *)
Theorem extractTarball_installs_the_last_wanted_entry
    (E : Env) (updater : Updater) (src binaryPath : string) (archive old : File) (w : World)
    (tarReader : list tar.Next) (data : stream) :
  os_Executable E = Some binaryPath ->
  fs w !! binaryPath = Some old ->
  fs w !! src = Some archive ->
  src <> binaryPath ->
  (forall k, fs_fault E k = NoFault) ->
  gzip_tar_Reader E (content archive) = Some tarReader ->
  forallb tar_sound tarReader = true ->
  last_wanted E updater tarReader = Some data ->
  fresh_from E (filepath_Dir E src) binaryPath src (uuids w) ->
  exists w',
    extractTarball E updater src w = (Ok tt, w') /\
    fs w' !! binaryPath = Some {| content := bytes data; perm := octal 7 4 4 |} /\
    fs w' !! src = None /\
    requests w' = requests w.
Proof.
  intros Hexe Hold Hsrc Hsb Hnf Hdec Hsound Hlast Hfresh.
  destruct (extractTarball_for_runs E updater (filepath_Dir E src) binaryPath src archive
              Hnf Hsb tarReader false (tick w) old Hsound Hold Hsrc Hfresh)
    as (w1 & Hloop & Hb & Hsrc1 & Hr).
  rewrite Hlast in Hb. rewrite (last_wanted_exists _ _ _ _ Hlast) in Hloop. cbn in Hloop.
  eexists. split.
  - unfold extractTarball.
    erewrite bind_Ok by (unfold try; rewrite Hexe; reflexivity).
    erewrite bind_Ok by (apply os_Open_Ok; [exact Hnf | exact Hsrc]).
    erewrite bind_Ok by (unfold try_wrap; rewrite Hdec; reflexivity).
    erewrite bind_Ok by exact Hloop.
    cbn [negb]. eapply os_Remove_Ok; [exact Hnf | exact Hsrc1].
  - cbn. split; [rewrite lookup_delete_ne by auto; exact Hb|].
    split; [apply lookup_delete_eq | exact Hr].
Qed.

Lemma extractTarball_installs_witness :
  exists w',
    extractTarball (Scenario.tar_on_linux Scenario.two_tools_tar)
      (Scenario.named "tool_Linux_x86_64.tar.gz" "tool") "/tmp/archive"
      (Scenario.downloaded "TGZ") = (Ok tt, w') /\
    fs w' !! Mock.exe = Some {| content := "SECOND"; perm := octal 7 4 4 |} /\
    fs w' !! "/tmp/archive" = None /\
    requests w' = [].
Proof.
  apply (extractTarball_installs_the_last_wanted_entry
           (Scenario.tar_on_linux Scenario.two_tools_tar)
           (Scenario.named "tool_Linux_x86_64.tar.gz" "tool") "/tmp/archive" Mock.exe
           {| content := "TGZ"; perm := octal 6 4 4 |}
           {| content := "OLDBIN"; perm := octal 7 5 5 |}
           (Scenario.downloaded "TGZ") Scenario.two_tools_tar (Scenario.stream_of "SECOND"));
    try (vm_compute; reflexivity).
  - discriminate.
  - apply mock_fresh.
Defined.

(** ** States the disk passes through *)

Section Tracking.

Context (E : Env) (J : gmap string File -> Prop).

Lemma runs_bind {A B : Type} (P : World -> Prop) (c : M A) (Q : A -> World -> Prop)
    (k : A -> M B) (R : B -> World -> Prop) :
  runs J P c Q -> (forall a, runs J (Q a) (k a) R) -> runs J P (c ≫= k) R.
Proof.
  intros Hc Hk w r w' HP H.
  apply bind_inv in H as [(a & w1 & H1 & H2) | (e & H1 & ->)].
  - destruct (Hc _ _ _ HP H1) as [(l1 & Hs1 & Hl1) HQ].
    destruct (Hk a _ _ _ (HQ a eq_refl) H2) as [(l2 & Hs2 & Hl2) HR].
    split; [|exact HR]. exists (l1 ++ l2)%list. split.
    + rewrite Hs2, Hs1, app_assoc. reflexivity.
    + apply Forall_app. split; assumption.
  - destruct (Hc _ _ _ HP H1) as [Hl _]. split; [exact Hl|]. intros a Ha. discriminate.
Qed.

Lemma runs_consequence {A : Type} (P P' : World -> Prop) (c : M A) (Q Q' : A -> World -> Prop) :
  (forall w, P' w -> P w) -> (forall a w, Q a w -> Q' a w) -> runs J P c Q -> runs J P' c Q'.
Proof.
  intros HP HQ Hc w r w' HP' H. destruct (Hc _ _ _ (HP _ HP') H) as [Hl Hq].
  split; [exact Hl|]. intros a Ha. apply HQ, Hq, Ha.
Qed.

Lemma runs_given {A : Type} (fact : Prop) (P : World -> Prop) (c : M A) (Q : A -> World -> Prop) :
  (fact -> runs J P c Q) -> runs J (fun w => fact /\ P w) c Q.
Proof. intros Hc w r w' [Hf HP] H. exact (Hc Hf _ _ _ HP H). Qed.

Lemma runs_ret {A : Type} (P : World -> Prop) (a : A) (Q : A -> World -> Prop) :
  (forall w, P w -> Q a w) -> runs J P (mret a) Q.
Proof.
  intros HQ w r w' HP H. inversion H; subst. split.
  - exists []. split; [symmetry; apply app_nil_r | constructor].
  - intros a' Ha. inversion Ha; subst. apply HQ, HP.
Qed.

Lemma runs_fail {A : Type} (P : World -> Prop) (e : error) (Q : A -> World -> Prop) :
  runs J P (fail e) Q.
Proof.
  intros w r w' HP H. inversion H; subst. split.
  - exists []. split; [symmetry; apply app_nil_r | constructor].
  - intros a Ha. discriminate.
Qed.

Lemma runs_try {A : Type} (P : World -> Prop) (call : string) (o : option A)
    (Q : A -> World -> Prop) :
  (forall a w, o = Some a -> P w -> Q a w) -> runs J P (try call o) Q.
Proof.
  intros HQ. destruct o as [a|]; [apply runs_ret; intros w; apply HQ; reflexivity | apply runs_fail].
Qed.

Lemma runs_try_wrap {A : Type} (P : World -> Prop) (msg call : string) (o : option A)
    (Q : A -> World -> Prop) :
  (forall a w, o = Some a -> P w -> Q a w) -> runs J P (try_wrap msg call o) Q.
Proof.
  intros HQ. destruct o as [a|]; [apply runs_ret; intros w; apply HQ; reflexivity | apply runs_fail].
Qed.

Lemma runs_wrap {A : Type} (P : World -> Prop) (msg : string) (c : M A) (Q : A -> World -> Prop) :
  runs J P c Q -> runs J P (wrap msg c) Q.
Proof.
  intros Hc w r w' HP H. unfold wrap in H.
  destruct (c w) as [[a|e] w1] eqn:Hcw; inversion H; subst;
    destruct (Hc _ _ _ HP Hcw) as [Hl Hq]; (split; [exact Hl|]).
  - exact Hq.
  - intros a Ha. discriminate.
Qed.

Lemma uuid_New_runs (P : World -> Prop) (Q : string -> World -> Prop) :
  (forall w, P w -> Q (uuid_NewString E (uuids w)) (draw w)) -> runs J P (uuid_New E) Q.
Proof.
  intros HQ w r w' HP H. inversion H; subst. split.
  - exists []. split; [symmetry; apply app_nil_r | constructor].
  - intros a Ha. inversion Ha; subst. apply HQ, HP.
Qed.

Lemma os_Open_runs (P : World -> Prop) (call name : string) (Q : string -> World -> Prop) :
  (forall a w, P w -> Q a (tick w)) -> runs J P (os_Open E call name) Q.
Proof.
  intros HQ w r w' HP H. unfold os_Open, syscall, get_fs in H. run.
  split.
  - exists []. rewrite app_nil_r. repeat case_match; simplify_eq; split; (reflexivity || constructor).
  - intros a Ha. repeat case_match; simplify_eq. apply HQ, HP.
Qed.

Lemma file_Close_runs (P : World -> Prop) (Q : unit -> World -> Prop) :
  (forall w, P w -> Q tt (tick w)) -> runs J P (file_Close E) Q.
Proof.
  intros HQ w r w' HP H. unfold file_Close, syscall in H. run.
  split.
  - exists []. rewrite app_nil_r. repeat case_match; simplify_eq; split; (reflexivity || constructor).
  - intros a Ha. repeat case_match; simplify_eq. apply HQ, HP.
Qed.

(** A call that writes the disk: one new state when it takes effect,
    none when it fails before. *)
Lemma os_Create_runs (P : World -> Prop) (name : string) (Q : unit -> World -> Prop) :
  (forall w x, P w ->
     J (<[name := x]> (fs w)) /\ Q tt (write_fs (<[name := x]> (fs w)) (tick w))) ->
  runs J P (os_Create E name) Q.
Proof.
  intros HQ w r w' HP H. unfold os_Create, syscall, get_fs, set_fs in H. run.
  destruct (fs_fault E (syscalls w)); simplify_eq; (split; [|intros a Ha; simplify_eq]).
  - eexists [_]. split; [reflexivity|]. constructor; [apply (HQ w _ HP) | constructor].
  - apply (HQ w _ HP).
  - exists []. split; [symmetry; apply app_nil_r | constructor].
  - exists []. split; [symmetry; apply app_nil_r | constructor].
Qed.

Lemma os_WriteFile_runs (P : World -> Prop) (name data : string) (mode : Z)
    (Q : unit -> World -> Prop) :
  (forall w x, P w ->
     J (<[name := x]> (fs w)) /\ Q tt (write_fs (<[name := x]> (fs w)) (tick w))) ->
  runs J P (os_WriteFile E name data mode) Q.
Proof.
  intros HQ w r w' HP H. unfold os_WriteFile, syscall, get_fs, set_fs in H. run.
  destruct (fs_fault E (syscalls w)); run; simplify_eq; (split; [|intros a Ha; simplify_eq]).
  - eexists [_]. split; [reflexivity|]. constructor; [apply (HQ w _ HP) | constructor].
  - apply (HQ w _ HP).
  - exists []. split; [symmetry; apply app_nil_r | constructor].
  - eexists [_]. split; [reflexivity|]. constructor; [apply (HQ w _ HP) | constructor].
Qed.

Lemma io_Copy_runs (P : World -> Prop) (dst : string) (src : stream) (Q : unit -> World -> Prop) :
  (forall w g, P w ->
     J (alter g dst (fs w)) /\ Q tt (write_fs (alter g dst (fs w)) (tick w))) ->
  runs J P (io_Copy E dst src) Q.
Proof.
  intros HQ w r w' HP H. unfold io_Copy, syscall, get_fs, set_fs in H. run.
  destruct (fs_fault E (syscalls w)); run; [destruct (intact src); run| |];
    simplify_eq; (split; [|intros a Ha; simplify_eq]).
  - eexists [_]. split; [reflexivity|]. constructor; [apply (HQ w _ HP) | constructor].
  - apply (HQ w _ HP).
  - eexists [_]. split; [reflexivity|]. constructor; [apply (HQ w _ HP) | constructor].
  - exists []. split; [symmetry; apply app_nil_r | constructor].
  - eexists [_]. split; [reflexivity|]. constructor; [apply (HQ w _ HP) | constructor].
Qed.

Lemma os_Rename_runs (P : World -> Prop) (oldpath newpath : string) (Q : unit -> World -> Prop) :
  (forall w file, P w -> fs w !! oldpath = Some file ->
     J (<[newpath := file]> (delete oldpath (fs w))) /\
     Q tt (write_fs (<[newpath := file]> (delete oldpath (fs w))) (tick w))) ->
  runs J P (os_Rename E oldpath newpath) Q.
Proof.
  intros HQ w r w' HP H. unfold os_Rename, syscall, get_fs, set_fs in H. run.
  destruct (fs_fault E (syscalls w)); [destruct (fs w !! oldpath) as [file|] eqn:Hf| |];
    simplify_eq; (split; [|intros a Ha; simplify_eq]).
  - eexists [_]. split; [reflexivity|]. constructor; [apply (HQ w _ HP Hf) | constructor].
  - apply (HQ w _ HP Hf).
  - exists []. split; [symmetry; apply app_nil_r | constructor].
  - exists []. split; [symmetry; apply app_nil_r | constructor].
  - exists []. split; [symmetry; apply app_nil_r | constructor].
Qed.

Lemma os_Chmod_runs (P : World -> Prop) (name : string) (mode : Z) (Q : unit -> World -> Prop) :
  (forall w file, P w -> fs w !! name = Some file ->
     J (<[name := {| content := content file; perm := mode |}]> (fs w)) /\
     Q tt (write_fs (<[name := {| content := content file; perm := mode |}]> (fs w)) (tick w))) ->
  runs J P (os_Chmod E name mode) Q.
Proof.
  intros HQ w r w' HP H. unfold os_Chmod, syscall, get_fs, set_fs in H. run.
  destruct (fs_fault E (syscalls w)); [destruct (fs w !! name) as [file|] eqn:Hf| |];
    simplify_eq; (split; [|intros a Ha; simplify_eq]).
  - eexists [_]. split; [reflexivity|]. constructor; [apply (HQ w _ HP Hf) | constructor].
  - apply (HQ w _ HP Hf).
  - exists []. split; [symmetry; apply app_nil_r | constructor].
  - exists []. split; [symmetry; apply app_nil_r | constructor].
  - exists []. split; [symmetry; apply app_nil_r | constructor].
Qed.

Lemma os_Remove_runs (P : World -> Prop) (name : string) (Q : unit -> World -> Prop) :
  (forall w, P w ->
     J (delete name (fs w)) /\ Q tt (write_fs (delete name (fs w)) (tick w))) ->
  runs J P (os_Remove E name) Q.
Proof.
  intros HQ w r w' HP H. unfold os_Remove, syscall, get_fs, set_fs in H. run.
  destruct (fs_fault E (syscalls w)); [destruct (fs w !! name) as [file|] eqn:Hf| |];
    simplify_eq; (split; [|intros a Ha; simplify_eq]).
  - eexists [_]. split; [reflexivity|]. constructor; [apply (HQ w HP) | constructor].
  - apply (HQ w HP).
  - exists []. split; [symmetry; apply app_nil_r | constructor].
  - exists []. split; [symmetry; apply app_nil_r | constructor].
  - exists []. split; [symmetry; apply app_nil_r | constructor].
Qed.

End Tracking.

(** ** Where the old binary is during an extraction *)

Section Kept.

Context (E : Env) (updater : Updater) (destination binaryPath src : string) (old : File)
  (n0 : nat).
Context (Hfresh : fresh_from E destination binaryPath src n0).

Local Abbreviation tmp k := (filepath_Join E (os_TempDir E) (uuid_NewString E k)).
Local Abbreviation dst j := (filepath_Join E destination (uuid_NewString E j)).
Local Abbreviation J := (kept E binaryPath old n0).
Local Abbreviation L := (kept_in E binaryPath old n0).

Lemma kept_in_kept (m : nat) (disk : gmap string File) : L m disk -> J disk.
Proof.
  intros [H | (i & Hi & H)]; [left; exact H | right].
  exists (n0 + 2 * i + 1)%nat. split; [lia | exact H].
Qed.

Lemma set_aside_kept_in (m : nat) (disk : gmap string File) :
  set_aside E old n0 m disk -> L m disk.
Proof. intros H. right. exact H. Qed.

Lemma kept_in_le (m m' : nat) (disk : gmap string File) :
  (m <= m')%nat -> L m disk -> L m' disk.
Proof.
  intros Hm [H | (i & Hi & H)]; [left; exact H | right].
  exists i. split; [lia | exact H].
Qed.

Lemma tmp_not_binaryPath (k : nat) : (n0 <= k)%nat -> tmp k <> binaryPath.
Proof. intros Hk. apply (Hfresh k k Hk Hk). Qed.

Lemma dst_not_binaryPath (j : nat) : (n0 <= j)%nat -> dst j <> binaryPath.
Proof. intros Hj. apply (Hfresh j j Hj Hj). Qed.

Lemma tmp_not_src (k : nat) : (n0 <= k)%nat -> tmp k <> src.
Proof. intros Hk. apply (Hfresh k k Hk Hk). Qed.

Lemma dst_not_tmp (j k : nat) : (n0 <= j)%nat -> (n0 <= k)%nat -> j <> k -> dst j <> tmp k.
Proof. intros Hj Hk. apply (Hfresh j k Hj Hk). Qed.

Lemma tmp_not_tmp (j k : nat) : (n0 <= j)%nat -> (n0 <= k)%nat -> j <> k -> tmp j <> tmp k.
Proof. intros Hj Hk. apply (Hfresh j k Hj Hk). Qed.

(** Writing the new file leaves the old binary where it is. *)
Lemma kept_in_insert_dst (m : nat) (disk : gmap string File) (x : File) :
  L m disk -> L m (<[dst (n0 + 2 * m) := x]> disk).
Proof.
  intros [H | (i & Hi & H)]; [left | right; exists i; split; [exact Hi|]].
  - rewrite lookup_insert_ne by (apply dst_not_binaryPath; lia). exact H.
  - rewrite lookup_insert_ne by (apply dst_not_tmp; lia). exact H.
Qed.

Lemma kept_in_alter_dst (m : nat) (disk : gmap string File) (g : File -> File) :
  L m disk -> L m (alter g (dst (n0 + 2 * m)) disk).
Proof.
  intros [H | (i & Hi & H)]; [left | right; exists i; split; [exact Hi|]].
  - rewrite lookup_alter_ne by (apply dst_not_binaryPath; lia). exact H.
  - rewrite lookup_alter_ne by (apply dst_not_tmp; lia). exact H.
Qed.

(** Moving the executable aside puts the old binary under a temp name,
    if it was not under one already. *)
Lemma set_aside_by_rename (m : nat) (disk : gmap string File) (file : File) :
  L m disk -> disk !! binaryPath = Some file ->
  set_aside E old n0 (S m) (<[tmp (n0 + 2 * m + 1) := file]> (delete binaryPath disk)).
Proof.
  intros [H | (i & Hi & H)] Hf.
  - exists m. split; [lia|]. rewrite lookup_insert_eq. congruence.
  - exists i. split; [lia|].
    rewrite lookup_insert_ne by (apply tmp_not_tmp; lia).
    rewrite lookup_delete_ne by (apply not_eq_sym, tmp_not_binaryPath; lia). exact H.
Qed.

(** Once it is set aside, what happens at the executable's path and to
    the new file does not touch it. *)
Lemma set_aside_moved_in (m : nat) (disk : gmap string File) (file : File) :
  set_aside E old n0 (S m) disk ->
  set_aside E old n0 (S m) (<[binaryPath := file]> (delete (dst (n0 + 2 * m)) disk)).
Proof.
  intros (i & Hi & H). exists i. split; [exact Hi|].
  rewrite lookup_insert_ne by (apply not_eq_sym, tmp_not_binaryPath; lia).
  rewrite lookup_delete_ne by (apply dst_not_tmp; lia). exact H.
Qed.

Lemma set_aside_insert_binaryPath (m : nat) (disk : gmap string File) (file : File) :
  set_aside E old n0 m disk -> set_aside E old n0 m (<[binaryPath := file]> disk).
Proof.
  intros (i & Hi & H). exists i. split; [exact Hi|].
  rewrite lookup_insert_ne by (apply not_eq_sym, tmp_not_binaryPath; lia). exact H.
Qed.

Lemma kept_delete_src (disk : gmap string File) :
  src <> binaryPath -> J disk -> J (delete src disk).
Proof.
  intros Hsb [H | (k & Hk & H)]; [left | right; exists k; split; [exact Hk|]].
  - rewrite lookup_delete_ne by exact Hsb. exact H.
  - rewrite lookup_delete_ne by (apply not_eq_sym, tmp_not_src; lia). exact H.
Qed.

(** The six calls that put an entry in the executable's place, any of
    which may fail: in every state of the disk the old binary is at the
    executable's path or under a temp name.  [m] pairs of names were drawn
    before the pair these calls use. *)
Lemma install_runs {B : Type} (ma mb mc : option string) (m : nat) (data : stream)
    (k : M B) (R : B -> World -> Prop) :
  let wrapped (msg : option string) (c : M unit) : M unit :=
    match msg with
    | Some msg => wrap msg c
    | None => c
    end in
  runs J (drawn (n0 + 2 * S m) (L (S m))) k R ->
  runs J (drawn (n0 + 2 * S m) (L m))
    (wrapped ma (os_Create E (dst (n0 + 2 * m)));;
     wrapped mb (io_Copy E (dst (n0 + 2 * m)) data);;
     wrapped mc (file_Close E);;
     os_Rename E binaryPath (tmp (n0 + 2 * m + 1));;
     os_Rename E (dst (n0 + 2 * m)) binaryPath;;
     os_Chmod E binaryPath (octal 7 4 4);;
     k) R.
Proof.
  intros wrapped Hk.
  assert (Hw : forall msg P (c : M unit) Q, runs J P c Q -> runs J P (wrapped msg c) Q).
  { intros [msg|] P c Q Hc; [apply runs_wrap, Hc | exact Hc]. }
  set (N := (n0 + 2 * S m)%nat).
  apply runs_bind with (Q := fun _ => drawn N (L m)).
  { apply Hw, os_Create_runs. intros w x [Hu HL].
    pose proof (kept_in_insert_dst m (fs w) x HL) as H.
    split; [eapply kept_in_kept, H | split; [exact Hu | exact H]]. }
  intros _. apply runs_bind with (Q := fun _ => drawn N (L m)).
  { apply Hw, io_Copy_runs. intros w g [Hu HL].
    pose proof (kept_in_alter_dst m (fs w) g HL) as H.
    split; [eapply kept_in_kept, H | split; [exact Hu | exact H]]. }
  intros _. apply runs_bind with (Q := fun _ => drawn N (L m)).
  { apply Hw, file_Close_runs. intros w H. exact H. }
  intros _. apply runs_bind with (Q := fun _ => drawn N (set_aside E old n0 (S m))).
  { apply os_Rename_runs. intros w file [Hu HL] Hf.
    pose proof (set_aside_by_rename m (fs w) file HL Hf) as H.
    split; [eapply kept_in_kept, set_aside_kept_in, H | split; [exact Hu | exact H]]. }
  intros _. apply runs_bind with (Q := fun _ => drawn N (set_aside E old n0 (S m))).
  { apply os_Rename_runs. intros w file [Hu HL] Hf.
    pose proof (set_aside_moved_in m (fs w) file HL) as H.
    split; [eapply kept_in_kept, set_aside_kept_in, H | split; [exact Hu | exact H]]. }
  intros _. apply runs_bind with (Q := fun _ => drawn N (L (S m))).
  { apply os_Chmod_runs. intros w file [Hu HL] Hf.
    pose proof (set_aside_insert_binaryPath (S m) (fs w)
                  {| content := content file; perm := octal 7 4 4 |} HL) as H.
    split; [eapply kept_in_kept, set_aside_kept_in, H
           | split; [exact Hu | apply set_aside_kept_in, H]]. }
  intros _. exact Hk.
Qed.

Lemma uuid_New_drawn (n : nat) (P : gmap string File -> Prop) :
  runs J (drawn n P) (uuid_New E)
    (fun name w => name = uuid_NewString E n /\ drawn (S n) P w).
Proof.
  apply uuid_New_runs. intros w [Hu HP]. rewrite Hu.
  split; [reflexivity | split; [cbn; rewrite Hu; reflexivity | exact HP]].
Qed.

(** The loop of [extractZip], whatever the archive holds and whichever
    calls fail. *)
Lemma extractZip_range_tracks (files : list zip.File) (m : nat) :
  runs J (drawn (n0 + 2 * m) (L m))
    (extractZip_range E updater (os_TempDir E) destination binaryPath files)
    (fun _ w => J (fs w)).
Proof.
  revert m. induction files as [|f files IH]; intros m; cbn [extractZip_range].
  - apply runs_ret. intros w [_ H]. eapply kept_in_kept, H.
  - apply runs_bind with (Q := fun _ => drawn (n0 + 2 * m) (L m)).
    { apply runs_try_wrap. intros a w _ H. exact H. }
    intros rc. cbn zeta.
    destruct (String.eqb _ _); [|apply IH].
    eapply runs_bind; [apply uuid_New_drawn|]. intros filename. apply runs_given. intros ->.
    eapply runs_bind; [apply uuid_New_drawn|]. intros tempName. apply runs_given. intros ->.
    replace (S (S (n0 + 2 * m))) with (n0 + 2 * S m)%nat by lia.
    replace (S (n0 + 2 * m)) with (n0 + 2 * m + 1)%nat by lia.
    destruct (zip.IsRegular f).
    + apply (install_runs (Some "ExtractZip: failed to open file ")
               (Some "ExtractZip: failed to copy file ") None).
      apply runs_ret. intros w [_ H]. eapply kept_in_kept, H.
    + eapply runs_consequence; [| |apply (IH (S m))].
      * intros w [Hu H]. split; [exact Hu | eapply kept_in_le; [|exact H]; lia].
      * intros ? w H. exact H.
Qed.

(** The loop of [extractTarball], whatever the stream holds and whichever
    calls fail. *)
Lemma extractTarball_for_tracks (tarReader : list tar.Next) (created : bool) (m : nat) :
  runs J (drawn (n0 + 2 * m) (L m))
    (extractTarball_for E updater (os_TempDir E) destination binaryPath tarReader created)
    (fun _ w => J (fs w)).
Proof.
  revert created m.
  induction tarReader as [|[header data|] rest IH]; intros created m; cbn [extractTarball_for].
  - apply runs_ret. intros w [_ H]. eapply kept_in_kept, H.
  - cbn zeta. destruct (String.eqb _ _); [|apply IH].
    eapply runs_bind; [apply uuid_New_drawn|]. intros filename. apply runs_given. intros ->.
    eapply runs_bind; [apply uuid_New_drawn|]. intros tempName. apply runs_given. intros ->.
    replace (S (S (n0 + 2 * m))) with (n0 + 2 * S m)%nat by lia.
    replace (S (n0 + 2 * m)) with (n0 + 2 * m + 1)%nat by lia.
    destruct (Ascii.eqb _ _).
    + apply (install_runs (Some "ExtractTarGz: Create() failed: ")
               (Some "ExtractTarGz: Copy() failed: ") (Some "Failed to close file. ")).
      apply IH.
    + eapply runs_consequence; [| |apply (IH created (S m))].
      * intros w [Hu H]. split; [exact Hu | eapply kept_in_le; [|exact H]; lia].
      * intros ? w H. exact H.
  - apply runs_fail.
Qed.

End Kept.

(** ** The old binary during an update *)

Lemma runs_mono {A : Type} (J J' : gmap string File -> Prop) (P : World -> Prop) (c : M A)
    (Q : A -> World -> Prop) :
  (forall disk, J' disk -> J disk) -> runs J' P c Q -> runs J P c Q.
Proof.
  intros HJ Hc w r w' HP H. destruct (Hc _ _ _ HP H) as [(later & Hs & Hl) HQ].
  split; [|exact HQ]. exists later. split; [exact Hs|].
  eapply Forall_impl; [exact Hl | exact HJ].
Qed.

Lemma kept_le (E : Env) (binaryPath : string) (old : File) (n n' : nat)
    (disk : gmap string File) :
  (n <= n')%nat -> kept E binaryPath old n' disk -> kept E binaryPath old n disk.
Proof.
  intros Hn [H | (k & Hk & H)]; [left; exact H | right].
  exists k. split; [lia | exact H].
Qed.

Section Archive.

Context (E : Env) (updater : Updater) (src binaryPath : string) (old : File) (n0 : nat).
Context (Hexe : os_Executable E = Some binaryPath).
Context (Hfresh : fresh_from E (filepath_Dir E src) binaryPath src n0).

Lemma extractZip_tracks :
  runs (kept E binaryPath old n0) (drawn n0 (fun disk => disk !! binaryPath = Some old))
    (extractZip E updater src) (fun _ w => kept E binaryPath old n0 (fs w)).
Proof.
  set (P := drawn n0 (fun disk => disk !! binaryPath = Some old)).
  unfold extractZip. rewrite Hexe.
  apply runs_bind with (Q := fun a w => Some binaryPath = Some a /\ P w).
  { apply runs_try. intros a w Ha HP. split; [exact Ha | exact HP]. }
  intros a. apply runs_given. intros [= <-].
  apply runs_bind with (Q := fun _ => P).
  { apply runs_wrap. unfold zip_OpenReader. apply runs_bind with (Q := fun _ => P).
    - apply os_Open_runs. intros data w H. exact H.
    - intros data. apply runs_try. intros files w _ H. exact H. }
  intros files. apply runs_bind with (Q := fun _ w => kept E binaryPath old n0 (fs w)).
  { eapply runs_consequence;
      [| |apply (extractZip_range_tracks E updater (filepath_Dir E src) binaryPath src old n0
                  Hfresh files 0)].
    - intros w [Hu H]. split; [rewrite Hu; lia | left; exact H].
    - intros ? w H. exact H. }
  intros created. destruct (negb created); [apply runs_fail | apply runs_ret; intros w H; exact H].
Qed.

Lemma extractTarball_tracks :
  src <> binaryPath ->
  runs (kept E binaryPath old n0) (drawn n0 (fun disk => disk !! binaryPath = Some old))
    (extractTarball E updater src) (fun _ w => kept E binaryPath old n0 (fs w)).
Proof.
  intros Hsb. set (P := drawn n0 (fun disk => disk !! binaryPath = Some old)).
  unfold extractTarball. rewrite Hexe.
  apply runs_bind with (Q := fun a w => Some binaryPath = Some a /\ P w).
  { apply runs_try. intros a w Ha HP. split; [exact Ha | exact HP]. }
  intros a. apply runs_given. intros [= <-].
  apply runs_bind with (Q := fun _ => P).
  { apply os_Open_runs. intros data w H. exact H. }
  intros file. apply runs_bind with (Q := fun _ => P).
  { apply runs_try_wrap. intros tarReader w _ H. exact H. }
  intros tarReader. apply runs_bind with (Q := fun _ w => kept E binaryPath old n0 (fs w)).
  { eapply runs_consequence;
      [| |apply (extractTarball_for_tracks E updater (filepath_Dir E src) binaryPath src old n0
                  Hfresh tarReader false 0)].
    - intros w [Hu H]. split; [rewrite Hu; lia | left; exact H].
    - intros ? w H. exact H. }
  intros created. destruct (negb created); [apply runs_fail|].
  apply os_Remove_runs. intros w H.
  pose proof (kept_delete_src E (filepath_Dir E src) binaryPath src old n0 Hfresh (fs w) Hsb H)
    as Hd.
  split; exact Hd.
Qed.

End Archive.

(** X11.  While [extractZip] runs, whatever the archive holds and
    whichever calls on the disk fail, the binary that was at the
    executable's path is never lost: in every state the disk passes
    through it is, bytes and mode, at the executable's path or in the
    temp directory under a name drawn during the extraction.  The names
    drawn are assumed to differ from the executable's and the archive's
    path and from each other. *)
Theorem extractZip_never_loses_the_old_binary
    (E : Env) (updater : Updater) (src binaryPath : string) (old : File) (w w' : World)
    (r : result unit) :
  os_Executable E = Some binaryPath ->
  fs w !! binaryPath = Some old ->
  fresh_from E (filepath_Dir E src) binaryPath src (uuids w) ->
  extractZip E updater src w = (r, w') ->
  exists later,
    states w' = (states w ++ later)%list /\
    Forall (kept E binaryPath old (uuids w)) later.
Proof.
  intros Hexe Hold Hfresh H.
  destruct (extractZip_tracks E updater src binaryPath old (uuids w) Hexe Hfresh w r w'
              (conj eq_refl Hold) H) as [Hl _].
  exact Hl.
Qed.

Lemma extractZip_never_loses_witness :
  exists w' later,
    extractZip Sample.zip_breaks (Scenario.named "tool_Windows_x86_64.zip" "tool.exe")
      "/tmp/archive" (Scenario.downloaded "ZIP")
      = (Err (Wrapf "ExtractZip: failed to copy file " (Failure "io.Copy")), w') /\
    fs w' !! "/tmp/uuid-1" = Some {| content := "FI"; perm := octal 6 4 4 |} /\
    states w' = (states (Scenario.downloaded "ZIP") ++ later)%list /\
    Forall (kept Sample.zip_breaks Mock.exe {| content := "OLDBIN"; perm := octal 7 5 5 |} 1)
      later.
Proof.
  destruct (extractZip Sample.zip_breaks (Scenario.named "tool_Windows_x86_64.zip" "tool.exe")
              "/tmp/archive" (Scenario.downloaded "ZIP")) as [r w'] eqn:H.
  destruct (extractZip_never_loses_the_old_binary Sample.zip_breaks
              (Scenario.named "tool_Windows_x86_64.zip" "tool.exe") "/tmp/archive" Mock.exe
              {| content := "OLDBIN"; perm := octal 7 5 5 |} (Scenario.downloaded "ZIP") w' r
              eq_refl eq_refl (mock_fresh _ _ _ _ _ _ _ _) H) as (later & Hl).
  exists w', later. vm_compute in H. inversion H; subst.
  split; [reflexivity|]. split; [vm_compute; reflexivity | exact Hl].
Defined.

(** X12.  The same for [extractTarball], which may install several
    entries one after the other and removes the archive at the end: in
    every state the disk passes through, whichever calls fail, the binary
    that was at the executable's path before the extraction is at that
    path or in the temp directory under a name drawn during the
    extraction. *)
Theorem extractTarball_never_loses_the_old_binary
    (E : Env) (updater : Updater) (src binaryPath : string) (old : File) (w w' : World)
    (r : result unit) :
  os_Executable E = Some binaryPath ->
  fs w !! binaryPath = Some old ->
  src <> binaryPath ->
  fresh_from E (filepath_Dir E src) binaryPath src (uuids w) ->
  extractTarball E updater src w = (r, w') ->
  exists later,
    states w' = (states w ++ later)%list /\
    Forall (kept E binaryPath old (uuids w)) later.
Proof.
  intros Hexe Hold Hsb Hfresh H.
  destruct (extractTarball_tracks E updater src binaryPath old (uuids w) Hexe Hfresh Hsb w r w'
              (conj eq_refl Hold) H) as [Hl _].
  exact Hl.
Qed.

Lemma extractTarball_never_loses_witness :
  exists w' later,
    extractTarball Sample.tar_breaks (Scenario.named "tool_Linux_x86_64.tar.gz" "tool")
      "/tmp/archive" (Scenario.downloaded "TGZ") = (Err (Failure "os.Rename"), w') /\
    fs w' !! Mock.exe = None /\
    states w' = (states (Scenario.downloaded "TGZ") ++ later)%list /\
    Forall (kept Sample.tar_breaks Mock.exe {| content := "OLDBIN"; perm := octal 7 5 5 |} 1)
      later.
Proof.
  destruct (extractTarball Sample.tar_breaks (Scenario.named "tool_Linux_x86_64.tar.gz" "tool")
              "/tmp/archive" (Scenario.downloaded "TGZ")) as [r w'] eqn:H.
  assert (Hsb : "/tmp/archive" <> Mock.exe) by discriminate.
  destruct (extractTarball_never_loses_the_old_binary Sample.tar_breaks
              (Scenario.named "tool_Linux_x86_64.tar.gz" "tool") "/tmp/archive" Mock.exe
              {| content := "OLDBIN"; perm := octal 7 5 5 |} (Scenario.downloaded "TGZ") w' r
              eq_refl eq_refl Hsb (mock_fresh _ _ _ _ _ _ _ _) H) as (later & Hl).
  exists w', later. vm_compute in H. inversion H; subst.
  split; [reflexivity|]. split; [vm_compute; reflexivity | exact Hl].
Defined.

Section Replacement.

Context (E : Env) (updater : Updater) (binaryPath : string) (old : File) (n : nat).
Context (Hexe : os_Executable E = Some binaryPath).

Local Abbreviation archive := (filepath_Join E (os_TempDir E) (uuid_NewString E n)).

Context (Hab : archive <> binaryPath).

(** The three calls of [downloadBinary] on the disk. *)
Lemma downloadBinary_tracks (body : string) :
  runs (kept E binaryPath old n) (fun w => fs w !! binaryPath = Some old)
    (os_Rename E binaryPath archive;;
     os_WriteFile E binaryPath body (octal 6 4 4);;
     os_Chmod E binaryPath (octal 7 4 4);;
     mret tt)
    (fun _ _ => True).
Proof.
  assert (Hk : forall disk : gmap string File,
             disk !! archive = Some old -> kept E binaryPath old n disk).
  { intros disk H. right. exists n. split; [lia | exact H]. }
  apply runs_bind with (Q := fun _ w => fs w !! archive = Some old).
  { apply os_Rename_runs. intros w file Hold Hf.
    assert (H : <[archive := file]> (delete binaryPath (fs w)) !! archive = Some old)
      by (rewrite lookup_insert_eq; congruence).
    split; [apply Hk, H | exact H]. }
  intros _. apply runs_bind with (Q := fun _ w => fs w !! archive = Some old).
  { apply os_WriteFile_runs. intros w x Hold.
    assert (H : <[binaryPath := x]> (fs w) !! archive = Some old)
      by (rewrite lookup_insert_ne by auto; exact Hold).
    split; [apply Hk, H | exact H]. }
  intros _. apply runs_bind with (Q := fun _ w => fs w !! archive = Some old).
  { apply os_Chmod_runs. intros w file Hold Hf.
    assert (H : <[binaryPath := {| content := content file; perm := octal 7 4 4 |}]> (fs w)
                  !! archive = Some old)
      by (rewrite lookup_insert_ne by auto; exact Hold).
    split; [apply Hk, H | exact H]. }
  intros _. apply runs_ret. intros w _. exact I.
Qed.

(** What [downloadArchive] does on the disk: it writes the archive under
    the name drawn first and unpacks it. *)
Lemma downloadArchive_tracks (body : string) :
  fresh_from E (filepath_Dir E archive) binaryPath archive (S n) ->
  runs (kept E binaryPath old n) (drawn (S n) (fun disk => disk !! binaryPath = Some old))
    (os_WriteFile E archive body (octal 6 4 4);;
     if strings_HasSuffix (strings_ToLower E (archiveName updater)) ".tar.gz" then
       extractTarball E updater archive
     else if strings_HasSuffix (strings_ToLower E (archiveName updater)) ".zip" then
       extractZip E updater archive
     else
       fail (Errorf ("Error. Only .tar.gz or .zip archives are supported. Got " ++
                     archiveName updater)))
    (fun _ _ => True).
Proof.
  intros Hfresh.
  apply runs_bind with (Q := fun _ => drawn (S n) (fun disk => disk !! binaryPath = Some old)).
  { apply os_WriteFile_runs. intros w x [Hu Hold].
    assert (H : <[archive := x]> (fs w) !! binaryPath = Some old)
      by (rewrite lookup_insert_ne by auto; exact Hold).
    split; [left; exact H | split; [exact Hu | exact H]]. }
  intros _.
  assert (Hle : forall disk, kept E binaryPath old (S n) disk -> kept E binaryPath old n disk)
    by (intros disk; apply kept_le; lia).
  destruct (strings_HasSuffix _ ".tar.gz");
    [|destruct (strings_HasSuffix _ ".zip"); [|apply runs_fail]].
  - eapply runs_consequence; [intros w H; exact H | intros ? ? _; exact I|].
    apply (runs_mono _ _ _ _ _ Hle), extractTarball_tracks; assumption.
  - eapply runs_consequence; [intros w H; exact H | intros ? ? _; exact I|].
    apply (runs_mono _ _ _ _ _ Hle), extractZip_tracks; assumption.
Qed.

End Replacement.

(** X13.  [Update] never loses the binary it replaces.  Whatever the host
    answers, whatever the archive holds and whichever calls on the disk
    fail, in every state the disk passes through the binary that was at
    the executable's path is, bytes and mode, at that path or in the temp
    directory under a name drawn during the update.  The names drawn are
    assumed to differ from the executable's path and from each other. *)
Theorem Update_never_loses_the_old_binary
    (E : Env) (updater : Updater) (binaryPath : string) (old : File) (w w' : World)
    (r : result unit) :
  os_Executable E = Some binaryPath ->
  fs w !! binaryPath = Some old ->
  filepath_Join E (os_TempDir E) (uuid_NewString E (uuids w)) <> binaryPath ->
  fresh_from E
    (filepath_Dir E (filepath_Join E (os_TempDir E) (uuid_NewString E (uuids w))))
    binaryPath (filepath_Join E (os_TempDir E) (uuid_NewString E (uuids w))) (S (uuids w)) ->
  Update E updater w = (r, w') ->
  exists later,
    states w' = (states w ++ later)%list /\
    Forall (kept E binaryPath old (uuids w)) later.
Proof.
  intros Hexe Hold Hab Hfresh H.
  assert (Hnone : forall w0 : World, states w0 = states w ->
            exists later, states w0 = (states w ++ later)%list /\
              Forall (kept E binaryPath old (uuids w)) later).
  { intros w0 Hs. exists []. split; [rewrite app_nil_r; exact Hs | constructor]. }
  unfold Update in H.
  apply bind_inv in H as [(manifest & w1 & Hm & H) | (e & Hm & ->)].
  2:{ apply GetManifest_inv in Hm as [(-> & _) | (mu & _ & _ & -> & _)];
        apply Hnone; reflexivity. }
  apply GetManifest_inv in Hm as [(_ & e & He) | (mu & _ & _ & -> & _)]; [discriminate|].
  destruct (GetDownloadInfo E manifest) as [[a b]|e].
  2:{ inversion H; subst. apply Hnone. reflexivity. }
  destruct (negb (String.eqb a "")).
  - apply downloadArchive_inv in H
      as [(Hs & _) | (u & _ & _ & [(-> & _) | (resp & _ & _ & H)])].
    + apply Hnone. rewrite Hs. reflexivity.
    + apply Hnone. reflexivity.
    + eapply (downloadArchive_tracks E _ binaryPath old (uuids w) Hexe Hab _ Hfresh) in H.
      * destruct H as [Hl _]. exact Hl.
      * split; [reflexivity | exact Hold].
  - apply downloadBinary_inv in H
      as [(Hs & _) | (bp & u & Hexe' & _ & _ & [(-> & _) | (resp & _ & _ & H)])].
    + apply Hnone. rewrite Hs. reflexivity.
    + apply Hnone. reflexivity.
    + rewrite Hexe in Hexe'. inversion Hexe'; subst bp.
      eapply (downloadBinary_tracks E binaryPath old (uuids w) Hab) in H.
      * destruct H as [Hl _]. exact Hl.
      * exact Hold.
Qed.

Lemma mock_fresh_archive (goos goarch : string) (manifest : UpdaterManifest)
    (served : gmap string string)
    (tars : string -> option (list tar.Next)) (zips : string -> option (list zip.File))
    (faults : nat -> fault) :
  fresh_from (Mock.env goos goarch manifest served tars zips faults) "/tmp" Mock.exe
    "/tmp/uuid-0" 1.
Proof.
  intros j k Hj Hk. cbv -[decimal Z.of_nat].
  repeat split; try (intros H; discriminate H).
  - intros H. inversion H as [Hd].
    change "0" with (decimal (Z.of_nat 0)) in Hd. apply decimal_inj in Hd. lia.
  - intros H. inversion H as [Hd].
    change "0" with (decimal (Z.of_nat 0)) in Hd. apply decimal_inj in Hd. lia.
  - intros Hjk H. apply Hjk. inversion H as [Hd]. apply decimal_inj, Hd.
  - intros Hjk H. apply Hjk. inversion H as [Hd]. apply decimal_inj, Hd.
Qed.

Lemma Update_never_loses_witness :
  exists w' later,
    Update Sample.tar_breaks (New (Mock.cfg "1.0.0")) Mock.world
      = (Err (Failure "os.Rename"), w') /\
    fs w' !! Mock.exe = None /\
    states w' = (states Mock.world ++ later)%list /\
    Forall (kept Sample.tar_breaks Mock.exe {| content := "OLDBIN"; perm := octal 7 5 5 |} 0)
      later.
Proof.
  destruct (Update Sample.tar_breaks (New (Mock.cfg "1.0.0")) Mock.world) as [r w'] eqn:H.
  assert (Hab : "/tmp/uuid-0" <> Mock.exe) by discriminate.
  destruct (Update_never_loses_the_old_binary Sample.tar_breaks (New (Mock.cfg "1.0.0"))
              Mock.exe {| content := "OLDBIN"; perm := octal 7 5 5 |} Mock.world w' r
              eq_refl eq_refl Hab (mock_fresh_archive _ _ _ _ _ _ _) H) as (later & Hl).
  exists w', later. vm_compute in H. inversion H; subst.
  split; [reflexivity|]. split; [vm_compute; reflexivity | exact Hl].
Defined.
